(** * FileIndex: a shallow embedding of
      [python/fusion_engine_client/analysis/file_index.py]

    The development follows the Python module top to bottom:

    - the two NumPy record types [_DTYPE] and [_RAW_DTYPE], with the casts
      that [ndarray.astype] performs between them;
    - NumPy arrays as Python has them: an array object is a view onto a
      buffer that lives in a store, so that basic slicing shares the buffer
      while boolean-mask indexing, fancy indexing, [astype] and [np.append]
      allocate a new one, and item assignment writes through to the buffer;
    - the file system as a finite map from paths to byte strings;
    - the methods of [FileIndex] in a state-and-exception monad over the
      store and the file system;
    - [FileIndexBuilder], and [FileIndexIterator] with the iterator as a
      value that each call of [next] hands on.

    Numbers.  [u2], [u4] and [u8] fields are integers in [Z] together with
    their ranges; where a cast can leave the range the wrap-around is
    written out.  An [f8] time is either NaN or a rational number: every
    finite double is a rational, and the operations [file_index.py] applies
    to times ([np.isnan], [np.floor], [>=] and the cast from [u4]) are exact
    on doubles, so no rounding is involved.  Infinite times are not
    modelled. *)

From Stdlib Require Import ZArith QArith Qround Lia ZifyBool Ascii String.
From stdpp Require Import base option list gmap strings.
From coqutil Require Import Byte Word.LittleEndianList.

Local Open Scope Z_scope.

(** ** Numbers *)

Module Numeric.

Definition in_range (bits : Z) (z : Z) : Prop := 0 <= z < 2 ^ bits.

(** A [float64]: NaN or a finite value. *)
Inductive f8 : Type :=
| NaN : f8
| Fin : Q -> f8.

(** [np.isnan] *)
Definition isnan (x : f8) : bool :=
  match x with NaN => true | Fin _ => false end.

(** [x >= y] on floats: false as soon as one side is NaN. *)
Definition f8_ge (x y : f8) : bool :=
  match x, y with
  | Fin a, Fin b => Qle_bool b a
  | _, _ => false
  end.

(** [x < y] on floats: false as soon as one side is NaN. *)
Definition f8_lt (x y : f8) : bool :=
  match x, y with
  | Fin a, Fin b => negb (Qle_bool b a)
  | _, _ => false
  end.

(** [np.floor] *)
Definition f8_floor (x : f8) : f8 :=
  match x with
  | NaN => NaN
  | Fin q => Fin (inject_Z (Qfloor q))
  end.

(** The cast of an unsigned integer to [f8] (exact below [2^53]). *)
Definition f8_of_Z (z : Z) : f8 := Fin (inject_Z z).

(** The C conversion of a double to an integer drops the fraction. *)
Definition Qtruncate (q : Q) : Z :=
  if Qle_bool 0 q then Qfloor q else Qceiling q.

(** [astype('<u4')] on one [f8].  C defines the conversion for values whose
    truncation lies in [0, 2^32); there it is the truncation.  Outside that
    range, and for NaN, the result depends on the platform.  The model is
    what x86-64 yields: the value is converted to a signed 64-bit integer
    and the low 32 bits are kept, so that a truncation within
    [-2^63, 2^63) is taken modulo [2^32], and a value beyond that range,
    like NaN, gives [0].  [_to_raw] overwrites the NaN slots. *)
Definition f8_to_u4 (x : f8) : Z :=
  match x with
  | NaN => 0
  | Fin q =>
      let t := Qtruncate q in
      if (- 2 ^ 63 <=? t) && (t <? 2 ^ 63) then t mod 2 ^ 32 else 0
  end.

End Numeric.
Export Numeric.

(** ** Index records *)

(** One row of an array of dtype
    [_DTYPE = [('time', '<f8'), ('type', '<u2'), ('offset', '<u8')]]. *)
Record entry : Type := Entry {
  time : f8;
  type : Z;
  offset : Z
}.

(** One row of an array of dtype
    [_RAW_DTYPE = [('int', '<u4'), ('type', '<u2'), ('offset', '<u8')]]. *)
Module Raw.
Record t : Type := Row {
  int : Z;
  type : Z;
  offset : Z
}.
End Raw.

Definition entry_ok (e : entry) : Prop :=
  in_range 16 (type e) /\ in_range 64 (offset e).

Definition raw_ok (r : Raw.t) : Prop :=
  in_range 32 (Raw.int r) /\ in_range 16 (Raw.type r) /\ in_range 64 (Raw.offset r).

(** Whether the integers of a row given as a Python tuple fit the [u2] and
    the [u8] field. *)
Definition fits (e : entry) : bool :=
  (0 <=? type e) && (type e <? 2 ^ 16) && (0 <=? offset e) && (offset e <? 2 ^ 64).

(** [astype] between the two structured dtypes converts field by field, in
    field order. *)
Definition astype_RAW_DTYPE (e : entry) : Raw.t :=
  Raw.Row (f8_to_u4 (time e)) (type e) (offset e).

Definition astype_DTYPE (r : Raw.t) : entry :=
  Entry (f8_of_Z (Raw.int r)) (Raw.type r) (Raw.offset r).

(** *** The 14 bytes of a raw row on disk ([tofile] / [np.fromfile]) *)

Definition itemsize : nat := 14.

Definition row_to_bytes (r : Raw.t) : list byte :=
  le_split 4 (Raw.int r) ++ le_split 2 (Raw.type r) ++ le_split 8 (Raw.offset r).

Definition row_of_bytes (bs : list byte) : Raw.t :=
  Raw.Row (le_combine (take 4 bs))
          (le_combine (take 2 (drop 4 bs)))
          (le_combine (take 8 (drop 6 bs))).

Definition rows_to_bytes (rs : list Raw.t) : list byte :=
  concat (map row_to_bytes rs).

(** [np.fromfile(path, dtype)] reads as many whole items as the file holds;
    trailing bytes that do not fill an item are left unread. *)
Fixpoint rows_of_bytes_n (n : nat) (bs : list byte) : list Raw.t :=
  match n with
  | O => []
  | S n' => row_of_bytes (take itemsize bs) :: rows_of_bytes_n n' (drop itemsize bs)
  end.

Definition rows_of_bytes (bs : list byte) : list Raw.t :=
  rows_of_bytes_n (length bs / itemsize)%nat bs.

(** ** What the module imports

    [Timestamp], [MessageType] and [MessageHeader] come from
    [fusion_engine_client.messages], and [os.path.splitext] and the
    attributes of [object] from Python itself; [file_index.py] uses the
    constants and functions below, which are parameters of the
    development. *)
Record Env : Type := {
  (** [Timestamp._INVALID], the [u4] value that stands for "no P1 time" *)
  Timestamp_INVALID : Z;
  (** [int(MessageType.INVALID)] *)
  MessageType_INVALID : Z;
  (** [MessageHeader.calcsize()], the size of a message header in bytes *)
  calcsize : Z;
  (** [MessageHeader.unpack(buffer)] followed by [.payload_size_bytes];
      [None] when [unpack] raises. *)
  unpack_payload_size_bytes : list byte -> option Z;
  (** [os.path.splitext(path)[0]] *)
  splitext_root : string -> string;
  (** Whether the Python runtime gives every instance an attribute of this
      name: the names of [object] ([__class__], [__repr__], ...) and
      [__dict__], [__doc__], [__module__] and [__weakref__].  All of them
      start with two underscores, and the parameter is asked about such
      names only. *)
  runtime_attribute : string -> bool
}.

(** ** Exceptions *)

(** The [ValueError]s of the module, by message, with the values that the
    message reports. *)
Inductive value_error : Type :=
| Unsupported_array_format
| Cannot_specify_both_path_and_data
| Specified_data_file_not_found (data_path : string)
| Data_file_empty_but_index_populated (elements : Z)
| Index_file_empty_but_data_file_not_0_length (size : Z)
| Size_expected_by_index_file_does_not_match (size expected : Z)
| Last_index_entry_past_end_of_file (size start_offset : Z)
| Unrecognized_control_hint
| Step_size_not_supported
| Unsupported_key_type
| slice_step_cannot_be_zero          (* raised by NumPy *)
| argmax_of_an_empty_sequence.       (* raised by NumPy *)

Inductive exn : Type :=
| FileNotFoundError (path : string)
| ValueError (e : value_error)
| IndexError
| AttributeError
| TypeError
| OverflowError   (* a Python integer that does not fit the field it is cast to *)
| HeaderError     (* whatever [MessageHeader.unpack] raises *)
| Stuck.          (* a reference to no array: Python never gets here *)

Inductive result (A : Type) : Type :=
| Ok (a : A)
| Raise (e : exn).
Arguments Ok {A} a.
Arguments Raise {A} e.

(** ** The store: array buffers and files *)

Definition loc : Type := positive.

(** The memory of an array, of one dtype or the other. *)
Inductive buffer : Type :=
| index_buf (rows : list entry)
| raw_buf (rows : list Raw.t).

(** An array object: the buffer it looks into and, element by element, the
    buffer cell it shows.  The array that owns its buffer shows cells
    [0, 1, ..., n-1]; a basic slice of it shows some of the same cells. *)
Record ndarray : Type := Ndarray {
  base : loc;
  cells : list nat
}.

Record state : Type := State {
  heap : gmap loc buffer;
  files : gmap string (list byte)
}.

Definition set_heap (h : gmap loc buffer) (s : state) : state :=
  State h (files s).

Definition set_files (f : gmap string (list byte)) (s : state) : state :=
  State (heap s) f.

(** ** The monad *)

Definition M (A : Type) : Type := state -> result A * state.

Definition ret {A} (a : A) : M A := fun s => (Ok a, s).

Definition raise {A} (e : exn) : M A := fun s => (Raise e, s).

Definition bind {A B} (m : M A) (k : A -> M B) : M B :=
  fun s =>
    match m s with
    | (Ok a, s') => k a s'
    | (Raise e, s') => (Raise e, s')
    end.

Declare Scope py_scope.
Delimit Scope py_scope with py.
Notation "x <- m ;; k" := (bind m (fun x => k))
  (at level 100, m at next level, right associativity) : py_scope.
Notation "m ;; k" := (bind m (fun _ => k))
  (at level 100, right associativity) : py_scope.
Local Open Scope py_scope.

(** [if c: m] with no [else] *)
Definition when (c : bool) (m : M unit) : M unit :=
  if c then m else ret tt.

(** *** Reading and writing arrays *)

(** The elements an array shows of a buffer's rows. *)
Definition view {A} (rows : list A) (cs : list nat) : option (list A) :=
  mapM (fun c => rows !! c) cs.

Definition contents (h : gmap loc buffer) (a : ndarray) : option (list entry) :=
  match h !! base a with
  | Some (index_buf rows) => view rows (cells a)
  | _ => None
  end.

Definition raw_contents (h : gmap loc buffer) (a : ndarray) : option (list Raw.t) :=
  match h !! base a with
  | Some (raw_buf rows) => view rows (cells a)
  | _ => None
  end.

Definition read (a : ndarray) : M (list entry) :=
  fun s =>
    match contents (heap s) a with
    | Some xs => (Ok xs, s)
    | None => (Raise Stuck, s)
    end.

Definition read_raw (a : ndarray) : M (list Raw.t) :=
  fun s =>
    match raw_contents (heap s) a with
    | Some xs => (Ok xs, s)
    | None => (Raise Stuck, s)
    end.

(** A new buffer, and the array that owns it. *)
Definition alloc (b : buffer) (n : nat) : M ndarray :=
  fun s =>
    let l := fresh (dom (heap s)) in
    (Ok (Ndarray l (seq 0 n)), set_heap (<[l := b]> (heap s)) s).

Definition new_array (rows : list entry) : M ndarray :=
  alloc (index_buf rows) (length rows).

Definition new_raw_array (rows : list Raw.t) : M ndarray :=
  alloc (raw_buf rows) (length rows).

(** [a[mask] = ...] on one field: the write goes to the buffer cells that
    [a] shows where the mask is set. *)
Definition write_cells {A} (f : A -> A) (cs : list nat) (mask : list bool)
    (rows : list A) : list A :=
  foldr (fun (cb : nat * bool) (acc : list A) =>
           if snd cb then alter f (fst cb) acc else acc)
        rows (zip cs mask).

Definition assign_where (a : ndarray) (mask : list bool) (f : entry -> entry) : M unit :=
  fun s =>
    match heap s !! base a with
    | Some (index_buf rows) =>
        (Ok tt, set_heap (<[base a := index_buf (write_cells f (cells a) mask rows)]> (heap s)) s)
    | _ => (Raise Stuck, s)
    end.

Definition assign_raw_where (a : ndarray) (mask : list bool) (f : Raw.t -> Raw.t) : M unit :=
  fun s =>
    match heap s !! base a with
    | Some (raw_buf rows) =>
        (Ok tt, set_heap (<[base a := raw_buf (write_cells f (cells a) mask rows)]> (heap s)) s)
    | _ => (Raise Stuck, s)
    end.

(** [a.dtype == FileIndex._DTYPE] *)
Definition has_DTYPE (a : ndarray) : M bool :=
  fun s =>
    match heap s !! base a with
    | Some (index_buf _) => (Ok true, s)
    | Some (raw_buf _) => (Ok false, s)
    | None => (Raise Stuck, s)
    end.

(** *** Files *)

(** [os.path.exists] *)
Definition path_exists (path : string) : M bool :=
  fun s => (Ok (bool_decide (is_Some (files s !! path))), s).

(** The bytes of a file that is opened for reading. *)
Definition read_file (path : string) : M (list byte) :=
  fun s =>
    match files s !! path with
    | Some bs => (Ok bs, s)
    | None => (Raise (FileNotFoundError path), s)
    end.

(** [os.remove] *)
Definition os_remove (path : string) : M unit :=
  fun s =>
    match files s !! path with
    | Some _ => (Ok tt, set_files (delete path (files s)) s)
    | None => (Raise (FileNotFoundError path), s)
    end.

(** [os.stat(path).st_size] *)
Definition st_size (path : string) : M Z :=
  bs <- read_file path ;; ret (Z.of_nat (length bs)).

(** Creating or overwriting a file with the given bytes. *)
Definition write_file (path : string) (bs : list byte) : M unit :=
  fun s => (Ok tt, set_files (<[path := bs]> (files s)) s).

(** ** NumPy operations *)

Module np.

(** [np.argmax] of a boolean array: the position of the first [True], and
    [0] when there is none. *)
Fixpoint first_true (mask : list bool) : option nat :=
  match mask with
  | [] => None
  | true :: _ => Some 0%nat
  | false :: mask' => S <$> first_true mask'
  end.

Definition argmax_bool (mask : list bool) : nat :=
  default 0%nat (first_true mask).

Definition argmax (mask : list bool) : M Z :=
  match mask with
  | [] => raise (ValueError argmax_of_an_empty_sequence)
  | _ => ret (Z.of_nat (argmax_bool mask))
  end.

(** *** Basic slicing: [PySlice_AdjustIndices] *)

Definition adjust (len step i : Z) : Z :=
  if i <? 0 then
    if i + len <? 0 then (if step <? 0 then -1 else 0) else i + len
  else if len <=? i then (if step <? 0 then len - 1 else len)
  else i.

Definition slice_start (len step : Z) (start : option Z) : Z :=
  match start with
  | Some i => adjust len step i
  | None => if step <? 0 then len - 1 else 0
  end.

Definition slice_stop (len step : Z) (stop : option Z) : Z :=
  match stop with
  | Some i => adjust len step i
  | None => if step <? 0 then -1 else len
  end.

Definition slice_length (start stop step : Z) : Z :=
  if step <? 0 then
    if stop <? start then (start - stop - 1) / (- step) + 1 else 0
  else
    if start <? stop then (stop - start - 1) / step + 1 else 0.

(** The positions [start, start + step, ...] that [a[start:stop:step]]
    selects in an array of [len] elements. *)
Definition slice_positions (len : nat) (start stop : option Z) (step : Z) : list nat :=
  let lo := slice_start (Z.of_nat len) step start in
  let hi := slice_stop (Z.of_nat len) step stop in
  map (fun k => Z.to_nat (lo + Z.of_nat k * step))
      (seq 0 (Z.to_nat (slice_length lo hi step))).

(** The elements of [xs] at the given positions, in the order given. *)
Definition select {A} (xs : list A) (ps : list nat) : list A :=
  omap (fun p => xs !! p) ps.

(** [a[start:stop:step]]: a new array object onto the same buffer. *)
Definition getitem_slice (a : ndarray) (start stop step : option Z) : M ndarray :=
  match step with
  | Some 0 => raise (ValueError slice_step_cannot_be_zero)
  | _ =>
      ret (Ndarray (base a)
             (select (cells a)
                (slice_positions (length (cells a)) start stop (default 1 step))))
  end.

(** The elements of [xs] where the mask is set. *)
Fixpoint compress {A} (mask : list bool) (xs : list A) : list A :=
  match mask, xs with
  | b :: mask', x :: xs' => if b then x :: compress mask' xs' else compress mask' xs'
  | _, _ => []
  end.

(** [a[mask]] for a boolean array [mask]: a copy. *)
Definition getitem_mask (a : ndarray) (mask : list bool) : M ndarray :=
  xs <- read a ;;
  if bool_decide (length mask = length xs)
  then new_array (compress mask xs)
  else raise IndexError.

(** One integer index into [len] elements; negative indices count from the
    end. *)
Definition position (len : nat) (k : Z) : option nat :=
  if (- Z.of_nat len <=? k) && (k <? Z.of_nat len)
  then Some (Z.to_nat (if k <? 0 then k + Z.of_nat len else k))
  else None.

(** [a[ks]] for an integer array [ks]: a copy. *)
Definition getitem_array (a : ndarray) (ks : list Z) : M ndarray :=
  xs <- read a ;;
  match mapM (position (length xs)) ks with
  | Some ps => new_array (select xs ps)
  | None => raise IndexError
  end.

(** [np.array(rows, dtype=_DTYPE)] for a Python list of tuples.  An integer
    that does not fit its field makes NumPy 2 raise [OverflowError];
    NumPy 1 stored it modulo the width of the field, with a warning in
    its later versions.  The model is NumPy 2, and the statements about
    lists of rows are about rows that fit, where the versions agree. *)
Definition array (rows : list entry) : M ndarray :=
  if forallb fits rows then new_array rows else raise OverflowError.

(** [column[-1]] *)
Definition item_last {A} (column : list A) : M A :=
  match last column with
  | Some x => ret x
  | None => raise IndexError
  end.

(** [np.append(a, row)]: a copy with one more row. *)
Definition append (a : ndarray) (row : entry) : M ndarray :=
  xs <- read a ;; new_array (xs ++ [row]).

(** [a.astype(dtype=_RAW_DTYPE)] and [a.astype(dtype=_DTYPE)]: copies. *)
Definition astype_RAW (a : ndarray) : M ndarray :=
  xs <- read a ;; new_raw_array (map astype_RAW_DTYPE xs).

Definition astype (a : ndarray) : M ndarray :=
  rs <- read_raw a ;; new_array (map astype_DTYPE rs).

Definition fromfile (path : string) : M ndarray :=
  bs <- read_file path ;; new_raw_array (rows_of_bytes bs).

Definition tofile (a : ndarray) (path : string) : M unit :=
  rs <- read_raw a ;; write_file path (rows_to_bytes rs).

(** [idx[start:stop] = True] on a local boolean array. *)
Definition set_range (idx : list bool) (start stop : Z) : list bool :=
  let ps := slice_positions (length idx) (Some start) (Some stop) 1 in
  foldr (fun p acc => <[p := true]> acc) idx ps.

End np.

(** ** FileIndex *)

Record FileIndex : Type := {
  _data : ndarray;
  (** [None], or [Some t] for [Timestamp(t)] *)
  t0 : option f8
}.

Definition set_time (t : f8) (e : entry) : entry :=
  Entry t (type e) (offset e).

Definition set_int (i : Z) (r : Raw.t) : Raw.t :=
  Raw.Row i (Raw.type r) (Raw.offset r).

Section FileIndex.

Context (env : Env).

(** [FileIndex._from_raw] *)
Definition _from_raw (raw_data : ndarray) : M ndarray :=
  rs <- read_raw raw_data ;;
  let idx := map (fun r => Raw.int r =? Timestamp_INVALID env) rs in
  data <- np.astype raw_data ;;
  assign_where data idx (set_time NaN) ;;
  ret data.

(** [FileIndex._to_raw] *)
Definition _to_raw (data : ndarray) : M ndarray :=
  xs <- read data ;;
  let time_sec := map time xs in
  let idx := map isnan time_sec in
  raw_data <- np.astype_RAW data ;;
  assign_raw_where raw_data idx (set_int (Timestamp_INVALID env)) ;;
  ret raw_data.

(** The part of [FileIndex.load] under [with open(data_path, 'rb')]
    (lines 200-258); [self_data] is [self._data], and the value returned
    is [self._data] at the end. *)
Definition load_check (self_data : ndarray) (index_path data_path : string)
    (delete_on_error : bool) : M ndarray :=
  data_file <- read_file data_path ;;
  let data_file_size := Z.of_nat (length data_file) in
  xs <- read self_data ;;
  let len_self := Z.of_nat (length xs) in
  (* Check for empty files. *)
  if (data_file_size =? 0) && negb (len_self =? 0) then
    when delete_on_error (os_remove index_path) ;;
    raise (ValueError (Data_file_empty_but_index_populated len_self))
  else if negb (data_file_size =? 0) && (len_self =? 0) then
    when delete_on_error (os_remove index_path) ;;
    raise (ValueError (Index_file_empty_but_data_file_not_0_length data_file_size))
  else
    last_type <- np.item_last (map type xs) ;;
    if last_type =? MessageType_INVALID env then
      expected_data_file_size <- np.item_last (map offset xs) ;;
      self_data <- np.getitem_slice self_data None (Some (-1)) None ;;
      if data_file_size =? expected_data_file_size then
        ret self_data
      else
        raise (ValueError (Size_expected_by_index_file_does_not_match
                             data_file_size expected_data_file_size))
    else
      (* See if the last entry in the index is past the end of the data file. *)
      last_offset <- np.item_last (map offset xs) ;;
      if data_file_size - calcsize env <? last_offset then
        when delete_on_error (os_remove index_path) ;;
        raise (ValueError (Last_index_entry_past_end_of_file data_file_size last_offset))
      else
        (* Read the header of the last entry to get its size. *)
        let buffer := take (Z.to_nat (calcsize env)) (drop (Z.to_nat last_offset) data_file) in
        match unpack_payload_size_bytes env buffer with
        | None => raise HeaderError
        | Some payload_size_bytes =>
            let message_size_bytes := calcsize env + payload_size_bytes in
            let expected_data_file_size := last_offset + message_size_bytes in
            if negb (expected_data_file_size =? data_file_size) then
              when delete_on_error (os_remove index_path) ;;
              raise (ValueError (Size_expected_by_index_file_does_not_match
                                   data_file_size expected_data_file_size))
            else ret self_data
        end.

(** The first statement of [FileIndex.load] (lines 180-184): the value
    returned is what it assigns to [self._data]. *)
Definition load_index (index_path : string) : M ndarray :=
  index_exists <- path_exists index_path ;;
  if index_exists : bool then
    raw_data <- np.fromfile index_path ;;
    _from_raw raw_data
  else raise (FileNotFoundError index_path).

(** [FileIndex.load]; the value returned is [self._data] at the end. *)
Definition load (index_path : string) (data_path : option string)
    (delete_on_error : bool) : M ndarray :=
  self_data <- load_index index_path ;;
  match data_path with
  | None =>
      let data_path := (splitext_root env index_path ++ ".p1log")%string in
      data_exists <- path_exists data_path ;;
      if negb data_exists then
        (* The default file doesn't exist: not considered an error. *)
        xs <- read self_data ;;
        last_type <- np.item_last (map type xs) ;;
        if last_type =? MessageType_INVALID env
        then np.getitem_slice self_data None (Some (-1)) None
        else ret self_data
      else load_check self_data index_path data_path delete_on_error
  | Some data_path =>
      data_exists <- path_exists data_path ;;
      if negb data_exists then
        raise (ValueError (Specified_data_file_not_found data_path))
      else load_check self_data index_path data_path delete_on_error
  end.

(** The [data] argument of the constructor: a Python list of rows or an
    array. *)
Inductive data_arg : Type :=
| data_list (rows : list entry)
| data_array (a : ndarray).

(** [FileIndex.__init__] *)
Definition __init__ (index_path data_path : option string) (delete_on_error : bool)
    (data : option data_arg) (t0 : option f8) : M FileIndex :=
  self_data <-
    match data with
    | None => ret None
    | Some (data_list rows) => a <- np.array rows ;; ret (Some a)
    | Some (data_array a) =>
        same <- has_DTYPE a ;;
        if same : bool then ret (Some a)
        else raise (ValueError Unsupported_array_format)
    end ;;
  self_data <-
    match index_path with
    | Some index_path =>
        match self_data with
        | None => a <- load index_path data_path delete_on_error ;; ret (Some a)
        | Some _ => raise (ValueError Cannot_specify_both_path_and_data)
        end
    | None => ret self_data
    end ;;
  self_data <-
    match self_data with
    | None => new_array []
    | Some a => ret a
    end ;;
  self_t0 <-
    match t0 with
    | Some t => ret (Some t)
    | None =>
        xs <- read self_data ;;
        if bool_decide (length xs = 0%nat) then ret None
        else
          idx <- np.argmax (map (fun e => negb (isnan (time e))) xs) ;;
          if 0 <=? idx then
            match xs !! Z.to_nat idx with
            | Some e => ret (Some (time e))
            | None => raise IndexError
            end
          else ret None
    end ;;
  ret {| _data := self_data; t0 := self_t0 |}.

(** [FileIndex(data=a, t0=t)] *)
Definition FileIndex_of (a : ndarray) (t : option f8) : M FileIndex :=
  __init__ None None true (Some (data_array a)) t.

(** [FileIndex.save] *)
Definition save (self : FileIndex) (index_path : string) (data_path : option string) : M unit :=
  xs <- read (_data self) ;;
  when (bool_decide (0 < length xs)%nat) (
    (* Append an EOF marker at the end of the data if data_path is specified. *)
    let data := _data self in
    last_type <- np.item_last (map type xs) ;;
    data <-
      match data_path with
      | Some data_path =>
          if negb (last_type =? MessageType_INVALID env) then
            file_size_bytes <- st_size data_path ;;
            np.append data (Entry NaN (MessageType_INVALID env) file_size_bytes)
          else ret data
      | None => ret data
      end ;;
    raw_data <- _to_raw data ;;
    index_exists <- path_exists index_path ;;
    when index_exists (os_remove index_path) ;;
    np.tofile raw_data index_path).

(** [FileIndex.get_time_range] *)
Definition get_time_range (self : FileIndex) (start stop : option f8)
    (hint : option string) : M FileIndex :=
  let hint := default "include_nans"%string hint in
  xs <- read (_data self) ;;
  (* No data available. Skip time indexing. *)
  if bool_decide (length xs = 0%nat) then
    FileIndex_of (_data self) (t0 self)
  else
    (* Note: The index stores only the integer part of the timestamp. *)
    start_idx <-
      match start with
      | Some start => np.argmax (map (fun e => f8_ge (time e) (f8_floor start)) xs)
      | None => ret 0
      end ;;
    end_idx <-
      match stop with
      | Some stop => np.argmax (map (fun e => f8_ge (time e) stop) xs)
      | None => ret (Z.of_nat (length xs))
      end ;;
    if String.eqb hint "include_nans" then
      a <- np.getitem_slice (_data self) (Some start_idx) (Some end_idx) None ;;
      FileIndex_of a (t0 self)
    else
      let idx := repeat false (length xs) in
      let idx := np.set_range idx start_idx end_idx in
      let nan_idx := map (fun e => isnan (time e)) xs in
      idx <-
        (if String.eqb hint "all_nans" then
           ret (zip_with orb idx nan_idx)
         else if String.eqb hint "remove_nans" then
           ret (zip_with (fun i n => i && negb n) idx nan_idx)
         else raise (ValueError Unrecognized_control_hint)) ;;
      a <- np.getitem_mask (_data self) idx ;;
      FileIndex_of a (t0 self).

(** *** Keys of [FileIndex.__getitem__] *)

(** A bound of a [slice]: an [int], or a [float] or [Timestamp]. *)
Inductive bound : Type :=
| bound_int (i : Z)
| bound_time (t : f8).

(** The [step] of a [slice]: an [int] or a [str]. *)
Inductive slice_step : Type :=
| step_int (i : Z)
| step_str (hint : string).

(** An element of a list or tuple key: a [MessageType], a [MessagePayload]
    subclass (given by its [get_type()]), or an [int]. *)
Inductive item : Type :=
| item_type (t : Z)
| item_class (t : Z)
| item_int (i : Z).

(** The keys that [__getitem__] tells apart.  [TimeRange] keys (from
    [utils.time_range]) are resolved to a call of [get_time_range] and are
    not modelled; [key_other] is any object of another type. *)
Inductive key : Type :=
| key_None
| key_str (name : string)
| key_type (t : Z)
| key_class (t : Z)
| key_seq (items : list item)
| key_int (i : Z)
| key_slice (start stop : option bound) (step : option slice_step)
| key_other.

(** What [__getitem__] returns: a [FileIndex], or for a [str] key what
    [getattr] finds under that name: one column of [self._data] (a view
    onto the same buffer), the array [self._data] itself, [self.t0], or a
    method or constant of the class or of [object]. *)
Inductive column : Type := column_time | column_type | column_offset.

Inductive got : Type :=
| got_index (index : FileIndex)
| got_column (field : column) (a : ndarray)
| got_array (a : ndarray)
| got_t0 (t : option f8)
| got_member (name : string).

(** [FileIndex.__getattr__] *)
Definition __getattr__ (self : FileIndex) (name : string) : M got :=
  if String.eqb name "time" then ret (got_column column_time (_data self))
  else if String.eqb name "type" then ret (got_column column_type (_data self))
  else if String.eqb name "offset" then ret (got_column column_offset (_data self))
  else raise AttributeError.

(** The names that the body of [class FileIndex] binds. *)
Definition class_attributes : list string :=
  ["_RAW_DTYPE"; "_DTYPE"; "__init__"; "load"; "save"; "get_time_range"; "__len__";
   "__getattr__"; "__getitem__"; "__iter__"; "get_path"; "_from_raw"; "_to_raw"]%string.

(** [getattr(self, name)].  The ordinary lookup comes first: it finds the
    two instance attributes [_data] and [t0], what the class body binds, and
    what the runtime gives every object.  [__getattr__] is called only for
    a name that this lookup does not find. *)
Definition getattr (self : FileIndex) (name : string) : M got :=
  if String.eqb name "_data" then ret (got_array (_data self))
  else if String.eqb name "t0" then ret (got_t0 (t0 self))
  else if bool_decide (name ∈ class_attributes)
          || (String.prefix "__" name && runtime_attribute env name)
  then ret (got_member name)
  else __getattr__ self name.

Definition is_time (b : option bound) : bool :=
  match b with Some (bound_time _) => true | _ => false end.

(** A slice bound handed to [get_time_range]. *)
Definition bound_value (b : bound) : f8 :=
  match b with
  | bound_int i => f8_of_Z i
  | bound_time t => t
  end.

(** [int(k)] *)
Definition int_of_item (k : item) : option Z :=
  match k with
  | item_type t => Some t
  | item_int i => Some i
  | item_class _ => None
  end.

(** [k.get_type()] *)
Definition get_type_of_item (k : item) : option Z :=
  match k with
  | item_class t => Some t
  | _ => None
  end.

(** [np.isin(column, values)] *)
Definition isin (column values : list Z) : list bool :=
  map (fun x => bool_decide (x ∈ values)) column.

(** [FileIndex.__getitem__] *)
Definition __getitem__ (self : FileIndex) (k : key) : M got :=
  match k with
  | key_None =>
      (* copy.copy(self) *)
      ret (got_index {| _data := _data self; t0 := t0 self |})
  | _ =>
      xs <- read (_data self) ;;
      if bool_decide (length xs = 0%nat) then
        (* No data available. *)
        index <- __init__ None None true None None ;; ret (got_index index)
      else
        match k with
        | key_None => ret (got_index self)
        | key_str name => getattr self name
        | key_type t | key_class t =>
            let idx := map (fun e => type e =? t) xs in
            a <- np.getitem_mask (_data self) idx ;;
            index <- FileIndex_of a (t0 self) ;; ret (got_index index)
        | key_seq ((item_type _ :: _) as items) =>
            match mapM int_of_item items with
            | Some ts =>
                let idx := isin (map type xs) ts in
                a <- np.getitem_mask (_data self) idx ;;
                index <- FileIndex_of a (t0 self) ;; ret (got_index index)
            | None => raise TypeError
            end
        | key_seq ((item_class _ :: _) as items) =>
            match mapM get_type_of_item items with
            | Some ts =>
                let idx := isin (map type xs) ts in
                a <- np.getitem_mask (_data self) idx ;;
                index <- FileIndex_of a (t0 self) ;; ret (got_index index)
            | None => raise AttributeError
            end
        | key_int i =>
            a <- np.getitem_slice (_data self) (Some i) (Some (i + 1)) None ;;
            index <- FileIndex_of a (t0 self) ;; ret (got_index index)
        | key_slice start stop step =>
            if is_time start || is_time stop then
              match step with
              | Some (step_int _) => raise (ValueError Step_size_not_supported)
              | Some (step_str hint) =>
                  index <- get_time_range self (bound_value <$> start)
                             (bound_value <$> stop) (Some hint) ;;
                  ret (got_index index)
              | None =>
                  index <- get_time_range self (bound_value <$> start)
                             (bound_value <$> stop) None ;;
                  ret (got_index index)
              end
            else
              let position b := match b with bound_int i => i | bound_time _ => 0 end in
              match step with
              | Some (step_str _) => raise TypeError
              | Some (step_int i) =>
                  a <- np.getitem_slice (_data self) (position <$> start)
                         (position <$> stop) (Some i) ;;
                  index <- FileIndex_of a (t0 self) ;; ret (got_index index)
              | None =>
                  a <- np.getitem_slice (_data self) (position <$> start)
                         (position <$> stop) None ;;
                  index <- FileIndex_of a (t0 self) ;; ret (got_index index)
              end
        | key_seq [] =>
            index <- __init__ None None true (Some (data_list [])) (t0 self) ;;
            ret (got_index index)
        | key_seq items =>
            match mapM int_of_item items with
            | Some ks =>
                a <- np.getitem_array (_data self) ks ;;
                index <- FileIndex_of a (t0 self) ;; ret (got_index index)
            | None => raise IndexError
            end
        | key_other => raise (ValueError Unsupported_key_type)
        end
  end.

(** [FileIndex.__len__] *)
Definition __len__ (self : FileIndex) : M Z :=
  xs <- read (_data self) ;; ret (Z.of_nat (length (map time xs))).

(** [FileIndex.get_path] *)
Definition get_path (data_path : string) : string :=
  (splitext_root env data_path ++ ".p1i")%string.

(** ** FileIndexBuilder *)

(** [FileIndexBuilder.append] on [self.raw_data] *)
Definition append (raw_data : list entry) (message_type offset_bytes : Z)
    (p1_time : option f8) : list entry :=
  let time_sec := match p1_time with None => NaN | Some t => t end in
  raw_data ++ [Entry time_sec message_type offset_bytes].

(** [FileIndexBuilder.to_index] *)
Definition to_index (raw_data : list entry) : M FileIndex :=
  __init__ None None true (Some (data_list raw_data)) None.

(** [FileIndexBuilder.save] *)
Definition builder_save (raw_data : list entry) (index_path : string)
    (data_path : option string) : M FileIndex :=
  index <- to_index raw_data ;;
  save index index_path data_path ;;
  ret index.

(** [FileIndexBuilder.__len__] *)
Definition builder_len (raw_data : list entry) : Z := Z.of_nat (length raw_data).

End FileIndex.

(** ** FileIndexIterator *)

(** [FileIndexEntry = namedtuple('Element', ['time', 'type', 'offset'])],
    with the [Timestamp] as its value in seconds and the [MessageType] as
    its integer. *)
Record FileIndexEntry : Type := Element {
  entry_time : f8;
  entry_type : Z;
  entry_offset : Z
}.

(** [iter(a)] for an array [a]: the array, and the position of the element
    that comes next. *)
Record np_iterator_state : Type := Np_iterator {
  it_seq : ndarray;
  it_index : nat
}.

Record FileIndexIterator : Type := {
  (** [None], or the iterator over [self._data] *)
  np_iterator : option np_iterator_state
}.

(** How a call of [next(it)] ends: with an entry, with [StopIteration], or
    with another exception. *)
Inductive next_result : Type :=
| Next (entry : FileIndexEntry)
| StopIteration
| NextRaise (e : exn).

Section FileIndexIterator.

(** [MessageType(value)] of [fusion_engine_client.messages]: the member with
    that value, or the exception that the enum raises for it. *)
Context (MessageType_new : Z -> result Z).

(** [FileIndexIterator.__next__]: how the call ends, and the iterator as it
    is afterwards. *)
Definition __next__ (self : FileIndexIterator) : M (next_result * FileIndexIterator) :=
  match np_iterator self with
  | None => ret (StopIteration, self)
  | Some it =>
      (* entry = next(self.np_iterator) *)
      xs <- read (it_seq it) ;;
      match xs !! it_index it with
      | None => ret (StopIteration, self)
      | Some entry =>
          let self := {| np_iterator := Some (Np_iterator (it_seq it) (S (it_index it))) |} in
          match MessageType_new (type entry) with
          | Ok message_type =>
              ret (Next (Element (time entry) message_type (offset entry)), self)
          | Raise e => ret (NextRaise e, self)
          end
      end
  end.

(** [FileIndex.__iter__] *)
Definition __iter__ (self : FileIndex) : M FileIndexIterator :=
  xs <- read (_data self) ;;
  if bool_decide (length xs = 0%nat) then ret {| np_iterator := None |}
  else ret {| np_iterator := Some (Np_iterator (_data self) 0) |}.

End FileIndexIterator.

(** ** An environment for the worked examples

    The sentinel [0xFFFFFFFF], [MessageType.INVALID = 0], a 24-byte header
    whose payload length is the little-endian [u4] at byte 16,
    [posixpath.splitext], and the attributes of a CPython object. *)
Module Example.

(** [str.rfind] for one character, [-1] when it does not occur. *)
Definition rfind (c : ascii) (p : list ascii) : Z :=
  foldl (fun acc ix => if Ascii.eqb (snd ix) c then Z.of_nat (fst ix) else acc)
        (-1) (imap pair p).

(** [genericpath._splitext(p, '/', None, '.')[0]] *)
Definition posix_splitext_root (path : string) : string :=
  let p := list_ascii_of_string path in
  let sepIndex := rfind "/"%char p in
  let dotIndex := rfind "."%char p in
  if (sepIndex <? dotIndex)
     && existsb (fun c => negb (Ascii.eqb c "."%char))
          (take (Z.to_nat (dotIndex - (sepIndex + 1))) (drop (Z.to_nat (sepIndex + 1)) p))
  then string_of_list_ascii (take (Z.to_nat dotIndex) p)
  else path.

Definition header_payload_size (buffer : list byte) : option Z :=
  if bool_decide (length buffer = 24%nat)
  then Some (le_combine (take 4 (drop 16 buffer)))
  else None.

(** The attributes that CPython gives an instance of a class that derives
    from [object]. *)
Definition object_attributes : list string :=
  ["__class__"; "__delattr__"; "__dict__"; "__dir__"; "__doc__"; "__eq__"; "__format__";
   "__ge__"; "__getattribute__"; "__getstate__"; "__gt__"; "__hash__"; "__init__";
   "__init_subclass__"; "__le__"; "__lt__"; "__module__"; "__ne__"; "__new__";
   "__reduce__"; "__reduce_ex__"; "__repr__"; "__setattr__"; "__sizeof__"; "__str__";
   "__subclasshook__"; "__weakref__"]%string.

Definition env : Env := {|
  Timestamp_INVALID := 0xFFFFFFFF;
  MessageType_INVALID := 0;
  calcsize := 24;
  unpack_payload_size_bytes := header_payload_size;
  splitext_root := posix_splitext_root;
  runtime_attribute := fun name => bool_decide (name ∈ object_attributes)
|}.

(** The store with no array and the given files. *)
Definition disk (fs : list (string * list byte)) : state :=
  State ∅ (list_to_map fs).

(** A message of [n] payload bytes: a header that says so, then zeros. *)
Definition message (n : nat) : list byte :=
  repeat Byte.x00 16 ++ le_split 4 (Z.of_nat n) ++ repeat Byte.x00 4
    ++ repeat Byte.x00 n.

(** The time [z] seconds. *)
Definition time_of_Z (z : Z) : f8 := Fin (inject_Z z).

End Example.

(** * Notions used in the statements *)

(** The state after a new buffer [b] has been allocated. *)
Definition allocated (b : buffer) (s : state) : state :=
  set_heap (<[fresh (dom (heap s)) := b]> (heap s)) s.

(** The [t0] that [__init__] leaves on an index with rows [xs], when it is
    called with [t0 = t]. *)
Definition init_t0 (t : option f8) (xs : list entry) : option f8 :=
  match t with
  | Some t => Some t
  | None =>
      match xs with
      | [] => None
      | _ => time <$> xs !! np.argmax_bool (map (fun e => negb (isnan (time e))) xs)
      end
  end.

(** The two positions that [get_time_range] computes on a non-empty
    index. *)
Definition start_idx (xs : list entry) (start : option f8) : nat :=
  match start with
  | Some start => np.argmax_bool (map (fun e => f8_ge (time e) (f8_floor start)) xs)
  | None => 0%nat
  end.

Definition end_idx (xs : list entry) (stop : option f8) : nat :=
  match stop with
  | Some stop => np.argmax_bool (map (fun e => f8_ge (time e) stop) xs)
  | None => length xs
  end.

(** The keys that ask for message types: one [MessageType] or payload
    class, or a non-empty list or tuple of them. *)
Inductive type_query : key -> list Z -> Prop :=
| query_type (t : Z) : type_query (key_type t) [t]
| query_class (t : Z) : type_query (key_class t) [t]
| query_types (t : Z) (ts : list Z) :
    type_query (key_seq (map item_type (t :: ts))) (t :: ts)
| query_classes (t : Z) (ts : list Z) :
    type_query (key_seq (map item_class (t :: ts))) (t :: ts).

Definition has_type (ts : list Z) (e : entry) : bool :=
  bool_decide (type e ∈ ts).

(** A call returned a FileIndex whose rows are [ys]. *)
Definition returns_rows (r : result got * state) (ys : list entry) : Prop :=
  exists (index : FileIndex) (s' : state),
    r = (Ok (got_index index), s') /\ contents (heap s') (_data index) = Some ys.

(** The time that comes back from a round trip through a raw row. *)
Definition stored_time (t : f8) : f8 :=
  match t with
  | NaN => NaN
  | Fin q => Fin (inject_Z (Qfloor q))
  end.

(** Equality of times that takes NaN to be equal to NaN. *)
Definition same_time (t t' : f8) : Prop :=
  match t, t' with
  | NaN, NaN => True
  | Fin a, Fin b => (a == b)%Q
  | _, _ => False
  end.

Definition integer_valued (t : f8) : Prop :=
  match t with
  | NaN => False
  | Fin q => (q == inject_Z (Qfloor q))%Q
  end.

(** The row that comes back for [e]. *)
Definition stored_row (e : entry) : entry :=
  Entry (stored_time (time e)) (type e) (offset e).

(** [e'] is what the row [e] comes back as: the same type and offset; NaN
    for NaN; the floor of a finite time, which for a whole number is the
    time itself. *)
Definition comes_back_as (e e' : entry) : Prop :=
  type e' = type e /\ offset e' = offset e
  /\ (isnan (time e) = true -> isnan (time e') = true)
  /\ (forall q, time e = Fin q -> time e' = Fin (inject_Z (Qfloor q)))
  /\ (integer_valued (time e) -> same_time (time e') (time e)).

(** [if delete_on_error: os.remove(index_path)] followed by [raise]. *)
Definition after_cleanup (delete_on_error : bool) (index_path : string) (s : state) : state :=
  if delete_on_error then set_files (delete index_path (files s)) s else s.

(** [stable R m]: whatever [m] does and however it ends, the state it
    leaves is related by [R] to the state it started in. *)
Definition stable {A} (R : relation state) (m : M A) : Prop :=
  forall s, R s (snd (m s)).

(** No buffer that exists is changed (new ones may appear). *)
Definition buffers_kept : relation state := fun s s' => heap s ⊆ heap s'.

(** In addition, no file is created, changed or removed. *)
Definition files_kept : relation state :=
  fun s s' => heap s ⊆ heap s' /\ files s' = files s.

(** A row with a P1 time. *)
Definition valid (e : entry) : bool := negb (isnan (time e)).

(** The rows that a time range asks for: a valid time [t] with
    [floor(start) <= t] and [t < stop], for the bounds that are given. *)
Definition in_time_range (start stop : option f8) (e : entry) : bool :=
  valid e
  && match start with Some start => f8_ge (time e) (f8_floor start) | None => true end
  && match stop with Some stop => f8_lt (time e) stop | None => true end.

(** The valid times are in ascending order; rows without time may stand
    anywhere between them. *)
Definition valid_times_ascending (xs : list entry) : Prop :=
  forall (i j : nat) (a b : entry),
    (i <= j)%nat -> xs !! i = Some a -> xs !! j = Some b ->
    valid a = true -> valid b = true -> f8_ge (time b) (time a) = true.

(** Some row has a time at or after the bound, when there is a bound. *)
Definition reached (xs : list entry) (bound : option f8) : Prop :=
  match bound with
  | Some t => exists e, e ∈ xs /\ f8_ge (time e) t = true
  | None => True
  end.

(** The boolean array that is set from position [a] up to and excluding
    [b]. *)
Definition range_mask (a b n : nat) : list bool :=
  map (fun i => bool_decide (a <= i < b)%nat) (seq 0 n).

(** The consistency errors after which the index file is to be gone: the
    two about emptiness, the offset past the end, and the size mismatch of
    an index without marker. *)
Definition cleans_up (marker : bool) (e : value_error) : bool :=
  match e with
  | Data_file_empty_but_index_populated _
  | Index_file_empty_but_data_file_not_0_length _
  | Last_index_entry_past_end_of_file _ _ => true
  | Size_expected_by_index_file_does_not_match _ _ => negb marker
  | _ => false
  end.

Section notions.

Context (env : Env).

(** What [_to_raw] and [_from_raw] do to one row. *)
Definition to_raw_row (e : entry) : Raw.t :=
  if isnan (time e) then set_int (Timestamp_INVALID env) (astype_RAW_DTYPE e)
  else astype_RAW_DTYPE e.

Definition from_raw_row (r : Raw.t) : entry :=
  if Raw.int r =? Timestamp_INVALID env then set_time NaN (astype_DTYPE r)
  else astype_DTYPE r.

(** The times that the [u4] field can hold: NaN, or a value from [0] up to
    [2^32] whose integer part is not the sentinel. *)
Definition storable (t : f8) : Prop :=
  match t with
  | NaN => True
  | Fin q => (0 <= q)%Q /\ (q < inject_Z (2 ^ 32))%Q /\ Qfloor q <> Timestamp_INVALID env
  end.

(** The rows that [load] reads from the bytes of an index file. *)
Definition loaded_rows (index_file : list byte) : list entry :=
  map from_raw_row (rows_of_bytes index_file).

(** The data file that [load] checks the index against. *)
Definition resolve_data_path (index_path : string) (data_path : option string) : string :=
  match data_path with
  | Some data_path => data_path
  | None => (splitext_root env index_path ++ ".p1log")%string
  end.

(** The EOF marker for a data file of [size] bytes. *)
Definition eof_marker (size : Z) : entry :=
  Entry NaN (MessageType_INVALID env) size.

(** The loaded index ends in a row of type INVALID. *)
Definition has_marker (xs : list entry) : bool :=
  match last xs with
  | Some e => type e =? MessageType_INVALID env
  | None => false
  end.

End notions.

Module Sample.

Import Example.

(** What a call returned, in a form that can be computed: the rows of the
    index it returned. *)
Definition rows_returned (r : result FileIndex * state) : option (list entry) :=
  match r with
  | (Ok index, s') => contents (heap s') (_data index)
  | (Raise _, _) => None
  end.

(** The value a call returned, when it returned. *)
Definition fst_ok {A} (r : result A * state) : option A :=
  match r with
  | (Ok a, _) => Some a
  | (Raise _, _) => None
  end.

(** The index of the end-to-end scenario: two messages with P1 time and one
    without. *)
Definition rows : list entry :=
  [Entry (time_of_Z 10) 5 0; Entry (Fin (21 # 2)) 5 20; Entry NaN 99 40].

(** A store that holds one array with the given rows, and the FileIndex on
    it. *)
Definition memory (xs : list entry) (fs : list (string * list byte)) : state :=
  State {[1%positive := index_buf xs]} (list_to_map fs).

Definition index_on (xs : list entry) : FileIndex :=
  {| _data := Ndarray 1%positive (seq 0 (length xs)); t0 := init_t0 None xs |}.

(** Entries at times 1.0, 2.0, 3.0 and 4.0. *)
Definition rows4 : list entry :=
  [Entry (time_of_Z 1) 5 0; Entry (time_of_Z 2) 5 10;
   Entry (time_of_Z 3) 5 20; Entry (time_of_Z 4) 5 30].

(** An index file with one message and an EOF marker for a data file of 52
    bytes. *)
Definition index_with_marker : list byte :=
  rows_to_bytes [Raw.Row 10 5 0; Raw.Row 0xFFFFFFFF 0 52].

(** An index file with one message at offset 0 and no marker. *)
Definition index_without_marker : list byte :=
  rows_to_bytes [Raw.Row 10 5 0].

(** The three messages of the scenario, as a builder is given them:
    [(message_type, offset_bytes, p1_time)]. *)
Definition messages : list (Z * Z * option f8) :=
  [(5, 0, Some (time_of_Z 10)); (5, 20, Some (Fin (21 # 2))); (99, 40, None)].

End Sample.

(** ** Further notions *)

Section more_notions.

Context (env : Env).

(** The rows that [load] leaves in [self._data]: the loaded rows, less a
    trailing row of type INVALID. *)
Definition without_marker (xs : list entry) : list entry :=
  if has_marker env xs then removelast xs else xs.

End more_notions.

(** The rows from the position that [get_time_range] finds for [start] up
    to the position that it finds for [stop]. *)
Definition time_block (xs : list entry) (start stop : option f8) : list entry :=
  take (end_idx xs stop - start_idx xs start) (drop (start_idx xs start) xs).

(** An integer that is a position among [len] elements, counted from the
    front or, when negative, from the end. *)
Definition in_bounds (len : nat) (k : Z) : Prop :=
  - Z.of_nat len <= k < Z.of_nat len.

(** [xs[i:i+1]]: the row at position [i], counted from the end when [i] is
    negative; no row when there is none there, and none for [i = -1], where
    the stop [0] comes before the start. *)
Definition row_at {A} (xs : list A) (i : Z) : list A :=
  if (0 <=? i) && (i <? Z.of_nat (length xs)) then option_list (xs !! Z.to_nat i)
  else if (- Z.of_nat (length xs) <=? i) && (i <? -1)
       then option_list (xs !! Z.to_nat (i + Z.of_nat (length xs)))
       else [].

(** What [next] gives for a row, for a given behaviour of
    [MessageType(...)]. *)
Definition next_of (MessageType_new : Z -> result Z) (e : entry) : next_result :=
  match MessageType_new (type e) with
  | Ok message_type => Next (Element (time e) message_type (offset e))
  | Raise err => NextRaise err
  end.

(** [n] calls of [next(it)], one after the other, and how each ended. *)
Fixpoint nexts (MessageType_new : Z -> result Z) (n : nat) (it : FileIndexIterator)
    : M (list next_result) :=
  match n with
  | O => ret []
  | S n =>
      r <- __next__ MessageType_new it ;;
      rs <- nexts MessageType_new n (snd r) ;;
      ret (fst r :: rs)
  end.

(** The row that [FileIndexBuilder.append] adds for a message
    [(message_type, offset_bytes, p1_time)]. *)
Definition row_of_message (m : Z * Z * option f8) : entry :=
  Entry (default NaN (snd m)) (fst (fst m)) (snd (fst m)).

(** The rows that a builder has after the given messages have been
    appended, one after the other. *)
Definition appended (messages : list (Z * Z * option f8)) : list entry :=
  foldl (fun raw_data m => append raw_data (fst (fst m)) (snd (fst m)) (snd m)) [] messages.

(** * Properties *)

(** ** Floats *)

Lemma f8_ge_Fin (x y : f8) :
  f8_ge x y = true <-> exists a b, x = Fin a /\ y = Fin b /\ (b <= a)%Q.
Proof.
  destruct x as [|a], y as [|b]; simpl; split;
    try discriminate; try (intros (?&?&?&?&?); discriminate).
  - intros H%Qle_bool_iff. eauto.
  - intros (a'&b'&[= ->]&[= ->]&H). by apply Qle_bool_iff.
Qed.

Lemma f8_ge_trans (x y z : f8) :
  f8_ge x y = true -> f8_ge y z = true -> f8_ge x z = true.
Proof.
  intros (a&b&->&->&Hab)%f8_ge_Fin (b'&c&[= <-]&->&Hbc)%f8_ge_Fin.
  apply f8_ge_Fin. exists a, c. repeat split. by eapply Qle_trans.
Qed.

Lemma f8_lt_not_ge (a : Q) (y : f8) :
  isnan y = false -> f8_lt (Fin a) y = negb (f8_ge (Fin a) y).
Proof. by destruct y. Qed.

Lemma Qtruncate_nonneg (q : Q) : (0 <= q)%Q -> Qtruncate q = Qfloor q.
Proof. intros H%Qle_bool_iff. unfold Qtruncate. by rewrite H. Qed.

(** Within the 32 bits the cast is the truncation. *)
Lemma f8_to_u4_in_range (q : Q) :
  0 <= Qtruncate q < 2 ^ 32 -> f8_to_u4 (Fin q) = Qtruncate q.
Proof.
  intros H. unfold f8_to_u4. cbv zeta.
  destruct (_ && _) eqn:Hfit; [|exfalso; lia]. apply Z.mod_small. lia.
Qed.

Lemma f8_to_u4_range (x : f8) : 0 <= f8_to_u4 x < 2 ^ 32.
Proof.
  destruct x as [|q]; [done|]. unfold f8_to_u4. cbv zeta.
  destruct (_ && _); [|done]. apply Z.mod_pos_bound. lia.
Qed.

Lemma Qfloor_range (q : Q) (n : Z) :
  (0 <= q)%Q -> (q < inject_Z n)%Q -> 0 <= Qfloor q < n.
Proof.
  intros H0 Hn. split.
  - change 0 with (Qfloor (inject_Z 0)). by apply Qfloor_resp_le.
  - destruct (Z_lt_le_dec (Qfloor q) n) as [|Hge]; [done|].
    exfalso. apply (Qlt_irrefl q).
    eapply Qlt_le_trans; [exact Hn|].
    eapply Qle_trans; [|apply Qfloor_le]. by rewrite <- Zle_Qle.
Qed.

(** ** Lists: [argmax], [compress], [select] and slices *)

Section list_facts.

Context {A : Type}.
Implicit Types (xs : list A) (mask : list bool).

Lemma first_true_Some mask i :
  np.first_true mask = Some i <->
  mask !! i = Some true /\ forall j, (j < i)%nat -> mask !! j = Some false.
Proof.
  revert i. induction mask as [|[] mask IH]; intros i; simpl.
  - split; [done|]. by intros [? _].
  - split.
    + intros [= <-]. split; [done|]. lia.
    + intros [Hi Hlt]. destruct i as [|i]; [done|].
      specialize (Hlt 0%nat ltac:(lia)). done.
  - rewrite fmap_Some. split.
    + intros (i'&Hi'&->). apply IH in Hi' as [? Hlt]. split; [done|].
      intros [|j] ?; [done|]. apply Hlt. lia.
    + intros [Hi Hlt]. destruct i as [|i]; [done|]. exists i. split; [|done].
      apply IH. split; [done|]. intros j ?. apply (Hlt (S j)). lia.
Qed.

Lemma first_true_None mask :
  np.first_true mask = None <-> Forall (fun b => b = false) mask.
Proof.
  induction mask as [|[] mask IH]; simpl.
  - split; [constructor|done].
  - split; [done|]. by intros [[=] _]%Forall_cons.
  - rewrite fmap_None, IH. split; [by constructor|]. by intros [_ ?]%Forall_cons.
Qed.

Lemma argmax_bool_lt mask : mask <> [] -> (np.argmax_bool mask < length mask)%nat.
Proof.
  intros Hne. unfold np.argmax_bool.
  destruct (np.first_true mask) as [i|] eqn:Hi; simpl.
  - apply first_true_Some in Hi as [Hi _]. by apply lookup_lt_Some in Hi.
  - destruct mask; [done|]. simpl. lia.
Qed.

Lemma compress_map_filter (p : A -> bool) xs :
  np.compress (map p xs) xs = List.filter p xs.
Proof. induction xs as [|x xs IH]; simpl; [done|]. rewrite IH. by destruct (p x). Qed.

Lemma compress_length_le mask xs : (length (np.compress mask xs) <= length xs)%nat.
Proof.
  revert xs. induction mask as [|b mask IH]; intros [|x xs]; simpl; try lia.
  specialize (IH xs). destruct b; simpl; lia.
Qed.

Lemma compress_ext mask1 mask2 xs :
  length mask1 = length xs -> length mask2 = length xs ->
  (forall i, (i < length xs)%nat -> mask1 !! i = mask2 !! i) ->
  np.compress mask1 xs = np.compress mask2 xs.
Proof.
  revert mask1 mask2. induction xs as [|x xs IH]; intros [|b1 m1] [|b2 m2]; simpl; try done.
  intros [= H1] [= H2] Hi.
  pose proof (Hi 0%nat ltac:(lia)) as [= ->].
  rewrite (IH m1 m2); [done|done|done|]. intros i ?. apply (Hi (S i)). lia.
Qed.

Lemma select_nil xs : np.select xs [] = [].
Proof. done. Qed.

Lemma select_cons xs p ps x :
  xs !! p = Some x -> np.select xs (p :: ps) = x :: np.select xs ps.
Proof. intros H. unfold np.select. simpl. by rewrite H. Qed.

Lemma select_cons_None xs p ps :
  xs !! p = None -> np.select xs (p :: ps) = np.select xs ps.
Proof. intros H. unfold np.select. simpl. by rewrite H. Qed.

Lemma select_seq xs lo n :
  np.select xs (seq lo n) = take n (drop lo xs).
Proof.
  revert lo. induction n as [|n IH]; intros lo; [done|].
  simpl seq. destruct (xs !! lo) as [x|] eqn:Hx.
  - rewrite (select_cons _ _ _ x Hx), IH.
    by rewrite (drop_S _ _ _ Hx).
  - rewrite (select_cons_None _ _ _ Hx), IH.
    apply lookup_ge_None in Hx.
    by rewrite !drop_ge, !take_nil by lia.
Qed.

Lemma select_all xs : np.select xs (seq 0 (length xs)) = xs.
Proof. rewrite select_seq. simpl. by rewrite firstn_all. Qed.

Lemma select_lookups xs ps ys :
  mapM (fun p => xs !! p) ps = Some ys -> np.select xs ps = ys.
Proof.
  intros H%mapM_Some. induction H as [|p y ps ys Hp _ IH]; [done|].
  by rewrite (select_cons _ _ _ y Hp), IH.
Qed.

End list_facts.

(** Slices with step 1 select a run of consecutive positions. *)
Lemma slice_start_range (len : nat) (start : option Z) :
  0 <= np.slice_start (Z.of_nat len) 1 start <= Z.of_nat len.
Proof.
  unfold np.slice_start, np.adjust. destruct start as [i|]; simpl; [|lia].
  repeat case_match; lia.
Qed.

Lemma slice_stop_range (len : nat) (stop : option Z) :
  0 <= np.slice_stop (Z.of_nat len) 1 stop <= Z.of_nat len.
Proof.
  unfold np.slice_stop, np.adjust. destruct stop as [i|]; simpl; [|lia].
  repeat case_match; lia.
Qed.

Lemma slice_positions_step1 (len : nat) (start stop : option Z) :
  np.slice_positions len start stop 1 =
  seq (Z.to_nat (np.slice_start (Z.of_nat len) 1 start))
      (Z.to_nat (np.slice_stop (Z.of_nat len) 1 stop)
       - Z.to_nat (np.slice_start (Z.of_nat len) 1 start)).
Proof.
  unfold np.slice_positions.
  pose proof (slice_start_range len start) as Hlo.
  pose proof (slice_stop_range len stop) as Hhi.
  set (lo := np.slice_start _ _ _) in *. set (hi := np.slice_stop _ _ _) in *.
  assert (Z.to_nat (np.slice_length lo hi 1) = (Z.to_nat hi - Z.to_nat lo)%nat) as ->.
  { unfold np.slice_length. simpl. case_match.
    - rewrite Z.div_1_r. lia.
    - lia. }
  generalize (Z.to_nat hi - Z.to_nat lo)%nat as n. intros n.
  enough (forall j, map (fun k => Z.to_nat (lo + Z.of_nat k * 1)) (seq j n)
                    = seq (Z.to_nat lo + j) n) as H.
  { by rewrite H, Nat.add_0_r. }
  induction n as [|n IH]; intros j; [done|].
  simpl. rewrite IH. f_equal; [lia|]. f_equal. lia.
Qed.

(** [xs[start:stop]] for positions counted from the front. *)
Lemma select_slice_nat {A} (xs : list A) (lo hi : nat) :
  np.select xs (np.slice_positions (length xs) (Some (Z.of_nat lo)) (Some (Z.of_nat hi)) 1)
  = take (hi - lo) (drop lo xs).
Proof.
  rewrite slice_positions_step1, select_seq.
  unfold np.slice_start, np.slice_stop, np.adjust.
  change (1 <? 0) with false. cbv iota.
  destruct (Z.of_nat lo <? 0) eqn:?; [exfalso; lia|].
  destruct (Z.of_nat hi <? 0) eqn:?; [exfalso; lia|].
  destruct (Z.of_nat (length xs) <=? Z.of_nat lo) eqn:Hlo,
           (Z.of_nat (length xs) <=? Z.of_nat hi) eqn:Hhi;
    rewrite ?Nat2Z.id.
  - rewrite Nat.sub_diag, !drop_ge by lia. by rewrite !take_nil.
  - replace (hi - length xs)%nat with 0%nat by lia.
    replace (hi - lo)%nat with 0%nat by lia. done.
  - by rewrite !take_ge by (rewrite length_drop; lia).
  - done.
Qed.

(** ** The store *)

Lemma view_owner {A} (rows : list A) : view rows (seq 0 (length rows)) = Some rows.
Proof.
  unfold view. apply mapM_Some. 
  apply Forall2_same_length_lookup. split; [by rewrite length_seq|].
  intros i c x Hc Hx. apply lookup_seq in Hc as [-> _]. done.
Qed.

Lemma view_select {A} (rows : list A) (cs ps : list nat) (xs : list A) :
  view rows cs = Some xs -> view rows (np.select cs ps) = Some (np.select xs ps).
Proof.
  unfold view. intros H%mapM_Some. apply mapM_Some.
  induction ps as [|p ps IH]; [constructor|].
  destruct (cs !! p) as [c|] eqn:Hc.
  - destruct (Forall2_lookup_l _ _ _ _ _ H Hc) as (x&Hx&Hcx).
    rewrite (select_cons _ _ _ c Hc), (select_cons _ _ _ x Hx). by constructor.
  - rewrite (select_cons_None _ _ _ Hc), select_cons_None; [done|].
    apply lookup_ge_None. apply lookup_ge_None in Hc.
    by rewrite <- (Forall2_length _ _ _ H).
Qed.

Lemma view_length {A} (rows : list A) (cs : list nat) (xs : list A) :
  view rows cs = Some xs -> length xs = length cs.
Proof. intros H%mapM_Some. by rewrite (Forall2_length _ _ _ H). Qed.

Lemma contents_mono (h h' : gmap loc buffer) (a : ndarray) (xs : list entry) :
  h ⊆ h' -> contents h a = Some xs -> contents h' a = Some xs.
Proof.
  unfold contents. intros Hsub H.
  destruct (h !! base a) as [b|] eqn:Hb; [|done].
  by rewrite (lookup_weaken _ _ _ _ Hb Hsub).
Qed.

Lemma raw_contents_mono (h h' : gmap loc buffer) (a : ndarray) (rs : list Raw.t) :
  h ⊆ h' -> raw_contents h a = Some rs -> raw_contents h' a = Some rs.
Proof.
  unfold raw_contents. intros Hsub H.
  destruct (h !! base a) as [b|] eqn:Hb; [|done].
  by rewrite (lookup_weaken _ _ _ _ Hb Hsub).
Qed.

Lemma contents_length (h : gmap loc buffer) (a : ndarray) (xs : list entry) :
  contents h a = Some xs -> length xs = length (cells a).
Proof. unfold contents. repeat case_match; try done. apply view_length. Qed.

Lemma fresh_None (h : gmap loc buffer) : h !! fresh (dom h) = None.
Proof. apply not_elem_of_dom, is_fresh. Qed.

Lemma heap_grows_fresh (h : gmap loc buffer) (b : buffer) :
  h ⊆ <[fresh (dom h) := b]> h.
Proof. apply insert_subseteq, fresh_None. Qed.

Lemma contents_owner (h : gmap loc buffer) (l : loc) (rows : list entry) :
  contents (<[l := index_buf rows]> h) (Ndarray l (seq 0 (length rows))) = Some rows.
Proof. unfold contents. simpl. rewrite lookup_insert_eq. apply view_owner. Qed.

Lemma raw_contents_owner (h : gmap loc buffer) (l : loc) (rows : list Raw.t) :
  raw_contents (<[l := raw_buf rows]> h) (Ndarray l (seq 0 (length rows))) = Some rows.
Proof. unfold raw_contents. simpl. rewrite lookup_insert_eq. apply view_owner. Qed.

(** Writing through the array that owns a buffer touches each row once. *)
Lemma write_cells_owner {A} (f : A -> A) (mask : list bool) (rows : list A) :
  length mask = length rows ->
  write_cells f (seq 0 (length rows)) mask rows
  = zip_with (fun (b : bool) x => if b then f x else x) mask rows.
Proof.
  intros Hlen.
  enough (forall pre, write_cells f (seq (length pre) (length rows)) mask (pre ++ rows)
                      = pre ++ zip_with (fun (b : bool) x => if b then f x else x) mask rows)
    as H by apply (H []).
  revert mask Hlen. induction rows as [|x rows IH]; intros [|b mask] Hlen pre; try done.
  simpl in Hlen. injection Hlen as Hlen.
  unfold write_cells. simpl.
  pose proof (IH mask Hlen (pre ++ [x])) as IH'.
  rewrite length_app in IH'. simpl in IH'. rewrite Nat.add_1_r in IH'.
  rewrite <- !(assoc_L (++)) in IH'. simpl in IH'.
  unfold write_cells in IH'. rewrite IH'.
  destruct b; [|done].
  rewrite alter_app_r_alt by lia. by rewrite Nat.sub_diag.
Qed.

(** ** Running the operations *)

Lemma bind_ok {A B} (m : M A) (k : A -> M B) (s : state) (a : A) (s' : state) :
  m s = (Ok a, s') -> bind m k s = k a s'.
Proof. unfold bind. by intros ->. Qed.

Lemma bind_raise {A B} (m : M A) (k : A -> M B) (s : state) (e : exn) (s' : state) :
  m s = (Raise e, s') -> bind m k s = (Raise e, s').
Proof. unfold bind. by intros ->. Qed.

Lemma read_ok (s : state) (a : ndarray) (xs : list entry) :
  contents (heap s) a = Some xs -> read a s = (Ok xs, s).
Proof. unfold read. by intros ->. Qed.

Lemma read_raw_ok (s : state) (a : ndarray) (rs : list Raw.t) :
  raw_contents (heap s) a = Some rs -> read_raw a s = (Ok rs, s).
Proof. unfold read_raw. by intros ->. Qed.

Lemma has_DTYPE_ok (s : state) (a : ndarray) (xs : list entry) :
  contents (heap s) a = Some xs -> has_DTYPE a s = (Ok true, s).
Proof. unfold contents, has_DTYPE. by repeat case_match. Qed.

Lemma item_last_ok {A} (col : list A) (x : A) (s : state) :
  np.item_last (col ++ [x]) s = (Ok x, s).
Proof. unfold np.item_last. by rewrite last_snoc. Qed.

Lemma path_exists_ok (s : state) (path : string) (bs : list byte) :
  files s !! path = Some bs -> path_exists path s = (Ok true, s).
Proof. unfold path_exists. intros H. by rewrite bool_decide_eq_true_2. Qed.

Lemma path_exists_not (s : state) (path : string) :
  files s !! path = None -> path_exists path s = (Ok false, s).
Proof.
  unfold path_exists. intros H. rewrite bool_decide_eq_false_2; [done|].
  rewrite H. by intros [? ?].
Qed.

Lemma read_file_ok (s : state) (path : string) (bs : list byte) :
  files s !! path = Some bs -> read_file path s = (Ok bs, s).
Proof. unfold read_file. by intros ->. Qed.

Lemma st_size_ok (s : state) (path : string) (bs : list byte) :
  files s !! path = Some bs -> st_size path s = (Ok (Z.of_nat (length bs)), s).
Proof.
  intros H. unfold st_size. by rewrite (bind_ok _ _ _ _ _ (read_file_ok _ _ _ H)).
Qed.

Lemma allocated_grows (b : buffer) (s : state) : heap s ⊆ heap (allocated b s).
Proof. apply heap_grows_fresh. Qed.

Lemma contents_allocated (s : state) (rows : list entry) :
  contents (heap (allocated (index_buf rows) s))
           (Ndarray (fresh (dom (heap s))) (seq 0 (length rows))) = Some rows.
Proof. apply contents_owner. Qed.

Lemma raw_contents_allocated (s : state) (rows : list Raw.t) :
  raw_contents (heap (allocated (raw_buf rows) s))
               (Ndarray (fresh (dom (heap s))) (seq 0 (length rows))) = Some rows.
Proof. apply raw_contents_owner. Qed.

Lemma getitem_mask_ok (s : state) (a : ndarray) (xs : list entry) (mask : list bool) :
  contents (heap s) a = Some xs -> length mask = length xs ->
  np.getitem_mask a mask s =
    (Ok (Ndarray (fresh (dom (heap s))) (seq 0 (length (np.compress mask xs)))),
     allocated (index_buf (np.compress mask xs)) s).
Proof.
  intros Hxs Hlen. unfold np.getitem_mask.
  rewrite (bind_ok _ _ _ _ _ (read_ok _ _ _ Hxs)).
  by rewrite bool_decide_eq_true_2.
Qed.

Lemma getitem_array_ok (s : state) (a : ndarray) (xs ys : list entry) (ks : list Z)
    (ps : list nat) :
  contents (heap s) a = Some xs ->
  mapM (np.position (length xs)) ks = Some ps ->
  np.getitem_array a ks s =
    (Ok (Ndarray (fresh (dom (heap s))) (seq 0 (length (np.select xs ps)))),
     allocated (index_buf (np.select xs ps)) s).
Proof.
  intros Hxs Hps. unfold np.getitem_array.
  rewrite (bind_ok _ _ _ _ _ (read_ok _ _ _ Hxs)). by rewrite Hps.
Qed.

Lemma getitem_slice_contents (h : gmap loc buffer) (a : ndarray) (xs : list entry)
    (start stop : option Z) (step : Z) :
  contents h a = Some xs ->
  contents h (Ndarray (base a)
                (np.select (cells a) (np.slice_positions (length (cells a)) start stop step)))
  = Some (np.select xs (np.slice_positions (length xs) start stop step)).
Proof.
  intros Hxs. rewrite (contents_length _ _ _ Hxs).
  unfold contents in *. simpl. destruct (h !! base a) as [[rows|]|]; try done.
  by apply view_select.
Qed.

Section run_FileIndex.

Context (env : Env).

Lemma init_t0_nonempty (t : option f8) (xs : list entry) :
  xs <> [] -> t = None ->
  exists e, xs !! np.argmax_bool (map (fun e => negb (isnan (time e))) xs) = Some e
            /\ init_t0 t xs = Some (time e).
Proof.
  intros Hne ->. 
  destruct (lookup_lt_is_Some_2 xs
              (np.argmax_bool (map (fun e => negb (isnan (time e))) xs))) as [e He].
  { rewrite <- (length_map (fun e => negb (isnan (time e))) xs).
    apply argmax_bool_lt. by destruct xs. }
  exists e. split; [done|]. unfold init_t0. destruct xs; [done|]. by rewrite He.
Qed.

(** [__init__] without [index_path], once the [data] argument has been
    turned into the array [a]. *)
Lemma init_data_ok (data : option data_arg) (t : option f8) (s s1 : state)
    (a : ndarray) (xs : list entry) :
  match data with
  | None => ret None
  | Some (data_list rows) => a <- np.array rows ;; ret (Some a)
  | Some (data_array a) =>
      same <- has_DTYPE a ;;
      if same : bool then ret (Some a)
      else raise (ValueError Unsupported_array_format)
  end s = (Ok (Some a), s1) ->
  contents (heap s1) a = Some xs ->
  __init__ env None None true data t s = (Ok {| _data := a; t0 := init_t0 t xs |}, s1).
Proof.
  intros Hdata Hxs. unfold __init__.
  rewrite (bind_ok _ _ _ _ _ Hdata).
  rewrite (bind_ok _ _ _ (Some a) s1) by done.
  rewrite (bind_ok _ _ _ a s1) by done.
  destruct t as [t|]; [done|].
  rewrite (bind_ok _ _ _ (init_t0 None xs) s1); [done|].
  rewrite (bind_ok _ _ _ _ _ (read_ok _ _ _ Hxs)).
  destruct xs as [|x xs]; [done|].
  rewrite bool_decide_eq_false_2 by done.
  destruct (init_t0_nonempty None (x :: xs)) as (e&He&Ht0); [done..|].
  rewrite Ht0. unfold np.argmax. simpl map at 1.
  unfold bind at 1, ret at 1.
  destruct (0 <=? _) eqn:Hpos; [|exfalso; lia].
  by rewrite Nat2Z.id, He.
Qed.

Lemma FileIndex_of_ok (s : state) (a : ndarray) (xs : list entry) (t : option f8) :
  contents (heap s) a = Some xs ->
  FileIndex_of env a t s = (Ok {| _data := a; t0 := init_t0 t xs |}, s).
Proof.
  intros Hxs. apply init_data_ok; [|done].
  by rewrite (bind_ok _ _ _ _ _ (has_DTYPE_ok _ _ _ Hxs)).
Qed.

Lemma fits_entry_ok (e : entry) : fits e = true <-> entry_ok e.
Proof. unfold fits, entry_ok, in_range. rewrite !andb_true_iff. lia. Qed.

Lemma forallb_fits (rows : list entry) : forallb fits rows = true <-> Forall entry_ok rows.
Proof.
  rewrite forallb_forall, Forall_forall. split; intros H e He.
  - apply fits_entry_ok, H. by apply list_elem_of_In.
  - apply fits_entry_ok, H. by apply list_elem_of_In.
Qed.

Lemma array_ok (s : state) (rows : list entry) :
  Forall entry_ok rows ->
  np.array rows s
  = (Ok (Ndarray (fresh (dom (heap s))) (seq 0 (length rows))), allocated (index_buf rows) s).
Proof. intros H%forallb_fits. unfold np.array. by rewrite H. Qed.

Lemma array_overflow (s : state) (rows : list entry) :
  ~ Forall entry_ok rows -> np.array rows s = (Raise OverflowError, s).
Proof.
  intros H. unfold np.array.
  destruct (forallb fits rows) eqn:Hfits; [|done]. by apply forallb_fits in Hfits.
Qed.

Lemma init_list_ok (s : state) (rows : list entry) (t : option f8) :
  Forall entry_ok rows ->
  __init__ env None None true (Some (data_list rows)) t s =
    (Ok {| _data := Ndarray (fresh (dom (heap s))) (seq 0 (length rows));
           t0 := init_t0 t rows |},
     allocated (index_buf rows) s).
Proof.
  intros Hok. apply init_data_ok; [|apply contents_allocated].
  by rewrite (bind_ok _ _ _ _ _ (array_ok s rows Hok)).
Qed.

Lemma init_empty_ok (s : state) :
  __init__ env None None true None None s =
    (Ok {| _data := Ndarray (fresh (dom (heap s))) []; t0 := None |},
     allocated (index_buf []) s).
Proof.
  unfold __init__.
  rewrite (bind_ok _ _ _ None s) by done.
  rewrite (bind_ok _ _ _ None s) by done.
  rewrite (bind_ok _ _ _ (Ndarray (fresh (dom (heap s))) []) (allocated (index_buf []) s)) by done.
  rewrite (bind_ok _ _ _ None (allocated (index_buf []) s)); [done|].
  by rewrite (bind_ok _ _ _ _ _ (read_ok _ _ _ (contents_allocated s []))).
Qed.

End run_FileIndex.

(** ** Queries by message type *)

Lemma mapM_int_of_item_types (ts : list Z) :
  mapM int_of_item (map item_type ts) = Some ts.
Proof. apply mapM_Some. induction ts; by constructor. Qed.

Lemma mapM_get_type_of_item_classes (ts : list Z) :
  mapM get_type_of_item (map item_class ts) = Some ts.
Proof. apply mapM_Some. induction ts; by constructor. Qed.

Lemma isin_has_type (xs : list entry) (ts : list Z) :
  isin (map type xs) ts = map (has_type ts) xs.
Proof. unfold isin. by rewrite map_map. Qed.

Lemma eqb_has_type (xs : list entry) (t : Z) :
  map (fun e => type e =? t) xs = map (has_type [t]) xs.
Proof.
  apply map_ext. intros e. unfold has_type.
  destruct (type e =? t) eqn:H.
  - apply Z.eqb_eq in H. rewrite bool_decide_eq_true_2; [done|]. rewrite H. by left.
  - apply Z.eqb_neq in H. rewrite bool_decide_eq_false_2; [done|].
    by intros ?%list_elem_of_singleton.
Qed.

Section queries.

Context (env : Env).

(** The step shared by all type queries: [self._data[idx]] with the mask of
    the matching rows, then [FileIndex(data=..., t0=self.t0)]. *)
Lemma mask_query_ok (s : state) (self : FileIndex) (xs : list entry) (p : entry -> bool) :
  contents (heap s) (_data self) = Some xs ->
  (a <- np.getitem_mask (_data self) (map p xs) ;;
   index <- FileIndex_of env a (t0 self) ;; ret (got_index index)) s
  = (Ok (got_index {| _data := Ndarray (fresh (dom (heap s)))
                                 (seq 0 (length (List.filter p xs)));
                      t0 := init_t0 (t0 self) (List.filter p xs) |}),
     allocated (index_buf (List.filter p xs)) s).
Proof.
  intros Hxs.
  rewrite (bind_ok _ _ _ _ _ (getitem_mask_ok _ _ _ _ Hxs (length_map _ _))).
  rewrite compress_map_filter.
  by rewrite (bind_ok _ _ _ _ _ (FileIndex_of_ok env _ _ _ _ (contents_allocated s _))).
Qed.

(** C9.  For every FileIndex and every message type or non-empty collection
    of message types, the type query returns a new FileIndex, on a buffer
    of its own, that holds exactly the rows whose type matches, in the
    order they have in the source; the buffers that existed before the call,
    and with them the rows of the source index, are unchanged. *)
Theorem getitem_type_filters (s : state) (self : FileIndex) (xs : list entry)
    (k : key) (ts : list Z) :
  contents (heap s) (_data self) = Some xs ->
  type_query k ts ->
  exists (index : FileIndex) (s' : state),
    __getitem__ env self k s = (Ok (got_index index), s')
    /\ contents (heap s') (_data index) = Some (List.filter (has_type ts) xs)
    /\ (base (_data index) ∉ dom (heap s))
    /\ heap s ⊆ heap s'
    /\ contents (heap s') (_data self) = Some xs.
Proof.
  intros Hxs Hk.
  assert (forall b, heap s ⊆ heap (allocated b s)) as Hgrow
    by (intros b; apply allocated_grows).
  destruct (decide (xs = [])) as [->|Hne].
  - (* No data available. *)
    exists {| _data := Ndarray (fresh (dom (heap s))) []; t0 := None |},
           (allocated (index_buf []) s).
    split; [|split; [apply (contents_allocated s [])|split; [apply is_fresh|split; [done|]]]].
    + destruct Hk; unfold __getitem__;
        rewrite (bind_ok _ _ _ _ _ (read_ok _ _ _ Hxs));
        rewrite bool_decide_eq_true_2 by done;
        by rewrite (bind_ok _ _ _ _ _ (init_empty_ok env s)).
    + exact (contents_mono _ _ _ _ (Hgrow _) Hxs).
  - exists {| _data := Ndarray (fresh (dom (heap s)))
                         (seq 0 (length (List.filter (has_type ts) xs)));
              t0 := init_t0 (t0 self) (List.filter (has_type ts) xs) |},
           (allocated (index_buf (List.filter (has_type ts) xs)) s).
    split; [|split; [apply contents_allocated|split; [apply is_fresh|split; [done|]]]].
    + destruct Hk; unfold __getitem__;
        rewrite (bind_ok _ _ _ _ _ (read_ok _ _ _ Hxs));
        rewrite bool_decide_eq_false_2 by (by destruct xs); simpl map;
        rewrite ?mapM_int_of_item_types, ?mapM_get_type_of_item_classes,
          ?isin_has_type, ?eqb_has_type.
      * apply (mask_query_ok s self xs _ Hxs).
      * apply (mask_query_ok s self xs _ Hxs).
      * exact (mask_query_ok s self xs _ Hxs).
      * exact (mask_query_ok s self xs _ Hxs).
    + exact (contents_mono _ _ _ _ (Hgrow _) Hxs).
Qed.

End queries.

(** ** Queries by position *)

Lemma slice_positions_None_start (len : nat) (stop : option Z) :
  np.slice_positions len None stop 1 = np.slice_positions len (Some 0) stop 1.
Proof.
  unfold np.slice_positions. 
  assert (np.slice_start (Z.of_nat len) 1 None = np.slice_start (Z.of_nat len) 1 (Some 0)) as ->;
    [|done].
  unfold np.slice_start, np.adjust. simpl. case_match; lia.
Qed.

Lemma slice_positions_None_stop (len : nat) (start : option Z) :
  np.slice_positions len start None 1
  = np.slice_positions len start (Some (Z.of_nat len)) 1.
Proof.
  unfold np.slice_positions.
  assert (np.slice_stop (Z.of_nat len) 1 None
          = np.slice_stop (Z.of_nat len) 1 (Some (Z.of_nat len))) as ->; [|done].
  unfold np.slice_stop, np.adjust. change (1 <? 0) with false. cbv iota.
  repeat case_match; lia.
Qed.

(** [xs[lo:hi]] for bounds counted from the front, either of which may be
    left out. *)
Lemma select_slice_option {A} (xs : list A) (lo hi : option nat) :
  np.select xs (np.slice_positions (length xs) (Z.of_nat <$> lo) (Z.of_nat <$> hi) 1)
  = take (default (length xs) hi - default 0%nat lo) (drop (default 0%nat lo) xs).
Proof.
  destruct lo as [lo|], hi as [hi|]; simpl;
    rewrite ?slice_positions_None_start, ?slice_positions_None_stop.
  - apply select_slice_nat.
  - apply select_slice_nat.
  - apply (select_slice_nat xs 0 hi).
  - apply (select_slice_nat xs 0 (length xs)).
Qed.

Lemma position_nat (len p : nat) : (p < len)%nat -> np.position len (Z.of_nat p) = Some p.
Proof.
  intros H. unfold np.position.
  destruct (_ && _) eqn:Hb; [|exfalso; lia].
  f_equal. case_match; lia.
Qed.

Section positions.

Context (env : Env).

(** The step shared by the queries that slice: [self._data[start:stop:step]],
    then [FileIndex(data=..., t0=self.t0)].  Nothing is allocated: the new
    index looks into the buffer of [self]. *)
Lemma slice_query_ok (s : state) (self : FileIndex) (xs : list entry)
    (start stop step : option Z) :
  contents (heap s) (_data self) = Some xs ->
  step <> Some 0 ->
  exists index,
    (a <- np.getitem_slice (_data self) start stop step ;;
     index <- FileIndex_of env a (t0 self) ;; ret (got_index index)) s
    = (Ok (got_index index), s)
    /\ base (_data index) = base (_data self)
    /\ t0 index = init_t0 (t0 self)
                    (np.select xs (np.slice_positions (length xs) start stop (default 1 step)))
    /\ contents (heap s) (_data index)
       = Some (np.select xs (np.slice_positions (length xs) start stop (default 1 step))).
Proof.
  intros Hxs Hstep.
  pose proof (getitem_slice_contents _ _ _ start stop (default 1 step) Hxs) as Hys.
  exists {| _data := Ndarray (base (_data self))
                       (np.select (cells (_data self))
                          (np.slice_positions (length (cells (_data self)))
                             start stop (default 1 step)));
            t0 := init_t0 (t0 self)
                    (np.select xs (np.slice_positions (length xs) start stop
                                     (default 1 step))) |}.
  split; [|split; [|split; [|exact Hys]]].
  - erewrite (bind_ok (np.getitem_slice _ _ _ _) _ s _ s).
    2:{ unfold np.getitem_slice. destruct step as [[| |]|]; done. }
    by rewrite (bind_ok _ _ _ _ _ (FileIndex_of_ok env _ _ _ _ Hys)).
  - done.
  - done.
Qed.

(** Positions counted from the front, on a non-empty FileIndex: indexing
    with the position of a row, from [0] up to the length, returns a
    FileIndex of that one row; indexing with a slice of positions [lo:hi]
    (either bound may be left out, the step is absent or 1) returns the
    rows from [lo] up to and excluding [hi]; and indexing with a list of
    positions returns the rows at those positions in the order of the
    list. *)
Theorem getitem_by_position (s : state) (self : FileIndex) (xs : list entry) :
  contents (heap s) (_data self) = Some xs ->
  xs <> [] ->
  (forall (i : nat) (x : entry),
      xs !! i = Some x ->
      returns_rows (__getitem__ env self (key_int (Z.of_nat i)) s) [x])
  /\ (forall (lo hi : option nat) (step : option slice_step),
        step = None \/ step = Some (step_int 1) ->
        returns_rows
          (__getitem__ env self
             (key_slice ((fun p => bound_int (Z.of_nat p)) <$> lo)
                        ((fun p => bound_int (Z.of_nat p)) <$> hi) step) s)
          (take (default (length xs) hi - default 0%nat lo) (drop (default 0%nat lo) xs)))
  /\ (forall (ps : list nat) (ys : list entry),
        mapM (fun p => xs !! p) ps = Some ys ->
        returns_rows
          (__getitem__ env self (key_seq (map (fun p => item_int (Z.of_nat p)) ps)) s)
          ys).
Proof.
  intros Hxs Hne.
  split; [|split].
  - intros i x Hi.
    destruct (slice_query_ok s self xs (Some (Z.of_nat i)) (Some (Z.of_nat i + 1)) None Hxs)
      as (index&Hrun&_&_&Hys); [done|].
    exists index, s. split.
    + unfold __getitem__. rewrite (bind_ok _ _ _ _ _ (read_ok _ _ _ Hxs)).
      rewrite bool_decide_eq_false_2 by (by destruct xs). exact Hrun.
    + rewrite Hys. f_equal. simpl default.
      replace (Z.of_nat i + 1) with (Z.of_nat (S i)) by lia.
      rewrite select_slice_nat. replace (S i - i)%nat with 1%nat by lia.
      by rewrite (drop_S _ _ _ Hi).
  - intros lo hi step Hstep.
    assert (exists st, st <> Some 0 /\ default 1 st = 1 /\
              match step with
              | Some (step_int i) => st = Some i
              | _ => st = None
              end) as (st&Hst&Hst1&Hmatch).
    { destruct Hstep as [->| ->]; [by exists None|by exists (Some 1)]. }
    destruct (slice_query_ok s self xs (Z.of_nat <$> lo) (Z.of_nat <$> hi) st Hxs Hst)
      as (index&Hrun&_&_&Hys).
    exists index, s. split.
    + unfold __getitem__. rewrite (bind_ok _ _ _ _ _ (read_ok _ _ _ Hxs)).
      rewrite bool_decide_eq_false_2 by (by destruct xs).
      rewrite <- Hrun.
      destruct Hstep as [->| ->]; subst st; by destruct lo, hi.
    + by rewrite Hys, Hst1, select_slice_option.
  - intros ps ys Hps.
    destruct ps as [|p ps].
    + apply mapM_Some in Hps. apply Forall2_nil_inv_l in Hps as ->.
      eexists _, _. split.
      * unfold __getitem__. rewrite (bind_ok _ _ _ _ _ (read_ok _ _ _ Hxs)).
        rewrite bool_decide_eq_false_2 by (by destruct xs).
        exact (bind_ok _ (fun index => ret (got_index index)) _ _ _
                 (init_list_ok env s [] (t0 self) (Forall_nil_2 _))).
      * apply (contents_allocated s []).
    + assert (mapM int_of_item (map (fun p => item_int (Z.of_nat p)) (p :: ps))
              = Some (map Z.of_nat (p :: ps))) as Hint.
      { apply mapM_Some. generalize (p :: ps). intros l. induction l; by constructor. }
      assert (mapM (np.position (length xs)) (map Z.of_nat (p :: ps)) = Some (p :: ps)) as Hpos.
      { apply mapM_Some. apply mapM_Some in Hps. revert Hps. generalize (p :: ps) ys.
        intros l ys' H. induction H as [|q y l ys' Hq _ IH]; simpl; constructor; [|done].
        apply position_nat. by apply lookup_lt_Some in Hq. }
      eexists _, _. split.
      * unfold __getitem__. rewrite (bind_ok _ _ _ _ _ (read_ok _ _ _ Hxs)).
        rewrite bool_decide_eq_false_2 by (by destruct xs).
        change (map (fun p => item_int (Z.of_nat p)) (p :: ps))
          with (item_int (Z.of_nat p) :: map (fun p => item_int (Z.of_nat p)) ps) in *.
        cbv iota. rewrite Hint.
        rewrite (bind_ok _ _ _ _ _ (getitem_array_ok _ _ _ ys _ _ Hxs Hpos)).
        by rewrite (bind_ok _ _ _ _ _ (FileIndex_of_ok env _ _ _ _ (contents_allocated s _))).
      * rewrite (select_lookups _ _ _ Hps). apply contents_allocated.
Qed.

End positions.

(** ** Queries by time *)

Lemma argmax_ok (mask : list bool) (s : state) :
  mask <> [] -> np.argmax mask s = (Ok (Z.of_nat (np.argmax_bool mask)), s).
Proof. by destruct mask. Qed.

Section time_range.

Context (env : Env).

(** [get_time_range] on a non-empty index, after the two positions have
    been computed. *)
Lemma get_time_range_nonempty (s : state) (self : FileIndex) (xs : list entry)
    (start stop : option f8) (hint : option string) :
  contents (heap s) (_data self) = Some xs ->
  xs <> [] ->
  get_time_range env self start stop hint s =
  (let hint := default "include_nans"%string hint in
   let start_idx := Z.of_nat (start_idx xs start) in
   let end_idx := Z.of_nat (end_idx xs stop) in
   if String.eqb hint "include_nans" then
     a <- np.getitem_slice (_data self) (Some start_idx) (Some end_idx) None ;;
     FileIndex_of env a (t0 self)
   else
     let idx := repeat false (length xs) in
     let idx := np.set_range idx start_idx end_idx in
     let nan_idx := map (fun e => isnan (time e)) xs in
     idx <-
       (if String.eqb hint "all_nans" then
          ret (zip_with orb idx nan_idx)
        else if String.eqb hint "remove_nans" then
          ret (zip_with (fun i n => i && negb n) idx nan_idx)
        else raise (ValueError Unrecognized_control_hint)) ;;
     a <- np.getitem_mask (_data self) idx ;;
     FileIndex_of env a (t0 self)) s.
Proof.
  intros Hxs Hne. unfold get_time_range.
  rewrite (bind_ok _ _ _ _ _ (read_ok _ _ _ Hxs)).
  rewrite bool_decide_eq_false_2 by (by destruct xs).
  rewrite (bind_ok _ _ _ (Z.of_nat (start_idx xs start)) s).
  2:{ destruct start; [|done]. apply argmax_ok. by destruct xs. }
  rewrite (bind_ok _ _ _ (Z.of_nat (end_idx xs stop)) s).
  2:{ destruct stop; [|done]. apply argmax_ok. by destruct xs. }
  done.
Qed.

(** C8.  On a non-empty FileIndex, [get_time_range] with a hint other than
    [include_nans], [all_nans] and [remove_nans] raises
    [ValueError('Unrecognized control hint.')]; on an empty FileIndex it
    returns an empty FileIndex (on the same, empty, array and with the same
    [t0]) for every hint, recognized or not, and for no hint. *)
Theorem get_time_range_hint (s : state) (self : FileIndex) (xs : list entry)
    (start stop : option f8) :
  contents (heap s) (_data self) = Some xs ->
  (xs <> [] ->
   forall hint : string,
     hint ∉ ["include_nans"; "all_nans"; "remove_nans"]%string ->
     get_time_range env self start stop (Some hint) s
     = (Raise (ValueError Unrecognized_control_hint), s))
  /\ (xs = [] ->
      forall hint : option string,
        get_time_range env self start stop hint s = (Ok self, s)).
Proof.
  intros Hxs. split.
  - intros Hne hint Hhint.
    rewrite (get_time_range_nonempty s self xs start stop (Some hint) Hxs Hne).
    simpl default. cbv zeta.
    assert (forall h : string, h ∈ ["include_nans"; "all_nans"; "remove_nans"]%string ->
                               String.eqb hint h = false) as Hneq.
    { intros h Hh. apply String.eqb_neq. by intros ->. }
    rewrite !Hneq by (repeat constructor). done.
  - intros -> hint. unfold get_time_range.
    rewrite (bind_ok _ _ _ _ _ (read_ok _ _ _ Hxs)).
    rewrite bool_decide_eq_true_2 by done.
    rewrite (FileIndex_of_ok env _ _ _ _ Hxs).
    by destruct self as [a [t|]].
Qed.

End time_range.

(** *** Time ranges on an index in time order *)

Lemma range_mask_length a b n : length (range_mask a b n) = n.
Proof. unfold range_mask. by rewrite length_map, length_seq. Qed.

Lemma range_mask_lookup a b n i :
  (i < n)%nat -> range_mask a b n !! i = Some (bool_decide (a <= i < b)%nat).
Proof.
  intros Hi. unfold range_mask. rewrite list_lookup_fmap.
  by rewrite lookup_seq_lt.
Qed.

Lemma compress_range_mask {A} (xs : list A) (a b : nat) :
  np.compress (range_mask a b (length xs)) xs = take (b - a) (drop a xs).
Proof.
  revert a b. induction xs as [|x xs IH]; intros a b.
  - by rewrite drop_nil, take_nil.
  - unfold range_mask in *. simpl length. simpl seq. rewrite <- seq_shift.
    cbn [map]. rewrite map_map.
    destruct a as [|a].
    + destruct b as [|b].
      * rewrite bool_decide_eq_false_2 by lia.
        rewrite (map_ext _ (fun i => bool_decide (0 <= i < 0)%nat)).
        2:{ intros i. apply bool_decide_ext. lia. }
        cbn [np.compress]. rewrite IH. done.
      * rewrite bool_decide_eq_true_2 by lia.
        rewrite (map_ext _ (fun i => bool_decide (0 <= i < b)%nat)).
        2:{ intros i. apply bool_decide_ext. lia. }
        cbn [np.compress]. rewrite IH. simpl. by rewrite Nat.sub_0_r.
    + rewrite bool_decide_eq_false_2 by lia.
      rewrite (map_ext _ (fun i => bool_decide (a <= i < b - 1)%nat)).
      2:{ intros i. apply bool_decide_ext. lia. }
      cbn [np.compress]. rewrite IH. simpl drop. f_equal. lia.
Qed.

Lemma lookup_foldr_insert_true (ps : list nat) (idx : list bool) (i : nat) :
  (i < length idx)%nat ->
  foldr (fun p acc => <[p := true]> acc) idx ps !! i
  = if bool_decide (i ∈ ps) then Some true else idx !! i.
Proof.
  intros Hi. induction ps as [|p ps IH]; cbn [foldr].
  - by rewrite bool_decide_eq_false_2 by apply not_elem_of_nil.
  - destruct (decide (p = i)) as [->|Hne].
    + rewrite list_lookup_insert_eq.
      * rewrite bool_decide_eq_true_2; [done|by left].
      * clear IH. induction ps; simpl; [done|]. by rewrite length_insert.
    + rewrite list_lookup_insert_ne by done. rewrite IH.
      apply (f_equal (fun (b:bool) => if b then Some true else idx !! i)).
      apply bool_decide_ext. rewrite elem_of_cons. split; [by right|by intros [?|?]].
Qed.

Lemma lookup_repeat {A} (x : A) (n i : nat) : (i < n)%nat -> repeat x n !! i = Some x.
Proof.
  revert i. induction n as [|n IH]; intros [|i] Hi; simpl; try lia; [done|].
  apply IH. lia.
Qed.

Lemma set_range_mask (n a b : nat) :
  np.set_range (repeat false n) (Z.of_nat a) (Z.of_nat b) = range_mask a b n.
Proof.
  unfold np.set_range. rewrite repeat_length, slice_positions_step1.
  set (lo := Z.to_nat _). set (hi := Z.to_nat _).
  assert (lo = Nat.min a n /\ hi = Nat.min b n) as [Hlo Hhi].
  { unfold lo, hi, np.slice_start, np.slice_stop, np.adjust.
    change (1 <? 0) with false. cbv iota. split; repeat case_match; lia. }
  apply list_eq. intros i.
  destruct (decide (i < n)%nat) as [Hi|Hi].
  - rewrite lookup_foldr_insert_true by (by rewrite repeat_length).
    rewrite range_mask_lookup by done.
    destruct (bool_decide (i ∈ seq lo (hi - lo))) eqn:Hin.
    + apply bool_decide_eq_true in Hin. apply elem_of_seq in Hin.
      rewrite bool_decide_eq_true_2; [done|lia].
    + apply bool_decide_eq_false in Hin. rewrite elem_of_seq in Hin.
      rewrite bool_decide_eq_false_2 by lia.
      by apply lookup_repeat.
  - rewrite !lookup_ge_None_2; [done| |].
    + rewrite range_mask_length. lia.
    + assert (forall ps, length (foldr (fun p acc => <[p := true]> acc) (repeat false n) ps) = n) as ->.
      { induction ps; simpl; [apply repeat_length|by rewrite length_insert]. }
      lia.
Qed.

Lemma f8_ge_valid (e : entry) (t : f8) : f8_ge (time e) t = true -> valid e = true.
Proof. unfold valid. by destruct (time e). Qed.

Lemma argmax_threshold (xs : list entry) (t : f8) :
  valid_times_ascending xs ->
  (exists e, e ∈ xs /\ f8_ge (time e) t = true) ->
  forall (i : nat) (e : entry),
    xs !! i = Some e -> valid e = true ->
    f8_ge (time e) t
    = bool_decide (np.argmax_bool (map (fun e => f8_ge (time e) t) xs) <= i)%nat.
Proof.
  intros Hsorted (e0&Hin&Hge0) i e Hi Hvalid.
  unfold np.argmax_bool.
  destruct (np.first_true (map (fun e => f8_ge (time e) t) xs)) as [k|] eqn:Hk.
  - apply first_true_Some in Hk as [Hk Hbefore]. simpl.
    rewrite list_lookup_fmap in Hk.
    destruct (xs !! k) as [ek|] eqn:Hek; [|done]. injection Hk as Hk.
    destruct (decide (k <= i)%nat) as [Hle|Hlt].
    + rewrite bool_decide_eq_true_2 by done.
      apply (f8_ge_trans _ (time ek)); [|done].
      apply (Hsorted k i ek e); try done. by eapply f8_ge_valid.
    + rewrite bool_decide_eq_false_2 by done.
      specialize (Hbefore i ltac:(lia)).
      rewrite list_lookup_fmap, Hi in Hbefore. by injection Hbefore.
  - apply first_true_None in Hk. rewrite Forall_forall in Hk.
    specialize (Hk (f8_ge (time e0) t)). rewrite Hge0 in Hk.
    exfalso. enough (true = false) by done. apply Hk.
    by apply (list_elem_of_fmap_2' (fun e => f8_ge (time e) t) xs e0).
Qed.

Lemma filter_compress {A} (p : A -> bool) (mask : list bool) (xs : list A) :
  List.filter p (np.compress mask xs) = np.compress (zip_with andb mask (map p xs)) xs.
Proof.
  revert mask. induction xs as [|x xs IH]; intros [|b mask]; try done.
  cbn [np.compress map zip_with]. destruct b; cbn [andb].
  - cbn [List.filter]. rewrite IH. by destruct (p x).
  - apply IH.
Qed.

Section sorted_time_range.

Context (env : Env).

(** On an index whose valid times ascend, and for bounds that some stored
    time reaches, [get_time_range] is a half-open range on the floored
    start: under each of the three hints, the rows with a valid time that it
    returns are exactly the rows with [floor(start) <= t] and [t < stop]. *)
Theorem get_time_range_sorted (s : state) (self : FileIndex) (xs : list entry)
    (start stop : option f8) (hint : option string) :
  contents (heap s) (_data self) = Some xs ->
  xs <> [] ->
  valid_times_ascending xs ->
  reached xs (f8_floor <$> start) ->
  reached xs stop ->
  hint ∈ [None; Some "include_nans"; Some "all_nans"; Some "remove_nans"]%string ->
  exists (index : FileIndex) (s' : state) (ys : list entry),
    get_time_range env self start stop hint s = (Ok index, s')
    /\ contents (heap s') (_data index) = Some ys
    /\ List.filter valid ys = List.filter (in_time_range start stop) xs.
Proof.
  intros Hxs Hne Hsorted Hstart Hstop Hhint.
  set (si := start_idx xs start). set (ei := end_idx xs stop).
  set (n := length xs).
  (* The valid rows between the two positions are the rows in the range. *)
  assert (forall mask : list bool,
             length mask = n ->
             (forall i e, xs !! i = Some e -> valid e = true ->
                          mask !! i = Some (bool_decide (si <= i < ei)%nat)) ->
             List.filter valid (np.compress mask xs)
             = List.filter (in_time_range start stop) xs) as Hmask.
  { intros mask Hlen Hrange.
    rewrite filter_compress, <- (compress_map_filter (in_time_range start stop)).
    apply compress_ext.
    - rewrite length_zip_with, length_map. fold n. lia.
    - by rewrite length_map.
    - intros i Hi. destruct (lookup_lt_is_Some_2 xs i Hi) as [e He].
      rewrite lookup_zip_with, !list_lookup_fmap, He. simpl.
      destruct (mask !! i) as [b|] eqn:Hb.
      2:{ apply lookup_ge_None in Hb. fold n in Hi. lia. }
      simpl. f_equal. unfold in_time_range.
      destruct (valid e) eqn:Hvalid; [|by rewrite andb_false_r].
      rewrite andb_true_r. simpl.
      rewrite (Hrange i e He Hvalid) in Hb. injection Hb as <-.
      assert (match start with
              | Some st => f8_ge (time e) (f8_floor st)
              | None => true
              end = bool_decide (si <= i)%nat) as ->.
      { unfold si, start_idx. destruct start as [st|].
        - by apply argmax_threshold.
        - symmetry. apply bool_decide_eq_true_2. lia. }
      assert (match stop with
              | Some sp => f8_lt (time e) sp
              | None => true
              end = bool_decide (i < ei)%nat) as ->.
      { unfold ei, end_idx. destruct stop as [sp|].
        - unfold valid in Hvalid. destruct (time e) as [|q] eqn:Ht; [done|].
          rewrite f8_lt_not_ge.
          2:{ destruct Hstop as (e'&_&Hge). by destruct (time e'), sp. }
          rewrite <- Ht, (argmax_threshold xs sp Hsorted Hstop i e He)
            by (unfold valid; by rewrite Ht).
          destruct (decide (np.argmax_bool (map (fun e => f8_ge (time e) sp) xs) <= i)%nat).
          + rewrite bool_decide_eq_true_2, bool_decide_eq_false_2 by lia. done.
          + rewrite bool_decide_eq_false_2, bool_decide_eq_true_2 by lia. done.
        - symmetry. apply bool_decide_eq_true_2. by apply lookup_lt_Some in He. }
      destruct (decide (si <= i)%nat), (decide (i < ei)%nat);
        repeat first [rewrite bool_decide_eq_true_2 by lia
                     |rewrite bool_decide_eq_false_2 by lia]; done. }
  assert (forall i e, xs !! i = Some e -> (i < n)%nat) as Hlt.
  { intros i e He. by apply lookup_lt_Some in He. }
  rewrite (get_time_range_nonempty env s self xs start stop hint Hxs Hne).
  cbv zeta. fold si ei n.
  assert (hint = None \/ hint = Some "include_nans"%string
          \/ hint = Some "all_nans"%string \/ hint = Some "remove_nans"%string)
    as [-> | [-> | [-> | ->]]].
  { rewrite !elem_of_cons in Hhint. rewrite elem_of_nil in Hhint. tauto. }
  1,2: (cbn [from_option id];
        change ("include_nans" =? "include_nans")%string with true; cbv iota;
        pose proof (getitem_slice_contents _ _ _ (Some (Z.of_nat si)) (Some (Z.of_nat ei)) 1 Hxs)
          as Hys;
        eexists _, s, _; split;
        [ erewrite (bind_ok (np.getitem_slice _ _ _ _) _ s _ s) by reflexivity;
          exact (FileIndex_of_ok env s _ _ (t0 self) Hys)
        | split; [exact Hys|];
          rewrite select_slice_nat, <- compress_range_mask;
          apply Hmask; [apply range_mask_length|];
          intros i e He _; apply range_mask_lookup; by eapply Hlt ]).
  - cbn [from_option id]. change ("all_nans" =? "include_nans")%string with false.
    change ("all_nans" =? "all_nans")%string with true. cbv iota.
    rewrite set_range_mask.
    set (mask := zip_with orb _ _).
    assert (length mask = n) as Hlen.
    { unfold mask. rewrite length_zip_with, range_mask_length, length_map. fold n. lia. }
    rewrite (bind_ok _ _ _ mask s) by done.
    rewrite (bind_ok _ _ _ _ _ (getitem_mask_ok _ _ _ _ Hxs Hlen)).
    eexists _, _, _. split; [by apply FileIndex_of_ok, contents_allocated|].
    split; [apply contents_allocated|].
    apply Hmask; [done|]. intros i e He Hvalid. unfold mask.
    rewrite lookup_zip_with, (range_mask_lookup _ _ _ _ (Hlt _ _ He)), list_lookup_fmap, He.
    simpl. unfold valid in Hvalid. destruct (isnan (time e)); [done|].
    by rewrite orb_false_r.
  - cbn [from_option id]. change ("remove_nans" =? "include_nans")%string with false.
    change ("remove_nans" =? "all_nans")%string with false.
    change ("remove_nans" =? "remove_nans")%string with true. cbv iota.
    rewrite set_range_mask.
    set (mask := zip_with _ _ _).
    assert (length mask = n) as Hlen.
    { unfold mask. rewrite length_zip_with, range_mask_length, length_map. fold n. lia. }
    rewrite (bind_ok _ _ _ mask s) by done.
    rewrite (bind_ok _ _ _ _ _ (getitem_mask_ok _ _ _ _ Hxs Hlen)).
    eexists _, _, _. split; [by apply FileIndex_of_ok, contents_allocated|].
    split; [apply contents_allocated|].
    apply Hmask; [done|]. intros i e He Hvalid. unfold mask.
    rewrite lookup_zip_with, (range_mask_lookup _ _ _ _ (Hlt _ _ He)), list_lookup_fmap, He.
    simpl. unfold valid in Hvalid. destruct (isnan (time e)); [done|].
    by rewrite andb_true_r.
Qed.

End sorted_time_range.

(** ** The record codec *)

Section codec.

Context (env : Env).

Lemma set_heap_allocated (b b' : buffer) (s : state) :
  set_heap (<[fresh (dom (heap s)) := b']> (heap (allocated b s))) (allocated b s)
  = allocated b' s.
Proof. unfold allocated, set_heap. simpl. by rewrite insert_insert_eq. Qed.

Lemma _to_raw_ok (s : state) (data : ndarray) (xs : list entry) :
  contents (heap s) data = Some xs ->
  _to_raw env data s =
    (Ok (Ndarray (fresh (dom (heap s))) (seq 0 (length xs))),
     allocated (raw_buf (map (to_raw_row env) xs)) s).
Proof.
  intros Hxs. unfold _to_raw, np.astype_RAW.
  rewrite (bind_ok _ _ _ _ _ (read_ok _ _ _ Hxs)).
  rewrite (bind_ok _ _ _ (Ndarray (fresh (dom (heap s))) (seq 0 (length xs)))
             (allocated (raw_buf (map astype_RAW_DTYPE xs)) s)).
  2:{ rewrite (bind_ok _ _ _ _ _ (read_ok _ _ _ Hxs)).
      unfold new_raw_array, alloc. by rewrite length_map. }
  unfold bind, assign_raw_where, ret. simpl base. simpl cells.
  replace (heap (allocated (raw_buf (map astype_RAW_DTYPE xs)) s) !! fresh (dom (heap s)))
    with (Some (raw_buf (map astype_RAW_DTYPE xs)))
    by (symmetry; apply lookup_insert_eq).
  rewrite set_heap_allocated. do 3 f_equal.
  rewrite <- (length_map astype_RAW_DTYPE xs) at 1.
  rewrite write_cells_owner by (by rewrite !length_map).
  unfold to_raw_row. clear Hxs. induction xs as [|x xs IH]; [done|].
  simpl. rewrite IH. by destruct (isnan (time x)).
Qed.

Lemma _from_raw_ok (s : state) (raw_data : ndarray) (rs : list Raw.t) :
  raw_contents (heap s) raw_data = Some rs ->
  _from_raw env raw_data s =
    (Ok (Ndarray (fresh (dom (heap s))) (seq 0 (length rs))),
     allocated (index_buf (map (from_raw_row env) rs)) s).
Proof.
  intros Hrs. unfold _from_raw, np.astype.
  rewrite (bind_ok _ _ _ _ _ (read_raw_ok _ _ _ Hrs)).
  rewrite (bind_ok _ _ _ (Ndarray (fresh (dom (heap s))) (seq 0 (length rs)))
             (allocated (index_buf (map astype_DTYPE rs)) s)).
  2:{ rewrite (bind_ok _ _ _ _ _ (read_raw_ok _ _ _ Hrs)).
      unfold new_array, alloc. by rewrite length_map. }
  unfold bind, assign_where, ret. simpl base. simpl cells.
  replace (heap (allocated (index_buf (map astype_DTYPE rs)) s) !! fresh (dom (heap s)))
    with (Some (index_buf (map astype_DTYPE rs)))
    by (symmetry; apply lookup_insert_eq).
  rewrite set_heap_allocated. do 3 f_equal.
  rewrite <- (length_map astype_DTYPE rs) at 1.
  rewrite write_cells_owner by (by rewrite !length_map).
  unfold from_raw_row. clear Hrs. induction rs as [|r rs IH]; [done|].
  simpl. rewrite IH. by destruct (Raw.int r =? Timestamp_INVALID env).
Qed.

Lemma round_trip_row (e : entry) :
  storable env (time e) ->
  from_raw_row env (to_raw_row env e) = Entry (stored_time (time e)) (type e) (offset e).
Proof.
  intros Hst. destruct e as [[|q] ty off]; unfold to_raw_row, from_raw_row.
  - simpl. by rewrite Z.eqb_refl.
  - destruct Hst as (H0&H32&Hne).
    assert (f8_to_u4 (Fin q) = Qfloor q) as Hcast.
    { rewrite f8_to_u4_in_range; rewrite (Qtruncate_nonneg _ H0); [done|].
      by apply Qfloor_range. }
    unfold astype_DTYPE, astype_RAW_DTYPE.
    cbn [time type offset isnan Raw.int Raw.type Raw.offset stored_time].
    rewrite Hcast.
    destruct (Qfloor q =? Timestamp_INVALID env) eqn:Heq; [exfalso; lia|reflexivity].
Qed.

End codec.

Section codec_round_trip.

Context (env : Env).

Lemma stored_time_integer (t : f8) :
  integer_valued t -> same_time (stored_time t) t.
Proof. destruct t as [|q]; [done|]. simpl. intros H. by symmetry. Qed.

(** C6, as the code has it.  [_to_raw] followed by [_from_raw] keeps the
    type and the offset of every row.  A NaN time comes back as NaN.  A time
    from [0] up to [2^32] whose integer part is not the sentinel
    [Timestamp._INVALID] comes back as its floor: the fraction is dropped,
    not rounded, and a time that is a whole number comes back equal to
    itself. *)
Theorem round_trip_storable (s : state) (data : ndarray) (xs : list entry) :
  contents (heap s) data = Some xs ->
  Forall (fun e => storable env (time e)) xs ->
  exists (a : ndarray) (s' : state) (ys : list entry),
    (raw_data <- _to_raw env data ;; _from_raw env raw_data) s = (Ok a, s')
    /\ contents (heap s') a = Some ys
    /\ Forall2 comes_back_as xs ys.
Proof.
  intros Hxs Hst.
  pose (s1 := allocated (raw_buf (map (to_raw_row env) xs)) s).
  pose (ys := map (from_raw_row env) (map (to_raw_row env) xs)).
  exists (Ndarray (fresh (dom (heap s1))) (seq 0 (length (map (to_raw_row env) xs)))),
         (allocated (index_buf ys) s1), ys.
  split; [|split].
  - rewrite (bind_ok _ _ _ _ _ (_to_raw_ok env _ _ _ Hxs)).
    apply _from_raw_ok.
    rewrite <- (length_map (to_raw_row env) xs). apply raw_contents_allocated.
  - unfold ys at 2. rewrite <- (length_map (from_raw_row env)).
    apply contents_allocated.
  - unfold ys. clear Hxs s1 ys. induction Hst as [|e xs He _ IH]; simpl; constructor; [|done].
    rewrite (round_trip_row env e He). unfold comes_back_as. simpl. repeat split.
    + by destruct (time e).
    + by intros q ->.
    + apply stored_time_integer.
Qed.

End codec_round_trip.

(** *** The bytes of a row *)

Lemma row_of_bytes_to_bytes (r : Raw.t) (rest : list byte) :
  raw_ok r -> row_of_bytes (take itemsize (row_to_bytes r ++ rest)) = r.
Proof.
  intros (Hint&Htype&Hoffset). destruct r as [i t o].
  unfold row_of_bytes, row_to_bytes. cbn [Raw.int Raw.type Raw.offset] in *.
  assert (length (le_split 4 i) = 4%nat) as H4 by apply length_le_split.
  assert (length (le_split 2 t) = 2%nat) as H2 by apply length_le_split.
  assert (length (le_split 8 o) = 8%nat) as H8 by apply length_le_split.
  rewrite (take_app_length' _ rest itemsize)
    by (rewrite !length_app; unfold itemsize; lia).
  rewrite (take_app_length' (le_split 4 i)) by done.
  rewrite (drop_app_length' (le_split 4 i)) by done.
  rewrite (take_app_length' (le_split 2 t)) by done.
  assert (drop 6 (le_split 4 i ++ le_split 2 t ++ le_split 8 o) = le_split 8 o) as ->.
  { rewrite (assoc_L (++)). apply drop_app_length'. rewrite length_app. lia. }
  rewrite (take_ge (le_split 8 o)) by lia.
  rewrite !le_combine_split.
  unfold in_range in *. f_equal; apply Z.mod_small; simpl; lia.
Qed.

Lemma length_row_to_bytes (r : Raw.t) : length (row_to_bytes r) = itemsize.
Proof. unfold row_to_bytes. by rewrite !length_app, !length_le_split. Qed.

Lemma length_rows_to_bytes (rs : list Raw.t) :
  length (rows_to_bytes rs) = (length rs * itemsize)%nat.
Proof.
  induction rs as [|r rs IH]; [done|].
  unfold rows_to_bytes in *.
  change (concat (map row_to_bytes (r :: rs)))
    with (row_to_bytes r ++ concat (map row_to_bytes rs)).
  rewrite length_app, IH, length_row_to_bytes. unfold itemsize. cbn [length]. lia.
Qed.

(** What [tofile] writes, [np.fromfile] reads back. *)
Lemma rows_of_bytes_to_bytes (rs : list Raw.t) :
  Forall raw_ok rs -> rows_of_bytes (rows_to_bytes rs) = rs.
Proof.
  intros Hok. unfold rows_of_bytes. rewrite length_rows_to_bytes.
  rewrite Nat.div_mul by done.
  induction Hok as [|r rs Hr _ IH]; [done|].
  unfold rows_to_bytes in *.
  change (concat (map row_to_bytes (r :: rs)))
    with (row_to_bytes r ++ concat (map row_to_bytes rs)).
  cbn [length rows_of_bytes_n].
  rewrite (row_of_bytes_to_bytes r _ Hr). f_equal.
  by rewrite drop_app_length' by (by rewrite length_row_to_bytes).
Qed.

(** ** Loading and the consistency checks *)

Section load_facts.

Context (env : Env).

Lemma load_index_ok (s : state) (index_path : string) (index_file : list byte) :
  files s !! index_path = Some index_file ->
  exists (a : ndarray) (s1 : state),
    load_index env index_path s = (Ok a, s1)
    /\ contents (heap s1) a = Some (loaded_rows env index_file)
    /\ files s1 = files s
    /\ heap s ⊆ heap s1.
Proof.
  intros Hfile.
  pose (rs := rows_of_bytes index_file).
  pose (s0 := allocated (raw_buf rs) s).
  exists (Ndarray (fresh (dom (heap s0))) (seq 0 (length rs))),
         (allocated (index_buf (map (from_raw_row env) rs)) s0).
  split; [|split; [|split]].
  - unfold load_index.
    rewrite (bind_ok _ _ _ _ _ (path_exists_ok _ _ _ Hfile)).
    rewrite (bind_ok _ _ _ (Ndarray (fresh (dom (heap s))) (seq 0 (length rs))) s0).
    2:{ unfold np.fromfile. by rewrite (bind_ok _ _ _ _ _ (read_file_ok _ _ _ Hfile)). }
    apply _from_raw_ok. apply raw_contents_allocated.
  - unfold loaded_rows. fold rs. rewrite <- (length_map (from_raw_row env) rs).
    apply contents_allocated.
  - done.
  - trans (heap s0); apply allocated_grows.
Qed.

Lemma load_index_missing (s : state) (index_path : string) :
  files s !! index_path = None ->
  load_index env index_path s = (Raise (FileNotFoundError index_path), s).
Proof.
  intros Hfile. unfold load_index.
  by rewrite (bind_ok _ _ _ _ _ (path_exists_not _ _ Hfile)).
Qed.

Lemma cleanup_raise {A} (delete_on_error : bool) (index_path : string) (e : exn)
    (s : state) (index_file : list byte) :
  files s !! index_path = Some index_file ->
  (when delete_on_error (os_remove index_path) ;; raise e) s
  = (@Raise A e, after_cleanup delete_on_error index_path s).
Proof.
  intros Hfile. destruct delete_on_error; [|done].
  unfold bind, when, os_remove. by rewrite Hfile.
Qed.

(** With a data file in place, [load] reads the index and goes on to the
    checks. *)
Lemma load_reaches_check (s : state) (index_path : string) (data_path : option string)
    (delete_on_error : bool) (index_file data_file : list byte) :
  files s !! index_path = Some index_file ->
  files s !! resolve_data_path env index_path data_path = Some data_file ->
  exists (a : ndarray) (s1 : state),
    load env index_path data_path delete_on_error s
    = load_check env a index_path (resolve_data_path env index_path data_path) delete_on_error s1
    /\ contents (heap s1) a = Some (loaded_rows env index_file)
    /\ files s1 = files s.
Proof.
  intros Hindex Hdata.
  destruct (load_index_ok s index_path index_file Hindex) as (a&s1&Hrun&Hrows&Hfiles&_).
  exists a, s1. split; [|done].
  unfold load. rewrite (bind_ok _ _ _ _ _ Hrun).
  rewrite <- Hfiles in Hdata.
  destruct data_path as [data_path|]; simpl in Hdata;
    by rewrite (bind_ok _ _ _ _ _ (path_exists_ok _ _ _ Hdata)).
Qed.

(** The checks, step by step, on an index without an EOF marker and a data
    file that is not empty. *)
Lemma load_check_no_marker (s : state) (a : ndarray) (index_path data_path : string)
    (delete_on_error : bool) (rows : list entry) (last : entry) (data_file : list byte) :
  contents (heap s) a = Some (rows ++ [last]) ->
  type last <> MessageType_INVALID env ->
  files s !! data_path = Some data_file ->
  data_file <> [] ->
  load_check env a index_path data_path delete_on_error s =
  (let size := Z.of_nat (length data_file) in
   if size - calcsize env <? offset last then
     when delete_on_error (os_remove index_path) ;;
     raise (ValueError (Last_index_entry_past_end_of_file size (offset last)))
   else
     match unpack_payload_size_bytes env
             (take (Z.to_nat (calcsize env)) (drop (Z.to_nat (offset last)) data_file)) with
     | None => raise HeaderError
     | Some payload_size =>
         if negb (offset last + (calcsize env + payload_size) =? size) then
           when delete_on_error (os_remove index_path) ;;
           raise (ValueError (Size_expected_by_index_file_does_not_match size
                                (offset last + (calcsize env + payload_size))))
         else ret a
     end) s.
Proof.
  intros Hrows Htype Hdata Hne. unfold load_check.
  rewrite (bind_ok _ _ _ _ _ (read_file_ok _ _ _ Hdata)).
  rewrite (bind_ok _ _ _ _ _ (read_ok _ _ _ Hrows)).
  assert ((Z.of_nat (length data_file) =? 0) = false) as ->.
  { destruct data_file; [done|]. simpl length. lia. }
  assert ((Z.of_nat (length (rows ++ [last])) =? 0) = false) as ->.
  { rewrite length_app. simpl. lia. }
  cbn [andb negb].
  rewrite !map_app. cbn [map].
  rewrite (bind_ok _ _ _ _ _ (item_last_ok _ _ _)).
  assert ((type last =? MessageType_INVALID env) = false) as -> by lia.
  by rewrite (bind_ok _ _ _ _ _ (item_last_ok _ _ _)).
Qed.

(** C3, as the code has it.  When the loaded index is not empty and has no
    trailing EOF marker, and its data file exists and is not empty, [load]
    uses only the header at the last row's offset: it fails with
    [Last index entry past end of file] (reporting the file size and the
    offset) if the offset exceeds the file size less the header size; and
    otherwise, once the header has been unpacked, it fails with
    [Size expected by index file does not match binary file] (reporting the
    file size and the expected size [offset + header size + payload size])
    if the two differ, and returns the loaded rows, leaving the files as
    they were, if they are equal. *)
Theorem load_without_marker (s : state) (index_path : string) (data_path : option string)
    (delete_on_error : bool) (index_file data_file : list byte)
    (rows : list entry) (last : entry) :
  files s !! index_path = Some index_file ->
  loaded_rows env index_file = rows ++ [last] ->
  type last <> MessageType_INVALID env ->
  files s !! resolve_data_path env index_path data_path = Some data_file ->
  data_file <> [] ->
  let size := Z.of_nat (length data_file) in
  let r := load env index_path data_path delete_on_error s in
  (size - calcsize env < offset last ->
   fst r = Raise (ValueError (Last_index_entry_past_end_of_file size (offset last))))
  /\ (offset last <= size - calcsize env ->
      forall payload_size : Z,
        unpack_payload_size_bytes env
          (take (Z.to_nat (calcsize env)) (drop (Z.to_nat (offset last)) data_file))
        = Some payload_size ->
        let expected_size := offset last + calcsize env + payload_size in
        (expected_size <> size ->
         fst r = Raise (ValueError (Size_expected_by_index_file_does_not_match
                                      size expected_size)))
        /\ (expected_size = size ->
            exists a : ndarray,
              fst r = Ok a
              /\ contents (heap (snd r)) a = Some (rows ++ [last])
              /\ files (snd r) = files s)).
Proof.
  intros Hindex Hrows Htype Hdata Hne size r.
  destruct (load_reaches_check s index_path data_path delete_on_error _ _ Hindex Hdata)
    as (a&s1&Hload&Hloaded&Hfiles).
  rewrite Hrows in Hloaded. rewrite <- Hfiles in Hdata, Hindex.
  pose proof (load_check_no_marker s1 a index_path _ delete_on_error rows last data_file
                Hloaded Htype Hdata Hne) as Hcheck.
  cbv zeta in Hcheck. fold size in Hcheck.
  assert (r = load_check env a index_path (resolve_data_path env index_path data_path)
                delete_on_error s1) as Hr by exact Hload.
  rewrite Hr, Hcheck. clear Hr Hcheck Hload r.
  split.
  - intros Hpast.
    assert ((size - calcsize env <? offset last) = true) as -> by lia.
    cbv iota. by rewrite (cleanup_raise _ _ _ _ _ Hindex).
  - intros Hroom payload_size Hunpack expected_size.
    assert ((size - calcsize env <? offset last) = false) as -> by lia.
    cbv iota. rewrite Hunpack.
    assert (offset last + (calcsize env + payload_size) = expected_size) as ->
      by (unfold expected_size; lia).
    split.
    + intros Hdiff.
      assert ((expected_size =? size) = false) as -> by lia.
      cbn [negb]. cbv iota. by rewrite (cleanup_raise _ _ _ _ _ Hindex).
    + intros Hsame.
      assert ((expected_size =? size) = true) as -> by lia.
      cbn [negb]. cbv iota. by exists a.
Qed.

End load_facts.

(** ** What a call leaves alone *)

#[local] Instance buffers_kept_preorder : PreOrder buffers_kept.
Proof.
  split.
  - intros s. unfold buffers_kept. reflexivity.
  - intros s1 s2 s3 H12 H23. unfold buffers_kept in *. by trans (heap s2).
Qed.

#[local] Instance files_kept_preorder : PreOrder files_kept.
Proof.
  split.
  - intros s. split; reflexivity.
  - intros s1 s2 s3 [H12 F12] [H23 F23]. split; [by trans (heap s2)|congruence].
Qed.

Lemma files_kept_buffers_kept {A} (m : M A) : stable files_kept m -> stable buffers_kept m.
Proof. intros H s. apply H. Qed.

Section stable_facts.

Context (R : relation state) `{!PreOrder R}.

Lemma stable_ret {A} (a : A) : stable R (ret a).
Proof. intros s. simpl. reflexivity. Qed.

Lemma stable_raise {A} (e : exn) : stable R (@raise A e).
Proof. intros s. simpl. reflexivity. Qed.

Lemma stable_bind {A B} (m : M A) (k : A -> M B) :
  stable R m -> (forall a, stable R (k a)) -> stable R (bind m k).
Proof.
  intros Hm Hk s. unfold bind. specialize (Hm s).
  destruct (m s) as [[a|e] s1]; simpl in *; [|done].
  transitivity s1; [exact Hm|apply Hk].
Qed.

Lemma stable_when (c : bool) (m : M unit) : stable R m -> stable R (when c m).
Proof. intros Hm. destruct c; [done|]. apply stable_ret. Qed.

Lemma stable_if {A} (c : bool) (m1 m2 : M A) :
  stable R m1 -> stable R m2 -> stable R (if c then m1 else m2).
Proof. by destruct c. Qed.

End stable_facts.

Lemma stable_read (a : ndarray) : stable files_kept (read a).
Proof. intros s. unfold files_kept, buffers_kept. unfold read. by case_match. Qed.

Lemma stable_read_raw (a : ndarray) : stable files_kept (read_raw a).
Proof. intros s. unfold files_kept, buffers_kept. unfold read_raw. by case_match. Qed.

Lemma stable_alloc (b : buffer) (n : nat) : stable files_kept (alloc b n).
Proof. intros s. unfold files_kept, buffers_kept. split; [apply heap_grows_fresh|done]. Qed.

Lemma stable_has_DTYPE (a : ndarray) : stable files_kept (has_DTYPE a).
Proof. intros s. unfold files_kept, buffers_kept. unfold has_DTYPE. by repeat case_match. Qed.

Lemma stable_path_exists (path : string) : stable files_kept (path_exists path).
Proof. intros s. unfold files_kept, buffers_kept. done. Qed.

Lemma stable_read_file (path : string) : stable files_kept (read_file path).
Proof. intros s. unfold files_kept, buffers_kept. unfold read_file. by case_match. Qed.

Lemma stable_os_remove (path : string) : stable buffers_kept (os_remove path).
Proof. intros s. unfold files_kept, buffers_kept. unfold os_remove. by case_match. Qed.

Lemma stable_write_file (path : string) (bs : list byte) :
  stable buffers_kept (write_file path bs).
Proof. intros s. unfold files_kept, buffers_kept. done. Qed.

Lemma stable_item_last {A} (col : list A) : stable files_kept (np.item_last col).
Proof. intros s. unfold files_kept, buffers_kept. unfold np.item_last. by case_match. Qed.

Lemma stable_argmax (mask : list bool) : stable files_kept (np.argmax mask).
Proof. intros s. unfold files_kept, buffers_kept. by destruct mask. Qed.

Lemma stable_getitem_slice (a : ndarray) (start stop step : option Z) :
  stable files_kept (np.getitem_slice a start stop step).
Proof. intros s. unfold files_kept, buffers_kept. unfold np.getitem_slice. by repeat case_match. Qed.

Create HintDb stable discriminated.
#[local] Hint Resolve stable_ret stable_raise stable_when stable_if
  stable_read stable_read_raw stable_alloc stable_has_DTYPE stable_path_exists
  stable_read_file stable_item_last stable_argmax stable_getitem_slice
  : stable.

(** Follows the binds of a computation down to its primitive steps. *)
Ltac stable_steps :=
  repeat first
    [ progress intros
    | solve [eauto with stable]
    | apply files_kept_buffers_kept; solve [eauto with stable]
    | apply stable_ret; typeclasses eauto
    | apply stable_raise; typeclasses eauto
    | apply stable_when; [typeclasses eauto|]
    | apply stable_bind; [typeclasses eauto| |]
    | case_match ].

Lemma stable_getitem_mask (a : ndarray) (mask : list bool) :
  stable files_kept (np.getitem_mask a mask).
Proof. unfold np.getitem_mask, new_array. stable_steps. Qed.

Lemma stable_getitem_array (a : ndarray) (ks : list Z) :
  stable files_kept (np.getitem_array a ks).
Proof. unfold np.getitem_array, new_array. stable_steps. Qed.

Lemma stable_append (a : ndarray) (row : entry) : stable files_kept (np.append a row).
Proof. unfold np.append, new_array. stable_steps. Qed.

Lemma stable_array (rows : list entry) : stable files_kept (np.array rows).
Proof. unfold np.array, new_array. stable_steps. Qed.

Lemma stable_fromfile (path : string) : stable files_kept (np.fromfile path).
Proof. unfold np.fromfile, new_raw_array. stable_steps. Qed.

Lemma stable_tofile (a : ndarray) (path : string) : stable buffers_kept (np.tofile a path).
Proof.
  unfold np.tofile. apply stable_bind; [typeclasses eauto| |].
  - apply files_kept_buffers_kept, stable_read_raw.
  - intros rs. apply stable_write_file.
Qed.

Lemma stable_st_size (path : string) : stable files_kept (st_size path).
Proof. unfold st_size. stable_steps. Qed.

#[local] Hint Resolve stable_getitem_mask stable_getitem_array stable_append
  stable_array stable_fromfile stable_st_size stable_os_remove stable_write_file stable_tofile
  : stable.

Section stable_FileIndex.

Context (env : Env).

(** [_to_raw] and [_from_raw] assign in place, but only into the copy that
    [astype] has just made. *)
Lemma stable__to_raw (data : ndarray) : stable files_kept (_to_raw env data).
Proof.
  intros s. destruct (contents (heap s) data) as [xs|] eqn:Hxs.
  - rewrite (_to_raw_ok env s data xs Hxs). split; [apply allocated_grows|done].
  - unfold _to_raw, bind, read. by rewrite Hxs.
Qed.

Lemma stable__from_raw (raw_data : ndarray) : stable files_kept (_from_raw env raw_data).
Proof.
  intros s. destruct (raw_contents (heap s) raw_data) as [rs|] eqn:Hrs.
  - rewrite (_from_raw_ok env s raw_data rs Hrs). split; [apply allocated_grows|done].
  - unfold _from_raw, bind, read_raw. by rewrite Hrs.
Qed.

#[local] Hint Resolve stable__to_raw stable__from_raw : stable.

Lemma stable_load_index (index_path : string) :
  stable files_kept (load_index env index_path).
Proof. unfold load_index. stable_steps. Qed.

#[local] Hint Resolve stable_load_index : stable.

(** [load] changes no buffer; with [delete_on_error] off it changes no file
    either. *)
Lemma stable_load_check (a : ndarray) (index_path data_path : string)
    (delete_on_error : bool) :
  stable buffers_kept (load_check env a index_path data_path delete_on_error).
Proof. unfold load_check. stable_steps. Qed.

Lemma stable_load_check_keep (a : ndarray) (index_path data_path : string) :
  stable files_kept (load_check env a index_path data_path false).
Proof. unfold load_check. stable_steps. Qed.

#[local] Hint Resolve stable_load_check stable_load_check_keep : stable.

Lemma stable_load (index_path : string) (data_path : option string) (delete_on_error : bool) :
  stable buffers_kept (load env index_path data_path delete_on_error).
Proof. unfold load. stable_steps. Qed.

Lemma stable_load_keep (index_path : string) (data_path : option string) :
  stable files_kept (load env index_path data_path false).
Proof. unfold load. stable_steps. Qed.

Lemma stable_init (data : option data_arg) (t : option f8) :
  stable files_kept (__init__ env None None true data t).
Proof. unfold __init__, new_array. stable_steps. Qed.

#[local] Hint Resolve stable_init : stable.

Lemma stable_get_time_range (self : FileIndex) (start stop : option f8)
    (hint : option string) :
  stable files_kept (get_time_range env self start stop hint).
Proof. unfold get_time_range, FileIndex_of. stable_steps. Qed.

#[local] Hint Resolve stable_get_time_range : stable.

Lemma stable_getitem (self : FileIndex) (k : key) :
  stable files_kept (__getitem__ env self k).
Proof. unfold __getitem__, getattr, __getattr__, FileIndex_of. stable_steps. Qed.

Lemma stable_save (self : FileIndex) (index_path : string) (data_path : option string) :
  stable buffers_kept (save env self index_path data_path).
Proof.
  unfold save. stable_steps.
Qed.

End stable_FileIndex.

(** ** Saving *)

Section save_facts.

Context (env : Env).

(** The last steps of [save]: remove an index file that is in the way, then
    write the raw rows. *)
Lemma save_writes (s : state) (raw_data : ndarray) (rs : list Raw.t) (index_path : string) :
  raw_contents (heap s) raw_data = Some rs ->
  (index_exists <- path_exists index_path ;;
   when index_exists (os_remove index_path) ;;
   np.tofile raw_data index_path) s
  = (Ok tt, set_files (<[index_path := rows_to_bytes rs]> (files s)) s).
Proof.
  intros Hrs. unfold np.tofile.
  destruct (files s !! index_path) as [old|] eqn:Hold.
  - rewrite (bind_ok _ _ _ _ _ (path_exists_ok _ _ _ Hold)).
    rewrite (bind_ok _ _ _ tt (set_files (delete index_path (files s)) s)).
    2:{ unfold when, os_remove. by rewrite Hold. }
    rewrite (bind_ok _ _ _ rs (set_files (delete index_path (files s)) s))
      by (by apply read_raw_ok).
    unfold write_file, set_files. simpl. by rewrite insert_delete_eq.
  - rewrite (bind_ok _ _ _ _ _ (path_exists_not _ _ Hold)).
    rewrite (bind_ok _ _ _ tt s) by done.
    by rewrite (bind_ok _ _ _ _ _ (read_raw_ok _ _ _ Hrs)).
Qed.

(** Saving an index whose last row is not a marker, next to a data file
    that exists: the rows and one EOF marker are written. *)
Lemma save_with_marker (s : state) (self : FileIndex) (index_path data_path : string)
    (rows : list entry) (last : entry) (data_file : list byte) :
  contents (heap s) (_data self) = Some (rows ++ [last]) ->
  type last <> MessageType_INVALID env ->
  files s !! data_path = Some data_file ->
  exists s',
    save env self index_path (Some data_path) s = (Ok tt, s')
    /\ files s'
       = <[index_path :=
             rows_to_bytes
               (map (to_raw_row env)
                  ((rows ++ [last]) ++ [eof_marker env (Z.of_nat (length data_file))]))]>
           (files s).
Proof.
  intros Hxs Htype Hdata.
  set (xs' := (rows ++ [last]) ++ [eof_marker env (Z.of_nat (length data_file))]).
  pose (s1 := allocated (index_buf xs') s).
  pose (s2 := allocated (raw_buf (map (to_raw_row env) xs')) s1).
  exists (set_files (<[index_path := rows_to_bytes (map (to_raw_row env) xs')]> (files s2)) s2).
  split; [|reflexivity].
  unfold save. rewrite (bind_ok _ _ _ _ _ (read_ok _ _ _ Hxs)).
  rewrite bool_decide_eq_true_2 by (rewrite length_app; simpl; lia).
  unfold when. rewrite map_app. cbn [map].
  rewrite (bind_ok _ _ _ _ _ (item_last_ok _ _ _)).
  assert ((type last =? MessageType_INVALID env) = false) as -> by lia.
  cbn [negb].
  rewrite (bind_ok _ _ _ (Ndarray (fresh (dom (heap s))) (seq 0 (length xs'))) s1).
  2:{ rewrite (bind_ok _ _ _ _ _ (st_size_ok _ _ _ Hdata)).
      unfold np.append. by rewrite (bind_ok _ _ _ _ _ (read_ok _ _ _ Hxs)). }
  rewrite (bind_ok _ _ _ _ _ (_to_raw_ok env s1 _ xs' (contents_allocated s xs'))).
  apply (save_writes s2 (Ndarray (fresh (dom (heap s1))) (seq 0 (length xs')))
           (map (to_raw_row env) xs') index_path).
  rewrite <- (length_map (to_raw_row env) xs'). apply raw_contents_allocated.
Qed.

(** C10.  For every FileIndex, [save] leaves the index in memory as it was:
    after the call, however it ends, the array of the index shows the same
    rows (so the same number of them) as before, and no buffer that existed
    has changed; [save] assigns neither [self._data] nor [self.t0].  This
    holds also when an EOF marker is appended to what is written: the file
    then holds the rows and the marker, the index only the rows.  Saving an
    empty FileIndex changes nothing at all: it writes no file and touches
    no existing file. *)
Theorem save_leaves_index (s : state) (self : FileIndex) (index_path : string)
    (data_path : option string) (xs : list entry) :
  contents (heap s) (_data self) = Some xs ->
  let r := save env self index_path data_path s in
  contents (heap (snd r)) (_data self) = Some xs
  /\ heap s ⊆ heap (snd r)
  /\ (forall (rows : list entry) (last : entry) (path : string) (data_file : list byte),
        xs = rows ++ [last] ->
        type last <> MessageType_INVALID env ->
        data_path = Some path ->
        files s !! path = Some data_file ->
        fst r = Ok tt
        /\ files (snd r) !! index_path
           = Some (rows_to_bytes
                     (map (to_raw_row env)
                        (xs ++ [eof_marker env (Z.of_nat (length data_file))]))))
  /\ (xs = [] -> r = (Ok tt, s)).
Proof.
  intros Hxs r.
  pose proof (stable_save env self index_path data_path s) as Hkept.
  fold r in Hkept. unfold buffers_kept in Hkept.
  split; [by apply (contents_mono (heap s))|split; [done|split]].
  - intros rows last path data_file -> Htype -> Hdata.
    destruct (save_with_marker s self index_path path rows last data_file Hxs Htype Hdata)
      as (s'&Hrun&Hfile).
    unfold r. rewrite Hrun. simpl. rewrite Hfile. by rewrite lookup_insert_eq.
  - intros ->. unfold r, save.
    rewrite (bind_ok _ _ _ _ _ (read_ok _ _ _ Hxs)).
    by rewrite bool_decide_eq_false_2 by (simpl; lia).
Qed.

End save_facts.

(** ** The constructor, and more about loading *)

Section more_init.

Context (env : Env).

(** [t0] of an index built from a list of rows without a [t0] argument,
    for rows whose type and offset fit their fields, so that the cast of
    the list to an array succeeds: the index holds the rows, and its [t0]
    is [None] for no rows, and the time of the first row that has one. *)
Theorem init_t0_first_valid (s : state) (rows : list entry) :
  Forall entry_ok rows ->
  exists (index : FileIndex) (s' : state),
    __init__ env None None true (Some (data_list rows)) None s = (Ok index, s')
    /\ contents (heap s') (_data index) = Some rows
    /\ (rows = [] -> t0 index = None)
    /\ (forall (i : nat) (e : entry),
          rows !! i = Some e -> valid e = true ->
          (forall (j : nat) (e' : entry),
              (j < i)%nat -> rows !! j = Some e' -> valid e' = false) ->
          t0 index = Some (time e)).
Proof.
  intros Hok.
  eexists _, _. split; [by apply init_list_ok|].
  split; [apply contents_allocated|]. split.
  - by intros ->.
  - intros i e Hi Hvalid Hfirst. simpl.
    destruct rows as [|r rows]; [done|]. 
    assert (np.first_true (map (fun e => negb (isnan (time e))) (r :: rows)) = Some i) as Hk.
    { apply first_true_Some. split.
      - rewrite list_lookup_fmap, Hi. simpl. by f_equal.
      - intros j Hj. rewrite list_lookup_fmap.
        destruct (lookup_lt_is_Some_2 (r :: rows) j) as [e' He'].
        { apply lookup_lt_Some in Hi. lia. }
        rewrite He'. simpl. f_equal. by apply (Hfirst j e'). }
    unfold np.argmax_bool. rewrite Hk. simpl. by rewrite Hi.
Qed.

End more_init.

Lemma strip_last_positions (n : nat) :
  np.slice_positions (S n) None (Some (-1)) 1 = seq 0 n.
Proof.
  rewrite slice_positions_step1.
  unfold np.slice_start, np.slice_stop, np.adjust.
  change (1 <? 0) with false. change (-1 <? 0) with true. cbv iota.
  assert ((-1 + Z.of_nat (S n) <? 0) = false) as -> by lia.
  replace (Z.to_nat 0) with 0%nat by done. f_equal. lia.
Qed.

Lemma strip_last {A} (rows : list A) (last : A) :
  np.select (rows ++ [last])
    (np.slice_positions (length (rows ++ [last])) None (Some (-1)) 1) = rows.
Proof.
  rewrite length_app. simpl length. rewrite Nat.add_1_r.
  rewrite strip_last_positions, select_seq, drop_0. by rewrite take_app_length.
Qed.

Section more_load.

Context (env : Env).

(** [load] with [delete_on_error] off changes no file, however it ends. *)
Theorem load_keeps_files (s : state) (index_path : string) (data_path : option string) :
  files (snd (load env index_path data_path false s)) = files s.
Proof. apply (stable_load_keep env index_path data_path s). Qed.

(** Without a data path and without the default data file, an index file
    of at least one record loads: a trailing row of type INVALID is
    stripped, and its absence is no error.  No file is changed. *)
Theorem load_without_data_file (s : state) (index_path : string) (delete_on_error : bool)
    (index_file : list byte) (rows : list entry) (last : entry) :
  files s !! index_path = Some index_file ->
  loaded_rows env index_file = rows ++ [last] ->
  files s !! resolve_data_path env index_path None = None ->
  exists (a : ndarray) (s' : state),
    load env index_path None delete_on_error s = (Ok a, s')
    /\ contents (heap s') a
       = Some (if type last =? MessageType_INVALID env then rows else rows ++ [last])
    /\ files s' = files s.
Proof.
  intros Hindex Hrows Hdata.
  destruct (load_index_ok env s index_path index_file Hindex) as (a&s1&Hrun&Hloaded&Hfiles&_).
  rewrite Hrows in Hloaded. rewrite <- Hfiles in Hdata. simpl in Hdata.
  unfold load. rewrite (bind_ok _ _ _ _ _ Hrun).
  rewrite (bind_ok _ _ _ _ _ (path_exists_not _ _ Hdata)). cbn [negb].
  rewrite (bind_ok _ _ _ _ _ (read_ok _ _ _ Hloaded)).
  rewrite map_app. cbn [map].
  rewrite (bind_ok _ _ _ _ _ (item_last_ok _ _ _)).
  destruct (type last =? MessageType_INVALID env).
  - eexists _, s1. split; [reflexivity|]. split; [|done].
    etrans; [apply (getitem_slice_contents _ _ _ None (Some (-1)) 1 Hloaded)|].
    by rewrite strip_last.
  - by exists a, s1.
Qed.

Lemma load_marker_check (s : state) (index_path : string) (data_path : option string)
    (delete_on_error : bool) (index_file data_file : list byte)
    (rows : list entry) (last : entry) :
  files s !! index_path = Some index_file ->
  loaded_rows env index_file = rows ++ [last] ->
  type last = MessageType_INVALID env ->
  files s !! resolve_data_path env index_path data_path = Some data_file ->
  data_file <> [] ->
  let size := Z.of_nat (length data_file) in
  let r := load env index_path data_path delete_on_error s in
  files (snd r) = files s
  /\ (offset last = size ->
      exists a : ndarray, fst r = Ok a /\ contents (heap (snd r)) a = Some rows)
  /\ (offset last <> size ->
      fst r = Raise (ValueError (Size_expected_by_index_file_does_not_match
                                   size (offset last)))).
Proof.
  intros Hindex Hrows Htype Hdata Hne size r.
  destruct (load_reaches_check env s index_path data_path delete_on_error _ _ Hindex Hdata)
    as (a&s1&Hload&Hloaded&Hfiles).
  rewrite Hrows in Hloaded. rewrite <- Hfiles in Hdata.
  assert (r = load_check env a index_path (resolve_data_path env index_path data_path)
                delete_on_error s1) as -> by exact Hload.
  unfold load_check.
  rewrite (bind_ok _ _ _ _ _ (read_file_ok _ _ _ Hdata)).
  rewrite (bind_ok _ _ _ _ _ (read_ok _ _ _ Hloaded)).
  assert ((Z.of_nat (length data_file) =? 0) = false) as ->.
  { destruct data_file; [done|]. simpl length. lia. }
  assert ((Z.of_nat (length (rows ++ [last])) =? 0) = false) as ->.
  { rewrite length_app. simpl. lia. }
  cbn [andb negb]. rewrite !map_app. cbn [map].
  rewrite (bind_ok _ _ _ _ _ (item_last_ok _ _ _)).
  assert ((type last =? MessageType_INVALID env) = true) as -> by lia.
  rewrite (bind_ok _ _ _ _ _ (item_last_ok _ _ _)).
  erewrite (bind_ok (np.getitem_slice _ _ _ _) _ s1 _ s1) by reflexivity.
  fold size.
  destruct (size =? offset last) eqn:Hsize.
  - split; [done|]. split; [|intros; exfalso; lia].
    intros _. eexists. split; [reflexivity|]. simpl snd.
    etrans; [apply (getitem_slice_contents _ _ _ None (Some (-1)) 1 Hloaded)|].
    by rewrite strip_last.
  - split; [done|]. split; [intros; exfalso; lia|done].
Qed.

(** An index with a trailing EOF marker, next to a data file that is not
    empty: [load] strips the marker and succeeds when the marker's offset is
    the size of the data file; otherwise it fails with the size mismatch,
    reporting both sizes, and in either case changes no file, whatever
    [delete_on_error] says. *)
Theorem load_with_marker (s : state) (index_path : string) (data_path : option string)
    (delete_on_error : bool) (index_file data_file : list byte)
    (rows : list entry) (last : entry) :
  files s !! index_path = Some index_file ->
  loaded_rows env index_file = rows ++ [last] ->
  type last = MessageType_INVALID env ->
  files s !! resolve_data_path env index_path data_path = Some data_file ->
  data_file <> [] ->
  let size := Z.of_nat (length data_file) in
  let r := load env index_path data_path delete_on_error s in
  files (snd r) = files s
  /\ (offset last = size ->
      exists a : ndarray, fst r = Ok a /\ contents (heap (snd r)) a = Some rows)
  /\ (offset last <> size ->
      fst r = Raise (ValueError (Size_expected_by_index_file_does_not_match
                                   size (offset last)))).
Proof.
  intros Hindex Hrows Htype Hdata Hne.
  exact (load_marker_check s index_path data_path delete_on_error index_file data_file
           rows last Hindex Hrows Htype Hdata Hne).
Qed.

(** The queries change no buffer that exists and no file: what they return
    is a new FileIndex, and the index they are asked on is as before. *)
Theorem queries_change_nothing (s : state) (self : FileIndex) (k : key)
    (start stop : option f8) (hint : option string) :
  (heap s ⊆ heap (snd (__getitem__ env self k s))
   /\ files (snd (__getitem__ env self k s)) = files s)
  /\ (heap s ⊆ heap (snd (get_time_range env self start stop hint s))
      /\ files (snd (get_time_range env self start stop hint s)) = files s).
Proof.
  split.
  - apply (stable_getitem env self k s).
  - apply (stable_get_time_range env self start stop hint s).
Qed.

(** With both files in place and [delete_on_error] on, a [load] that fails
    with one of the consistency errors other than the mismatch against an
    EOF marker has removed the index file and nothing else. *)
Theorem load_deletes_index (s : state) (index_path : string) (data_path : option string)
    (index_file data_file : list byte) (e : value_error) :
  files s !! index_path = Some index_file ->
  files s !! resolve_data_path env index_path data_path = Some data_file ->
  fst (load env index_path data_path true s) = Raise (ValueError e) ->
  cleans_up (has_marker env (loaded_rows env index_file)) e = true ->
  files (snd (load env index_path data_path true s)) = delete index_path (files s).
Proof.
  intros Hindex Hdata.
  destruct (load_reaches_check env s index_path data_path true _ _ Hindex Hdata)
    as (a&s1&->&Hloaded&Hfiles).
  rewrite <- Hfiles in *. clear Hfiles s.
  destruct (load_check env a index_path (resolve_data_path env index_path data_path) true s1)
    as [res s2] eqn:Hrun.
  cbn [fst snd]. intros -> Hclean.
  unfold load_check in Hrun.
  rewrite (bind_ok _ _ _ _ _ (read_file_ok _ _ _ Hdata)) in Hrun.
  rewrite (bind_ok _ _ _ _ _ (read_ok _ _ _ Hloaded)) in Hrun.
  unfold has_marker in Hclean.
  revert Hrun Hclean. generalize (loaded_rows env index_file). intros xs. clear Hloaded.
  destruct ((Z.of_nat (length data_file) =? 0) && negb (Z.of_nat (length xs) =? 0)).
  { rewrite (cleanup_raise true _ _ _ _ Hindex). by intros [= <- <-]. }
  destruct (negb (Z.of_nat (length data_file) =? 0) && (Z.of_nat (length xs) =? 0)).
  { rewrite (cleanup_raise true _ _ _ _ Hindex). by intros [= <- <-]. }
  unfold np.item_last. rewrite !fmap_last.
  destruct (last xs) as [l|]; cbn [fmap option_fmap option_map]; [|by intros [=]].
  unfold bind at 1, ret at 1.
  destruct (type l =? MessageType_INVALID env).
  - unfold bind at 1, ret at 1.
    erewrite (bind_ok (np.getitem_slice _ _ _ _) _ s1 _ s1) by reflexivity.
    destruct (_ =? _); [by intros [=]|]. by intros [= <- <-].
  - unfold bind at 1, ret at 1.
    destruct (_ <? _).
    { rewrite (cleanup_raise true _ _ _ _ Hindex). by intros [= <- <-]. }
    destruct (unpack_payload_size_bytes env _) as [p|]; [|by intros [=]].
    destruct (negb _).
    + rewrite (cleanup_raise true _ _ _ _ Hindex). by intros [= <- <-].
    + by intros [=].
Qed.

End more_load.

(** ** Saving, then loading *)

Section saving_then_loading.

Context (env : Env).

Lemma to_raw_row_ok (e : entry) :
  in_range 32 (Timestamp_INVALID env) -> entry_ok e -> raw_ok (to_raw_row env e).
Proof.
  intros Hinv [Htype Hoffset]. unfold to_raw_row, raw_ok.
  destruct e as [[|q] ty off]; [done|].
  split; [|done]. apply (f8_to_u4_range (Fin q)).
Qed.

Lemma stored_row_comes_back (e : entry) : comes_back_as e (stored_row e).
Proof.
  unfold comes_back_as, stored_row. simpl. repeat split.
  - by destruct (time e).
  - by intros q ->.
  - apply stored_time_integer.
Qed.

(** Saving an index next to its data file and loading it back: the marker
    that [save] appends is the one that [load] checks and strips, and the
    rows come back in the same number and order, each with its type and
    offset and with its time floored. *)
Theorem save_then_load (s : state) (self : FileIndex) (index_path data_path : string)
    (rows : list entry) (last : entry) (data_file : list byte) :
  contents (heap s) (_data self) = Some (rows ++ [last]) ->
  type last <> MessageType_INVALID env ->
  Forall entry_ok (rows ++ [last]) ->
  Forall (fun e => storable env (time e)) (rows ++ [last]) ->
  in_range 32 (Timestamp_INVALID env) ->
  in_range 16 (MessageType_INVALID env) ->
  files s !! data_path = Some data_file ->
  data_file <> [] ->
  in_range 64 (Z.of_nat (length data_file)) ->
  index_path <> data_path ->
  exists (a : ndarray) (s' : state) (ys : list entry),
    (save env self index_path (Some data_path) ;;
     load env index_path (Some data_path) true) s = (Ok a, s')
    /\ contents (heap s') a = Some ys
    /\ Forall2 comes_back_as (rows ++ [last]) ys.
Proof.
  intros Hxs Htype Hok Hst Hinv Hinvt Hdata Hne Hsize Hpaths.
  set (xs := rows ++ [last]) in *.
  set (marker := eof_marker env (Z.of_nat (length data_file))).
  destruct (save_with_marker env s self index_path data_path rows last data_file
              Hxs Htype Hdata) as (s1&Hsave&Hfiles).
  fold xs marker in Hfiles.
  assert (files s1 !! index_path
          = Some (rows_to_bytes (map (to_raw_row env) (xs ++ [marker])))) as Hindex.
  { rewrite Hfiles. apply lookup_insert_eq. }
  assert (files s1 !! resolve_data_path env index_path (Some data_path) = Some data_file)
    as Hdata1.
  { simpl. rewrite Hfiles. by rewrite lookup_insert_ne. }
  assert (loaded_rows env (rows_to_bytes (map (to_raw_row env) (xs ++ [marker])))
          = map stored_row xs ++ [marker]) as Hloaded.
  { unfold loaded_rows. rewrite rows_of_bytes_to_bytes.
    - rewrite map_map, map_app. f_equal.
      + apply Forall_fmap_ext_1. eapply Forall_impl; [exact Hst|].
        intros e He. by apply round_trip_row.
      + simpl. f_equal. unfold to_raw_row, from_raw_row. simpl. by rewrite Z.eqb_refl.
    - apply Forall_fmap. apply Forall_app. split.
      + eapply Forall_impl; [exact Hok|]. intros e He. by apply to_raw_row_ok.
      + constructor; [|done]. by apply to_raw_row_ok. }
  destruct (load_marker_check env s1 index_path (Some data_path) true _ data_file
              (map stored_row xs) marker Hindex Hloaded eq_refl Hdata1 Hne)
    as (_&Hsame&_).
  destruct (Hsame eq_refl) as (a&Hrun&Hrows).
  exists a, (snd (load env index_path (Some data_path) true s1)), (map stored_row xs).
  split; [|split; [done|]].
  - rewrite (bind_ok _ _ _ _ _ Hsave).
    destruct (load env index_path (Some data_path) true s1) as [res s2].
    simpl in *. by rewrite Hrun.
  - apply Forall2_fmap_r. apply Forall_Forall2_diag.
    apply Forall_forall. intros e _. apply stored_row_comes_back.
Qed.

End saving_then_loading.

(** * More of the module *)

(** ** The bytes of an index file *)

Lemma row_to_bytes_of_bytes (bs : list byte) :
  length bs = itemsize -> row_to_bytes (row_of_bytes bs) = bs.
Proof.
  unfold itemsize. intros Hlen. unfold row_to_bytes, row_of_bytes.
  cbn [Raw.int Raw.type Raw.offset].
  rewrite !split_le_combine' by (rewrite ?length_take, ?length_drop; lia).
  rewrite (take_ge (drop 6 bs)) by (rewrite length_drop; lia).
  change 6%nat with (4 + 2)%nat. rewrite <- drop_drop. by rewrite !take_drop.
Qed.

Lemma raw_ok_row_of_bytes (bs : list byte) : raw_ok (row_of_bytes bs).
Proof.
  assert (forall (n : nat) (t : list byte),
            in_range (8 * Z.of_nat n) (le_combine (take n t))) as H.
  { intros n t. pose proof (le_combine_bound (take n t)) as Hb.
    unfold in_range. split; [lia|]. eapply Z.lt_le_trans; [apply Hb|].
    apply Z.pow_le_mono_r; [lia|]. rewrite length_take. lia. }
  unfold raw_ok, row_of_bytes. cbn [Raw.int Raw.type Raw.offset].
  split; [apply (H 4%nat)|split; [apply (H 2%nat)|apply (H 8%nat)]].
Qed.

Lemma rows_of_bytes_n_whole (n : nat) (bs : list byte) :
  (n * itemsize <= length bs)%nat ->
  rows_to_bytes (rows_of_bytes_n n bs) = take (n * itemsize) bs.
Proof.
  revert bs. induction n as [|n IH]; intros bs Hlen; [done|].
  cbn [rows_of_bytes_n]. unfold rows_to_bytes in *. cbn [map concat].
  rewrite row_to_bytes_of_bytes by (rewrite length_take; lia).
  rewrite IH by (rewrite length_drop; lia).
  change (S n * itemsize)%nat with (itemsize + n * itemsize)%nat.
  by rewrite take_take_drop.
Qed.

Lemma length_rows_of_bytes_n (n : nat) (bs : list byte) :
  length (rows_of_bytes_n n bs) = n.
Proof. revert bs. induction n as [|n IH]; intros bs; simpl; [done|]. by rewrite IH. Qed.

Lemma raw_ok_rows_of_bytes_n (n : nat) (bs : list byte) :
  Forall raw_ok (rows_of_bytes_n n bs).
Proof.
  revert bs. induction n as [|n IH]; intros bs; simpl; constructor; [|apply IH].
  apply raw_ok_row_of_bytes.
Qed.

(** The layout of [_RAW_DTYPE] on disk.  [np.fromfile] reads one row for
    every 14 bytes of the file, each with its three fields within their
    widths, and leaves out a rest of fewer than 14 bytes; writing the rows
    back with [tofile] gives the bytes that were read.  Conversely rows
    whose fields are within their widths take 14 bytes each and are read
    back as they were written. *)
Theorem index_file_format :
  (forall bs : list byte,
      Forall raw_ok (rows_of_bytes bs)
      /\ length (rows_of_bytes bs) = (length bs / 14)%nat
      /\ rows_to_bytes (rows_of_bytes bs) = take (length bs / 14 * 14) bs)
  /\ (forall rs : list Raw.t,
        Forall raw_ok rs ->
        rows_of_bytes (rows_to_bytes rs) = rs
        /\ length (rows_to_bytes rs) = (length rs * 14)%nat).
Proof.
  split.
  - intros bs. unfold rows_of_bytes. split; [apply raw_ok_rows_of_bytes_n|].
    split; [apply length_rows_of_bytes_n|].
    apply rows_of_bytes_n_whole. unfold itemsize.
    pose proof (Nat.div_mod_eq (length bs) 14). lia.
  - intros rs Hok. split; [by apply rows_of_bytes_to_bytes|apply length_rows_to_bytes].
Qed.

(** ** The codec, the other way round *)

Section raw_codec.

Context (env : Env).

Lemma Qtruncate_inject_Z (z : Z) : Qtruncate (inject_Z z) = z.
Proof. unfold Qtruncate. destruct (Qle_bool 0 (inject_Z z)); [apply Qfloor_Z|apply Qceiling_Z]. Qed.

(** Decoding a raw row and encoding it again gives the row back. *)
Lemma to_raw_from_raw_row (r : Raw.t) :
  in_range 32 (Raw.int r) -> to_raw_row env (from_raw_row env r) = r.
Proof.
  intros Hint. destruct r as [i ty off]. unfold from_raw_row, to_raw_row.
  cbn [Raw.int] in *.
  destruct (i =? Timestamp_INVALID env) eqn:Hi.
  - apply Z.eqb_eq in Hi. by subst.
  - unfold astype_RAW_DTYPE, astype_DTYPE, f8_of_Z.
    cbn [time type offset isnan Raw.int Raw.type Raw.offset].
    rewrite f8_to_u4_in_range; rewrite Qtruncate_inject_Z; [done|apply Hint].
Qed.

(** [_from_raw] followed by [_to_raw] gives back the raw rows, whatever
    they are, as long as the [int] field is within its 32 bits: the
    sentinel goes to NaN and back and every other value to a whole number
    of seconds and back.  Both functions work on copies: the raw array that
    was passed in is on another buffer and shows the same rows
    afterwards. *)
Theorem raw_round_trip (s : state) (raw_data : ndarray) (rs : list Raw.t) :
  raw_contents (heap s) raw_data = Some rs ->
  Forall (fun r => in_range 32 (Raw.int r)) rs ->
  exists (a : ndarray) (s' : state),
    (data <- _from_raw env raw_data ;; _to_raw env data) s = (Ok a, s')
    /\ raw_contents (heap s') a = Some rs
    /\ base a <> base raw_data
    /\ raw_contents (heap s') raw_data = Some rs
    /\ files s' = files s.
Proof.
  intros Hrs Hint.
  pose (xs := map (from_raw_row env) rs).
  pose (s1 := allocated (index_buf xs) s).
  assert (map (to_raw_row env) xs = rs) as Hback.
  { unfold xs. rewrite map_map. rewrite <- (map_id rs) at 2.
    apply Forall_fmap_ext_1. eapply Forall_impl; [exact Hint|].
    intros r Hr. by apply to_raw_from_raw_row. }
  exists (Ndarray (fresh (dom (heap s1))) (seq 0 (length xs))),
         (allocated (raw_buf (map (to_raw_row env) xs)) s1).
  assert (heap s ⊆ heap (allocated (raw_buf (map (to_raw_row env) xs)) s1)) as Hgrow.
  { trans (heap s1); apply allocated_grows. }
  split; [|split; [|split; [|split]]].
  - rewrite (bind_ok _ _ _ _ _ (_from_raw_ok env _ _ _ Hrs)).
    apply _to_raw_ok. rewrite <- (length_map (from_raw_row env) rs).
    apply contents_allocated.
  - rewrite <- (length_map (to_raw_row env) xs).
    etrans; [apply raw_contents_allocated|by f_equal].
  - simpl. intros Heq. unfold raw_contents in Hrs.
    destruct (heap s !! base raw_data) as [b|] eqn:Hb; [|done].
    pose proof (lookup_weaken _ _ _ _ Hb (allocated_grows (index_buf xs) s)) as Hb1.
    rewrite <- Heq in Hb1. fold s1 in Hb1. by rewrite fresh_None in Hb1.
  - by apply (raw_contents_mono (heap s)).
  - done.
Qed.

End raw_codec.

(** ** What [load] returns, and when it does not *)

(** A computation that ends in [raise] does not return. *)
Lemma then_raise_not_ok {A B} (m : M A) (e : exn) (s : state) (b : B) (s' : state) :
  (m ;; raise e)%py s <> (Ok b, s').
Proof. unfold bind, raise. by destruct (m s) as [[a|e'] s1]. Qed.

Section load_result.

Context (env : Env).

Lemma without_marker_snoc (rows : list entry) (last : entry) :
  without_marker env (rows ++ [last])
  = if type last =? MessageType_INVALID env then rows else rows ++ [last].
Proof.
  unfold without_marker, has_marker. rewrite last_snoc.
  destruct (_ =? _); [apply removelast_last|done].
Qed.

(** The checks, when they pass. *)
Lemma load_check_returns (s : state) (a0 a : ndarray) (index_path data_path : string)
    (delete_on_error : bool) (xs : list entry) (s' : state) :
  contents (heap s) a0 = Some xs ->
  load_check env a0 index_path data_path delete_on_error s = (Ok a, s') ->
  s' = s /\ xs <> [] /\ contents (heap s) a = Some (without_marker env xs).
Proof.
  intros Hxs. unfold load_check.
  destruct (files s !! data_path) as [data_file|] eqn:Hdata.
  2:{ unfold bind at 1, read_file. by rewrite Hdata. }
  rewrite (bind_ok _ _ _ _ _ (read_file_ok _ _ _ Hdata)).
  rewrite (bind_ok _ _ _ _ _ (read_ok _ _ _ Hxs)).
  destruct (_ && _); [by intros ?%then_raise_not_ok|].
  destruct (_ && _); [by intros ?%then_raise_not_ok|].
  destruct (decide (xs = [])) as [->|Hne]; [done|].
  destruct (exists_last Hne) as (rows&last&->).
  rewrite !map_app. cbn [map].
  rewrite (bind_ok _ _ _ _ _ (item_last_ok _ _ _)).
  rewrite without_marker_snoc.
  destruct (type last =? MessageType_INVALID env).
  - rewrite (bind_ok _ _ _ _ _ (item_last_ok _ _ _)).
    erewrite (bind_ok (np.getitem_slice _ _ _ _) _ s _ s) by reflexivity.
    destruct (_ =? _); [|done]. intros [= <- <-]. split; [done|]. split; [done|].
    etrans; [apply (getitem_slice_contents _ _ _ None (Some (-1)) 1 Hxs)|].
    by rewrite strip_last.
  - rewrite (bind_ok _ _ _ _ _ (item_last_ok _ _ _)).
    destruct (_ <? _); [by intros ?%then_raise_not_ok|].
    destruct (unpack_payload_size_bytes env _) as [p|]; [|done].
    destruct (negb _); [by intros ?%then_raise_not_ok|].
    by intros [= <- <-].
Qed.

Lemma load_ok_inv (s : state) (index_path : string) (data_path : option string)
    (delete_on_error : bool) (a : ndarray) (s' : state) :
  load env index_path data_path delete_on_error s = (Ok a, s') ->
  exists index_file : list byte,
    files s !! index_path = Some index_file
    /\ loaded_rows env index_file <> []
    /\ contents (heap s') a = Some (without_marker env (loaded_rows env index_file))
    /\ files s' = files s
    /\ heap s ⊆ heap s'.
Proof.
  intros Hrun.
  destruct (files s !! index_path) as [index_file|] eqn:Hindex.
  2:{ unfold load in Hrun. by rewrite (bind_raise _ _ _ _ _ (load_index_missing env _ _ Hindex)) in Hrun. }
  exists index_file. split; [done|].
  destruct (load_index_ok env s index_path index_file Hindex) as (a0&s1&Hload&Hxs&Hfiles&Hheap).
  unfold load in Hrun. rewrite (bind_ok _ _ _ _ _ Hload) in Hrun.
  rewrite <- Hfiles.
  assert (forall data_path,
             load_check env a0 index_path data_path delete_on_error s1 = (Ok a, s') ->
             loaded_rows env index_file <> []
             /\ contents (heap s') a = Some (without_marker env (loaded_rows env index_file))
             /\ files s' = files s1 /\ heap s ⊆ heap s') as Hcheck.
  { intros dp Hdp. destruct (load_check_returns _ _ _ _ _ _ _ _ Hxs Hdp) as (->&?&?). done. }
  destruct data_path as [data_path|].
  - destruct (files s1 !! data_path) as [data_file|] eqn:Hdata.
    + rewrite (bind_ok _ _ _ _ _ (path_exists_ok _ _ _ Hdata)) in Hrun. exact (Hcheck _ Hrun).
    + by rewrite (bind_ok _ _ _ _ _ (path_exists_not _ _ Hdata)) in Hrun.
  - destruct (files s1 !! (splitext_root env index_path ++ ".p1log")%string)
      as [data_file|] eqn:Hdata.
    + rewrite (bind_ok _ _ _ _ _ (path_exists_ok _ _ _ Hdata)) in Hrun. exact (Hcheck _ Hrun).
    + rewrite (bind_ok _ _ _ _ _ (path_exists_not _ _ Hdata)) in Hrun. cbn [negb] in Hrun.
      rewrite (bind_ok _ _ _ _ _ (read_ok _ _ _ Hxs)) in Hrun.
      destruct (decide (loaded_rows env index_file = [])) as [Hnil|Hne].
      { by rewrite Hnil in Hrun. }
      split; [done|].
      destruct (exists_last Hne) as (rows&last&Hrows). rewrite Hrows in *.
      rewrite map_app in Hrun. cbn [map] in Hrun.
      rewrite (bind_ok _ _ _ _ _ (item_last_ok _ _ _)) in Hrun.
      rewrite without_marker_snoc.
      destruct (type last =? MessageType_INVALID env).
      * injection Hrun as <- <-. split; [|done].
        etrans; [apply (getitem_slice_contents _ _ _ None (Some (-1)) 1 Hxs)|].
        by rewrite strip_last.
      * by injection Hrun as <- <-.
Qed.

(** Whenever [load] returns, it has changed no file, the index file held at
    least one record, and [self._data] shows the records of the index file,
    in their order, less a trailing record of type INVALID. *)
Theorem load_returns_rows (s : state) (index_path : string) (data_path : option string)
    (delete_on_error : bool) (a : ndarray) (s' : state) :
  load env index_path data_path delete_on_error s = (Ok a, s') ->
  exists index_file : list byte,
    files s !! index_path = Some index_file
    /\ loaded_rows env index_file <> []
    /\ contents (heap s') a = Some (without_marker env (loaded_rows env index_file))
    /\ files s' = files s
    /\ heap s ⊆ heap s'.
Proof. apply load_ok_inv. Qed.

(** [load] on an index file that does not exist, and on a data path that is
    given and does not exist: the error, and nothing is deleted. *)
Theorem load_missing_file (s : state) (index_path : string) (data_path : option string)
    (delete_on_error : bool) :
  (files s !! index_path = None ->
   load env index_path data_path delete_on_error s
   = (Raise (FileNotFoundError index_path), s))
  /\ (forall (index_file : list byte) (path : string),
        files s !! index_path = Some index_file ->
        data_path = Some path ->
        files s !! path = None ->
        fst (load env index_path data_path delete_on_error s)
        = Raise (ValueError (Specified_data_file_not_found path))
        /\ files (snd (load env index_path data_path delete_on_error s)) = files s).
Proof.
  split.
  - intros Hindex. unfold load.
    by rewrite (bind_raise _ _ _ _ _ (load_index_missing env _ _ Hindex)).
  - intros index_file path Hindex -> Hdata.
    destruct (load_index_ok env s index_path index_file Hindex) as (a0&s1&Hload&_&Hfiles&_).
    unfold load. rewrite (bind_ok _ _ _ _ _ Hload).
    rewrite <- Hfiles in Hdata.
    by rewrite (bind_ok _ _ _ _ _ (path_exists_not _ _ Hdata)).
Qed.

Lemma rows_of_bytes_short (bs : list byte) : (length bs < 14)%nat -> rows_of_bytes bs = [].
Proof. intros H. unfold rows_of_bytes, itemsize. by rewrite Nat.div_small. Qed.

(** An index file of fewer than 14 bytes, so without a record, never loads.
    Next to a data file that is not empty, [load] fails with
    [Index file empty but data file not 0 length], after it has removed the
    index file if [delete_on_error] is set.  A data path that is given and
    does not exist is reported as such.  In the two cases that are left, no
    data file at the default path and a data file of 0 bytes, it is
    [IndexError] that comes out, from the look at the last row of an empty
    array, and the files stay. *)
Theorem load_empty_index_file (s : state) (index_path : string) (data_path : option string)
    (delete_on_error : bool) (index_file : list byte) :
  files s !! index_path = Some index_file ->
  (length index_file < 14)%nat ->
  let r := load env index_path data_path delete_on_error s in
  match files s !! resolve_data_path env index_path data_path with
  | None =>
      fst r = Raise (match data_path with
                     | None => IndexError
                     | Some path => ValueError (Specified_data_file_not_found path)
                     end)
      /\ files (snd r) = files s
  | Some [] => fst r = Raise IndexError /\ files (snd r) = files s
  | Some data_file =>
      fst r = Raise (ValueError (Index_file_empty_but_data_file_not_0_length
                                   (Z.of_nat (length data_file))))
      /\ files (snd r) = if delete_on_error then delete index_path (files s) else files s
  end.
Proof.
  intros Hindex Hshort r.
  destruct (load_index_ok env s index_path index_file Hindex) as (a&s1&Hload&Hxs&Hfiles&_).
  unfold loaded_rows in Hxs. rewrite (rows_of_bytes_short _ Hshort) in Hxs. cbn [map] in Hxs.
  destruct (files s !! resolve_data_path env index_path data_path) as [data_file|] eqn:Hdata.
  - destruct (load_reaches_check env s index_path data_path delete_on_error _ _ Hindex Hdata)
      as (a'&s1'&Hrun&Hxs'&Hfiles').
    unfold loaded_rows in Hxs'. rewrite (rows_of_bytes_short _ Hshort) in Hxs'.
    cbn [map] in Hxs'.
    unfold r. rewrite Hrun. rewrite <- Hfiles' in Hdata, Hindex. rewrite <- Hfiles'.
    unfold load_check.
    rewrite (bind_ok _ _ _ _ _ (read_file_ok _ _ _ Hdata)).
    rewrite (bind_ok _ _ _ _ _ (read_ok _ _ _ Hxs')).
    destruct data_file as [|b data_file]; [done|].
    cbn [length map]. 
    assert ((Z.of_nat (S (length data_file)) =? 0) = false) as -> by lia.
    change (Z.of_nat 0 =? 0) with true. cbn [andb negb]. cbv iota.
    rewrite (cleanup_raise _ _ _ _ _ Hindex). by destruct delete_on_error.
  - unfold r, load. rewrite (bind_ok _ _ _ _ _ Hload). rewrite <- Hfiles in Hdata.
    destruct data_path as [path|]; simpl in Hdata.
    + by rewrite (bind_ok _ _ _ _ _ (path_exists_not _ _ Hdata)).
    + rewrite (bind_ok _ _ _ _ _ (path_exists_not _ _ Hdata)). cbn [negb].
      by rewrite (bind_ok _ _ _ _ _ (read_ok _ _ _ Hxs)).
Qed.

End load_result.

(** ** More about saving *)

Section save_more.

Context (env : Env).

Lemma has_marker_snoc (rows : list entry) (last : entry) :
  has_marker env (rows ++ [last]) = (type last =? MessageType_INVALID env).
Proof. unfold has_marker. by rewrite last_snoc. Qed.

(** [save] when no marker is appended. *)
Lemma save_as_is (s : state) (self : FileIndex) (index_path : string)
    (data_path : option string) (xs : list entry) :
  contents (heap s) (_data self) = Some xs ->
  xs <> [] ->
  data_path = None \/ has_marker env xs = true ->
  exists s',
    save env self index_path data_path s = (Ok tt, s')
    /\ files s' = <[index_path := rows_to_bytes (map (to_raw_row env) xs)]> (files s).
Proof.
  intros Hxs Hne Hcase.
  pose (s1 := allocated (raw_buf (map (to_raw_row env) xs)) s).
  exists (set_files (<[index_path := rows_to_bytes (map (to_raw_row env) xs)]> (files s1)) s1).
  split; [|reflexivity].
  unfold save. rewrite (bind_ok _ _ _ _ _ (read_ok _ _ _ Hxs)).
  rewrite bool_decide_eq_true_2 by (destruct xs; [done|simpl; lia]).
  unfold when.
  destruct (exists_last Hne) as (rows&last&Hrows).
  rewrite Hrows at 1. rewrite map_app. cbn [map].
  rewrite (bind_ok _ _ _ _ _ (item_last_ok _ _ _)).
  rewrite (bind_ok _ _ _ (_data self) s).
  2:{ destruct Hcase as [->|Hmark]; [done|]. destruct data_path; [|done].
      rewrite Hrows, has_marker_snoc in Hmark. by rewrite Hmark. }
  rewrite (bind_ok _ _ _ _ _ (_to_raw_ok env s _ xs Hxs)).
  apply (save_writes s1 _ (map (to_raw_row env) xs) index_path).
  rewrite <- (length_map (to_raw_row env) xs). apply raw_contents_allocated.
Qed.

(** What [save] writes when it appends no marker: with no data path, or on
    an index whose last row already has type INVALID, the index file holds
    the rows of the index and nothing else; the data file is not looked
    at. *)
Theorem save_without_marker (s : state) (self : FileIndex) (index_path : string)
    (data_path : option string) (xs : list entry) :
  contents (heap s) (_data self) = Some xs ->
  xs <> [] ->
  data_path = None \/ has_marker env xs = true ->
  exists s',
    save env self index_path data_path s = (Ok tt, s')
    /\ files s' = <[index_path := rows_to_bytes (map (to_raw_row env) xs)]> (files s)
    /\ length (rows_to_bytes (map (to_raw_row env) xs)) = (length xs * 14)%nat.
Proof.
  intros Hxs Hne Hcase.
  destruct (save_as_is s self index_path data_path xs Hxs Hne Hcase) as (s'&Hrun&Hfiles).
  exists s'. split; [done|]. split; [done|].
  by rewrite length_rows_to_bytes, length_map.
Qed.

(** [save] fails in one case only: a marker is to be appended and the data
    file does not exist.  It then raises [FileNotFoundError] from [os.stat]
    before anything is removed or written. *)
Theorem save_fails_before_writing (s : state) (self : FileIndex) (index_path : string)
    (data_path : option string) (xs : list entry) :
  contents (heap s) (_data self) = Some xs ->
  (forall (e : exn) (s' : state),
      save env self index_path data_path s = (Raise e, s') ->
      s' = s
      /\ exists path : string,
           data_path = Some path /\ files s !! path = None /\ e = FileNotFoundError path
           /\ xs <> [] /\ has_marker env xs = false)
  /\ (forall path : string,
        data_path = Some path -> files s !! path = None ->
        xs <> [] -> has_marker env xs = false ->
        save env self index_path data_path s = (Raise (FileNotFoundError path), s)).
Proof.
  intros Hxs.
  assert (forall rows last path,
             xs = rows ++ [last] -> has_marker env xs = false -> files s !! path = None ->
             save env self index_path (Some path) s = (Raise (FileNotFoundError path), s))
    as Hfail.
  { intros rows last path -> Hmark Hdata. rewrite has_marker_snoc in Hmark.
    unfold save. rewrite (bind_ok _ _ _ _ _ (read_ok _ _ _ Hxs)).
    rewrite bool_decide_eq_true_2 by (rewrite length_app; simpl; lia).
    unfold when. rewrite map_app. cbn [map].
    rewrite (bind_ok _ _ _ _ _ (item_last_ok _ _ _)).
    rewrite Hmark. cbn [negb].
    unfold bind, st_size, bind, read_file. by rewrite Hdata. }
  split.
  - intros e s' Hrun.
    destruct (decide (xs = [])) as [->|Hne].
    { unfold save in Hrun. rewrite (bind_ok _ _ _ _ _ (read_ok _ _ _ Hxs)) in Hrun.
      by rewrite bool_decide_eq_false_2 in Hrun by (simpl; lia). }
    destruct (has_marker env xs) eqn:Hmark.
    { destruct (save_as_is s self index_path data_path xs Hxs Hne) as (?&Hok&_); [by right|].
      by rewrite Hok in Hrun. }
    destruct data_path as [path|].
    2:{ destruct (save_as_is s self index_path None xs Hxs Hne) as (?&Hok&_); [by left|].
        by rewrite Hok in Hrun. }
    destruct (exists_last Hne) as (rows&last&Hrows).
    destruct (files s !! path) as [data_file|] eqn:Hdata.
    + subst xs. rewrite has_marker_snoc in Hmark.
      destruct (save_with_marker env s self index_path path rows last data_file Hxs)
        as (?&Hok&_); [lia|done|]. by rewrite Hok in Hrun.
    + rewrite (Hfail rows last path Hrows eq_refl Hdata) in Hrun.
      injection Hrun as <- <-. split; [done|]. by exists path.
  - intros path -> Hdata Hne Hmark.
    destruct (exists_last Hne) as (rows&last&Hrows). by apply (Hfail rows last).
Qed.

End save_more.

(** ** The constructor with a path *)

Section init_more.

Context (env : Env).

(** The constructor with an index path: [load], then [t0]. *)
Lemma init_path_ok (s s1 : state) (index_path : string) (data_path : option string)
    (delete_on_error : bool) (t : option f8) (a : ndarray) (xs : list entry) :
  load env index_path data_path delete_on_error s = (Ok a, s1) ->
  contents (heap s1) a = Some xs ->
  __init__ env (Some index_path) data_path delete_on_error None t s
  = (Ok {| _data := a; t0 := init_t0 t xs |}, s1).
Proof.
  intros Hload Hxs. unfold __init__.
  rewrite (bind_ok _ _ _ None s) by done.
  rewrite (bind_ok _ _ _ (Some a) s1) by (by rewrite (bind_ok _ _ _ _ _ Hload)).
  rewrite (bind_ok _ _ _ a s1) by done.
  destruct t as [t|]; [done|].
  rewrite (bind_ok _ _ _ (init_t0 None xs) s1); [done|].
  rewrite (bind_ok _ _ _ _ _ (read_ok _ _ _ Hxs)).
  destruct xs as [|x xs]; [done|].
  rewrite bool_decide_eq_false_2 by done.
  destruct (init_t0_nonempty None (x :: xs)) as (e&He&Ht0); [done..|].
  rewrite Ht0. unfold np.argmax. simpl map at 1.
  unfold bind at 1, ret at 1.
  destruct (0 <=? _) eqn:Hpos; [|exfalso; lia].
  by rewrite Nat2Z.id, He.
Qed.

Lemma init_path_raise (s s1 : state) (index_path : string) (data_path : option string)
    (delete_on_error : bool) (t : option f8) (e : exn) :
  load env index_path data_path delete_on_error s = (Raise e, s1) ->
  __init__ env (Some index_path) data_path delete_on_error None t s = (Raise e, s1).
Proof.
  intros Hload. unfold __init__.
  rewrite (bind_ok _ _ _ None s) by done.
  by rewrite (bind_raise _ _ _ e s1) by (by rewrite (bind_raise _ _ _ _ _ Hload)).
Qed.

(** [FileIndex(index_path, data_path, delete_on_error, t0=t)] is [load]
    followed by the choice of [t0]: when [load] raises, the constructor
    raises the same exception and leaves the same files; when [load]
    returns, the index holds the rows that [load] left, and its [t0] is [t]
    if one was given, [None] if no row is left, and otherwise the time at
    the position that [np.argmax] finds among the rows. *)
Theorem init_from_file (s : state) (index_path : string) (data_path : option string)
    (delete_on_error : bool) (t : option f8) :
  let r := __init__ env (Some index_path) data_path delete_on_error None t s in
  match load env index_path data_path delete_on_error s with
  | (Raise e, s1) => r = (Raise e, s1)
  | (Ok a, s1) =>
      exists index_file : list byte,
        files s !! index_path = Some index_file
        /\ files s1 = files s
        /\ contents (heap s1) a = Some (without_marker env (loaded_rows env index_file))
        /\ r = (Ok {| _data := a;
                      t0 := init_t0 t (without_marker env (loaded_rows env index_file)) |},
                s1)
  end.
Proof.
  intros r. destruct (load env index_path data_path delete_on_error s) as [[a|e] s1] eqn:Hload.
  - destruct (load_ok_inv env _ _ _ _ _ _ Hload) as (index_file&Hindex&_&Hxs&Hfiles&_).
    exists index_file. split; [done|]. split; [done|]. split; [done|].
    by apply init_path_ok.
  - by apply init_path_raise.
Qed.

(** The constructor refuses an index path together with data, and an array
    of another dtype, before it looks at any file: nothing is loaded and
    nothing is deleted, whatever [delete_on_error] says.  The data is
    looked at first: a list is cast to an array before the path is
    considered, so the statement about lists is for rows that fit their
    fields, where the cast succeeds. *)
Theorem init_rejects_arguments (s : state) (index_path : option string)
    (data_path : option string) (delete_on_error : bool) (t : option f8) :
  (forall (rows : list entry) (path : string),
      Forall entry_ok rows ->
      index_path = Some path ->
      fst (__init__ env index_path data_path delete_on_error (Some (data_list rows)) t s)
      = Raise (ValueError Cannot_specify_both_path_and_data)
      /\ files (snd (__init__ env index_path data_path delete_on_error
                       (Some (data_list rows)) t s)) = files s)
  /\ (forall (a : ndarray) (xs : list entry) (path : string),
        contents (heap s) a = Some xs ->
        index_path = Some path ->
        __init__ env index_path data_path delete_on_error (Some (data_array a)) t s
        = (Raise (ValueError Cannot_specify_both_path_and_data), s))
  /\ (forall (a : ndarray) (rs : list Raw.t),
        raw_contents (heap s) a = Some rs ->
        __init__ env index_path data_path delete_on_error (Some (data_array a)) t s
        = (Raise (ValueError Unsupported_array_format), s)).
Proof.
  split; [|split].
  - intros rows path Hok ->. unfold __init__.
    rewrite (bind_ok _ _ _ (Some (Ndarray (fresh (dom (heap s))) (seq 0 (length rows))))
               (allocated (index_buf rows) s)); [done|].
    by rewrite (bind_ok _ _ _ _ _ (array_ok s rows Hok)).
  - intros a xs path Hxs ->. unfold __init__.
    rewrite (bind_ok _ _ _ (Some a) s); [done|].
    by rewrite (bind_ok _ _ _ _ _ (has_DTYPE_ok _ _ _ Hxs)).
  - intros a rs Hrs. unfold __init__.
    rewrite (bind_raise _ _ _ (ValueError Unsupported_array_format) s); [done|].
    unfold bind, has_DTYPE. unfold raw_contents in Hrs.
    by destruct (heap s !! base a) as [[|]|].
Qed.

End init_more.

(** ** Loading, then saving *)

Section loading_then_saving.

Context (env : Env).

Lemma from_raw_row_type (r : Raw.t) : type (from_raw_row env r) = Raw.type r.
Proof. unfold from_raw_row. by destruct (_ =? _). Qed.

(** An index file of raw rows [rs] and an EOF marker for the data file that
    is there: opening it and saving it again, to the same paths, writes the
    bytes that the file had, so that no file has changed. *)
Theorem load_then_save (s : state) (index_path data_path : string)
    (delete_on_error : bool) (rs : list Raw.t) (data_file : list byte) :
  let marker :=
    Raw.Row (Timestamp_INVALID env) (MessageType_INVALID env) (Z.of_nat (length data_file)) in
  files s !! index_path = Some (rows_to_bytes (rs ++ [marker])) ->
  Forall raw_ok (rs ++ [marker]) ->
  (forall r : Raw.t, last rs = Some r -> Raw.type r <> MessageType_INVALID env) ->
  files s !! data_path = Some data_file ->
  data_file <> [] ->
  exists (index : FileIndex) (s1 s2 : state),
    __init__ env (Some index_path) (Some data_path) delete_on_error None None s
    = (Ok index, s1)
    /\ contents (heap s1) (_data index) = Some (map (from_raw_row env) rs)
    /\ save env index index_path (Some data_path) s1 = (Ok tt, s2)
    /\ files s2 = files s.
Proof.
  intros marker Hindex Hok Hlast Hdata Hne.
  assert (loaded_rows env (rows_to_bytes (rs ++ [marker]))
          = map (from_raw_row env) rs
              ++ [eof_marker env (Z.of_nat (length data_file))]) as Hloaded.
  { unfold loaded_rows. rewrite (rows_of_bytes_to_bytes _ Hok), map_app. f_equal.
    cbn [map]. unfold from_raw_row, marker. simpl. by rewrite Z.eqb_refl. }
  destruct (load_marker_check env s index_path (Some data_path) delete_on_error _ data_file
              _ _ Hindex Hloaded eq_refl Hdata Hne) as (Hfiles&Hsame&_).
  destruct (Hsame eq_refl) as (a&Hrun&Hrows).
  destruct (load env index_path (Some data_path) delete_on_error s) as [res s1] eqn:Hload.
  simpl in Hrun, Hrows, Hfiles. subst res.
  exists {| _data := a; t0 := init_t0 None (map (from_raw_row env) rs) |}, s1.
  pose proof (init_path_ok env s s1 index_path (Some data_path) delete_on_error None a _
                Hload Hrows) as Hinit.
  destruct (decide (rs = [])) as [->|Hrs].
  - exists s1. split; [done|]. split; [done|]. split; [|done].
    unfold save. rewrite (bind_ok _ _ _ _ _ (read_ok _ _ _ Hrows)).
    by rewrite bool_decide_eq_false_2 by (simpl; lia).
  - destruct (exists_last Hrs) as (rs'&r&->).
    rewrite map_app in Hrows. cbn [map] in Hrows.
    rewrite <- Hfiles in Hdata.
    destruct (save_with_marker env s1 {| _data := a; t0 := init_t0 None (map (from_raw_row env) (rs' ++ [r])) |}
                index_path data_path _ _ data_file Hrows) as (s2&Hsave&Hwritten).
    { rewrite from_raw_row_type. apply Hlast. by rewrite last_snoc. }
    { done. }
    exists s2. split; [done|]. split; [by rewrite map_app|]. split; [done|].
    rewrite Hwritten, Hfiles.
    apply insert_id. rewrite Hindex. f_equal. f_equal.
    apply Forall_app in Hok as [Hok _]. apply Forall_app in Hok as [Hok Hr].
    apply Forall_singleton in Hr as [Hr _].
    rewrite !map_app, map_map. cbn [map].
    rewrite (to_raw_from_raw_row env r Hr).
    f_equal. f_equal.
    rewrite <- (map_id rs') at 1. symmetry.
    apply Forall_fmap_ext_1. eapply Forall_impl; [exact Hok|].
    intros r0 (Hint&_). by apply to_raw_from_raw_row.
Qed.

End loading_then_saving.

(** ** The three hints *)

Lemma compress_sublist {A} (mask : list bool) (xs : list A) :
  sublist (np.compress mask xs) xs.
Proof.
  revert mask. induction xs as [|x xs IH]; intros [|b mask]; simpl;
    try apply sublist_nil_l.
  destruct b; [apply sublist_skip|apply sublist_cons]; apply IH.
Qed.

(** Two masks that agree on the rows that satisfy [p] select the same rows
    among those. *)
Lemma filter_compress_ext {A} (p : A -> bool) (mask1 mask2 : list bool) (xs : list A) :
  length mask1 = length xs -> length mask2 = length xs ->
  (forall i x, xs !! i = Some x -> p x = true -> mask1 !! i = mask2 !! i) ->
  List.filter p (np.compress mask1 xs) = List.filter p (np.compress mask2 xs).
Proof.
  intros H1 H2 Hp. rewrite !filter_compress. apply compress_ext.
  - rewrite length_zip_with, length_map. lia.
  - rewrite length_zip_with, length_map. lia.
  - intros i Hi. destruct (lookup_lt_is_Some_2 xs i Hi) as [x Hx].
    rewrite !lookup_zip_with, !list_lookup_fmap, Hx. simpl.
    destruct (mask1 !! i) as [b1|] eqn:Hb1.
    2:{ apply lookup_ge_None in Hb1. lia. }
    destruct (mask2 !! i) as [b2|] eqn:Hb2.
    2:{ apply lookup_ge_None in Hb2. lia. }
    simpl. f_equal. destruct (p x) eqn:Hpx; [|by rewrite !andb_false_r].
    specialize (Hp i x Hx Hpx). rewrite Hb1, Hb2 in Hp. by injection Hp as ->.
Qed.

Section hints.

Context (env : Env).

(** What the three hints mean, on any non-empty index, sorted or not.  With
    [include_nans] (the default) the result is the block of rows between
    the two positions, and it is a view: nothing is allocated.  With
    [remove_nans] it is that block less its rows without time.  With
    [all_nans] it has the rows with time of that block, and every row
    without time of the whole index, all in the order of the index. *)
Theorem get_time_range_nans (s : state) (self : FileIndex) (xs : list entry)
    (start stop : option f8) :
  contents (heap s) (_data self) = Some xs ->
  xs <> [] ->
  let block := time_block xs start stop in
  (forall hint : option string,
      hint = None \/ hint = Some "include_nans"%string ->
      exists index : FileIndex,
        get_time_range env self start stop hint s = (Ok index, s)
        /\ base (_data index) = base (_data self)
        /\ contents (heap s) (_data index) = Some block)
  /\ (exists (index : FileIndex) (s' : state),
        get_time_range env self start stop (Some "remove_nans"%string) s = (Ok index, s')
        /\ contents (heap s') (_data index) = Some (List.filter valid block))
  /\ (exists (index : FileIndex) (s' : state) (ys : list entry),
        get_time_range env self start stop (Some "all_nans"%string) s = (Ok index, s')
        /\ contents (heap s') (_data index) = Some ys
        /\ List.filter valid ys = List.filter valid block
        /\ List.filter (fun e => isnan (time e)) ys = List.filter (fun e => isnan (time e)) xs
        /\ sublist ys xs).
Proof.
  intros Hxs Hne block.
  set (si := start_idx xs start). set (ei := end_idx xs stop). set (n := length xs).
  assert (block = np.compress (range_mask si ei n) xs) as Hblock
    by (symmetry; apply compress_range_mask).
  split; [|split].
  - intros hint Hhint.
    rewrite (get_time_range_nonempty env s self xs start stop hint Hxs Hne).
    cbv zeta. fold si ei.
    assert (String.eqb (default "include_nans"%string hint) "include_nans" = true) as ->
      by (by destruct Hhint as [-> | ->]).
    pose proof (getitem_slice_contents _ _ _ (Some (Z.of_nat si)) (Some (Z.of_nat ei)) 1 Hxs)
      as Hys.
    eexists. split; [|split].
    + erewrite (bind_ok (np.getitem_slice _ _ _ _) _ s _ s) by reflexivity.
      exact (FileIndex_of_ok env s _ _ (t0 self) Hys).
    + done.
    + simpl. rewrite Hys. f_equal. apply select_slice_nat.
  - rewrite (get_time_range_nonempty env s self xs start stop _ Hxs Hne).
    cbv zeta. fold si ei n. cbn [from_option id].
    change ("remove_nans" =? "include_nans")%string with false.
    change ("remove_nans" =? "all_nans")%string with false.
    change ("remove_nans" =? "remove_nans")%string with true. cbv iota.
    rewrite set_range_mask.
    set (mask := zip_with _ _ _).
    assert (length mask = n) as Hlen.
    { unfold mask. rewrite length_zip_with, range_mask_length, length_map. fold n. lia. }
    rewrite (bind_ok _ _ _ mask s) by done.
    rewrite (bind_ok _ _ _ _ _ (getitem_mask_ok _ _ _ _ Hxs Hlen)).
    eexists _, _. split; [by apply FileIndex_of_ok, contents_allocated|].
    etrans; [apply contents_allocated|]. f_equal.
    rewrite Hblock, filter_compress. apply compress_ext.
    + done.
    + rewrite length_zip_with, range_mask_length, length_map. fold n. lia.
    + intros i Hi. unfold mask.
      rewrite !lookup_zip_with, !list_lookup_fmap.
      by destruct (range_mask si ei n !! i), (xs !! i).
  - rewrite (get_time_range_nonempty env s self xs start stop _ Hxs Hne).
    cbv zeta. fold si ei n. cbn [from_option id].
    change ("all_nans" =? "include_nans")%string with false.
    change ("all_nans" =? "all_nans")%string with true. cbv iota.
    rewrite set_range_mask.
    set (mask := zip_with orb _ _).
    assert (length mask = n) as Hlen.
    { unfold mask. rewrite length_zip_with, range_mask_length, length_map. fold n. lia. }
    rewrite (bind_ok _ _ _ mask s) by done.
    rewrite (bind_ok _ _ _ _ _ (getitem_mask_ok _ _ _ _ Hxs Hlen)).
    assert (forall i e, xs !! i = Some e ->
              mask !! i = Some (bool_decide (si <= i < ei)%nat || isnan (time e))) as Hmask.
    { intros i e He. unfold mask.
      rewrite lookup_zip_with, range_mask_lookup by (by apply lookup_lt_Some in He).
      by rewrite list_lookup_fmap, He. }
    eexists _, _, _. split; [by apply FileIndex_of_ok, contents_allocated|].
    split; [apply contents_allocated|]. split; [|split].
    + rewrite Hblock. apply filter_compress_ext; [done|apply range_mask_length|].
      intros i e He Hvalid. rewrite (Hmask i e He).
      rewrite range_mask_lookup by (by apply lookup_lt_Some in He).
      unfold valid in Hvalid. destruct (isnan (time e)); [done|]. by rewrite orb_false_r.
    + rewrite filter_compress, <- (compress_map_filter (fun e => isnan (time e)) xs).
      apply compress_ext.
      * rewrite length_zip_with, length_map. fold n. lia.
      * by rewrite length_map.
      * intros i Hi. destruct (lookup_lt_is_Some_2 xs i Hi) as [e He].
        rewrite lookup_zip_with, (Hmask i e He), !list_lookup_fmap, He. simpl.
        f_equal. destruct (isnan (time e)); [by rewrite orb_true_r|by rewrite andb_false_r].
    + apply compress_sublist.
Qed.

End hints.

(** ** The other keys *)

Lemma position_None (len : nat) (k : Z) : ~ in_bounds len k -> np.position len k = None.
Proof.
  unfold in_bounds, np.position. intros H.
  destruct (_ && _) eqn:Hb; [exfalso; lia|done].
Qed.

Lemma position_Some (len : nat) (k : Z) (p : nat) :
  np.position len k = Some p -> in_bounds len k.
Proof.
  unfold in_bounds, np.position. destruct (_ && _) eqn:Hb; [lia|done].
Qed.

Lemma mapM_position_None (len : nat) (ks : list Z) :
  ~ Forall (in_bounds len) ks -> mapM (np.position len) ks = None.
Proof.
  intros H. destruct (mapM _ ks) as [ps|] eqn:Hps; [|done].
  exfalso. apply H. apply mapM_Some in Hps. clear H.
  induction Hps as [|k p ks ps Hk _ IH]; constructor; [|done].
  by eapply position_Some.
Qed.

Section other_keys.

Context (env : Env).

(** On an empty index every key but [None] gives [FileIndex()]: a new,
    empty index whose [t0] is [None], whatever [t0] the index had.  A string
    key gives no column and a key of an unsupported type no error. *)
Theorem getitem_empty_index (s : state) (self : FileIndex) (k : key) :
  contents (heap s) (_data self) = Some [] ->
  k <> key_None ->
  __getitem__ env self k s
  = (Ok (got_index {| _data := Ndarray (fresh (dom (heap s))) []; t0 := None |}),
     allocated (index_buf []) s).
Proof.
  intros Hxs Hk. unfold __getitem__.
  destruct k; try done;
    rewrite (bind_ok _ _ _ _ _ (read_ok _ _ _ Hxs));
    rewrite bool_decide_eq_true_2 by done;
    by rewrite (bind_ok _ _ _ _ _ (init_empty_ok env s)).
Qed.

(** The keys that select no rows, on a non-empty index.  [None] gives a
    copy of the index object, on the same array.  A string is handed to
    [getattr]: [time], [type] and [offset] give that column of the index's
    own array; [_data] and [t0] give the array and the [t0] of the index,
    and a name that the class body binds gives that method or constant,
    all found by the ordinary lookup; a name that is none of these, and
    that the runtime does not provide either, raises [AttributeError].  A
    key of another type, a time slice with an integer step, a slice of
    positions with step 0 and a list with a position out of bounds raise,
    and leave the state as it was. *)
Theorem getitem_other_keys (s : state) (self : FileIndex) (xs : list entry) :
  contents (heap s) (_data self) = Some xs ->
  xs <> [] ->
  __getitem__ env self key_None s = (Ok (got_index self), s)
  /\ __getitem__ env self (key_str "time") s = (Ok (got_column column_time (_data self)), s)
  /\ __getitem__ env self (key_str "type") s = (Ok (got_column column_type (_data self)), s)
  /\ __getitem__ env self (key_str "offset") s
     = (Ok (got_column column_offset (_data self)), s)
  /\ __getitem__ env self (key_str "_data") s = (Ok (got_array (_data self)), s)
  /\ __getitem__ env self (key_str "t0") s = (Ok (got_t0 (t0 self)), s)
  /\ (forall name : string,
        name ∈ class_attributes ->
        __getitem__ env self (key_str name) s = (Ok (got_member name), s))
  /\ (forall name : string,
        name ∉ ["time"; "type"; "offset"; "_data"; "t0"]%string ->
        name ∉ class_attributes ->
        String.prefix "__" name = false \/ runtime_attribute env name = false ->
        __getitem__ env self (key_str name) s = (Raise AttributeError, s))
  /\ __getitem__ env self key_other s = (Raise (ValueError Unsupported_key_type), s)
  /\ (forall (start stop : option bound) (step : Z),
        is_time start || is_time stop = true ->
        __getitem__ env self (key_slice start stop (Some (step_int step))) s
        = (Raise (ValueError Step_size_not_supported), s))
  /\ (forall start stop : option Z,
        __getitem__ env self
          (key_slice (bound_int <$> start) (bound_int <$> stop) (Some (step_int 0))) s
        = (Raise (ValueError slice_step_cannot_be_zero), s))
  /\ (forall ks : list Z,
        ks <> [] ->
        ~ Forall (in_bounds (length xs)) ks ->
        __getitem__ env self (key_seq (map item_int ks)) s = (Raise IndexError, s)).
Proof.
  intros Hxs Hne.
  assert (bool_decide (length xs = 0%nat) = false) as Hlen
    by (apply bool_decide_eq_false_2; by destruct xs).
  split; [by destruct self|].
  split; [|split; [|split; [|split; [|split; [|split; [|split; [|split; [|split; [|split]]]]]]]]].
  - unfold __getitem__. by rewrite (bind_ok _ _ _ _ _ (read_ok _ _ _ Hxs)), Hlen.
  - unfold __getitem__. by rewrite (bind_ok _ _ _ _ _ (read_ok _ _ _ Hxs)), Hlen.
  - unfold __getitem__. by rewrite (bind_ok _ _ _ _ _ (read_ok _ _ _ Hxs)), Hlen.
  - unfold __getitem__. by rewrite (bind_ok _ _ _ _ _ (read_ok _ _ _ Hxs)), Hlen.
  - unfold __getitem__. by rewrite (bind_ok _ _ _ _ _ (read_ok _ _ _ Hxs)), Hlen.
  - intros name Hname.
    unfold __getitem__. rewrite (bind_ok _ _ _ _ _ (read_ok _ _ _ Hxs)), Hlen.
    unfold getattr. rewrite (bool_decide_eq_true_2 _ Hname).
    unfold class_attributes in Hname.
    repeat (apply elem_of_cons in Hname as [->|Hname]; [done|]).
    by apply elem_of_nil in Hname.
  - intros name Hname Hclass Hruntime.
    unfold __getitem__. rewrite (bind_ok _ _ _ _ _ (read_ok _ _ _ Hxs)), Hlen.
    unfold getattr, __getattr__.
    assert (forall h : string, h ∈ ["time"; "type"; "offset"; "_data"; "t0"]%string ->
                               String.eqb name h = false) as Hneq.
    { intros h Hh. apply String.eqb_neq. by intros ->. }
    rewrite !Hneq by (repeat constructor).
    rewrite (bool_decide_eq_false_2 _ Hclass).
    assert (String.prefix "__" name && runtime_attribute env name = false) as ->.
    { destruct Hruntime as [-> | ->]; [done|apply andb_false_r]. }
    done.
  - unfold __getitem__. by rewrite (bind_ok _ _ _ _ _ (read_ok _ _ _ Hxs)), Hlen.
  - intros start stop step Htime.
    unfold __getitem__. rewrite (bind_ok _ _ _ _ _ (read_ok _ _ _ Hxs)), Hlen.
    by rewrite Htime.
  - intros start stop.
    unfold __getitem__. rewrite (bind_ok _ _ _ _ _ (read_ok _ _ _ Hxs)), Hlen.
    by destruct start, stop.
  - intros ks Hks Hout.
    unfold __getitem__. rewrite (bind_ok _ _ _ _ _ (read_ok _ _ _ Hxs)), Hlen.
    destruct ks as [|k ks]; [done|]. cbn [map].
    assert (mapM int_of_item (map item_int (k :: ks)) = Some (k :: ks)) as Hint.
    { apply mapM_Some. generalize (k :: ks). intros l. induction l; by constructor. }
    cbn [map] in Hint. rewrite Hint.
    rewrite (bind_raise _ _ _ IndexError s); [done|].
    unfold np.getitem_array. rewrite (bind_ok _ _ _ _ _ (read_ok _ _ _ Hxs)).
    by rewrite (mapM_position_None _ _ Hout).
Qed.

End other_keys.

Lemma select_int {A} (xs : list A) (i : Z) :
  np.select xs (np.slice_positions (length xs) (Some i) (Some (i + 1)) 1) = row_at xs i.
Proof.
  rewrite slice_positions_step1, select_seq. unfold row_at.
  unfold np.slice_start, np.slice_stop, np.adjust.
  change (1 <? 0) with false. cbv iota.
  set (n := length xs).
  assert (forall p : nat, (p < n)%nat -> take 1 (drop p xs) = option_list (xs !! p)) as Hone.
  { intros p Hp. destruct (lookup_lt_is_Some_2 xs p Hp) as [x Hx].
    by rewrite Hx, (drop_S _ _ _ Hx). }
  destruct ((0 <=? i) && (i <? Z.of_nat n)) eqn:Hin.
  { assert ((i <? 0) = false) as -> by lia.
    assert ((i + 1 <? 0) = false) as -> by lia.
    assert ((Z.of_nat n <=? i) = false) as -> by lia.
    destruct (Z.of_nat n <=? i + 1) eqn:Hend.
    - replace (Z.to_nat (Z.of_nat n) - Z.to_nat i)%nat with 1%nat by lia. apply Hone. lia.
    - replace (Z.to_nat (i + 1) - Z.to_nat i)%nat with 1%nat by lia. apply Hone. lia. }
  destruct ((- Z.of_nat n <=? i) && (i <? -1)) eqn:Hneg.
  { assert ((i <? 0) = true) as -> by lia.
    assert ((i + 1 <? 0) = true) as -> by lia.
    assert ((i + Z.of_nat n <? 0) = false) as -> by lia.
    assert ((i + 1 + Z.of_nat n <? 0) = false) as -> by lia.
    replace (Z.to_nat (i + 1 + Z.of_nat n) - Z.to_nat (i + Z.of_nat n))%nat with 1%nat by lia.
    apply Hone. lia. }
  repeat case_match; (rewrite (proj2 (Nat.sub_0_le _ _)) by lia); done.
Qed.

Section slices.

Context (env : Env).

(** [index[i]] for any integer [i] raises nothing and allocates nothing: it
    is a view of the index's own buffer, of one row when [i] is a position
    from the front, or a position from the end other than [-1], and of no
    row otherwise: so for [-1], and for an [i] past either end. *)
Theorem getitem_int_any (s : state) (self : FileIndex) (xs : list entry) (i : Z) :
  contents (heap s) (_data self) = Some xs ->
  xs <> [] ->
  exists index : FileIndex,
    __getitem__ env self (key_int i) s = (Ok (got_index index), s)
    /\ base (_data index) = base (_data self)
    /\ contents (heap s) (_data index) = Some (row_at xs i)
    /\ (i = -1 \/ Z.of_nat (length xs) <= i \/ i < - Z.of_nat (length xs) -> row_at xs i = [])
    /\ (forall (p : nat) (x : entry),
          xs !! p = Some x ->
          i = Z.of_nat p \/ (i = Z.of_nat p - Z.of_nat (length xs) /\ i <> -1) ->
          row_at xs i = [x]).
Proof.
  intros Hxs Hne.
  destruct (slice_query_ok env s self xs (Some i) (Some (i + 1)) None Hxs)
    as (index&Hrun&Hbase&_&Hys); [done|].
  exists index. split; [|split; [done|split; [|split]]].
  - unfold __getitem__. rewrite (bind_ok _ _ _ _ _ (read_ok _ _ _ Hxs)).
    rewrite bool_decide_eq_false_2 by (by destruct xs). exact Hrun.
  - rewrite Hys. f_equal. apply select_int.
  - intros Hout. unfold row_at.
    destruct (_ && _) eqn:H1; [exfalso; lia|].
    destruct ((- Z.of_nat (length xs) <=? i) && (i <? -1)) eqn:H2; [exfalso; lia|done].
  - intros p x Hp Hi. pose proof (lookup_lt_Some _ _ _ Hp) as Hlt. unfold row_at.
    destruct Hi as [->|[-> Hm1]].
    + destruct (_ && _) eqn:H1; [|exfalso; lia]. by rewrite Nat2Z.id, Hp.
    + destruct (_ && _) eqn:H1; [exfalso; lia|].
      destruct ((- Z.of_nat (length xs) <=? _) && (_ <? -1)) eqn:H2; [|exfalso; lia].
      replace (Z.to_nat (Z.of_nat p - Z.of_nat (length xs) + Z.of_nat (length xs))) with p by lia.
      by rewrite Hp.
Qed.

(** Slicing by time is [get_time_range]: [index[start:stop:hint]] with a
    float or [Timestamp] bound returns what [get_time_range(start, stop,
    hint)] returns, an integer on the other side being taken as a time; and
    so does [index[:]], with neither bound, which is a slice of
    positions. *)
Theorem getitem_time_slice (s : state) (self : FileIndex) (xs : list entry) :
  contents (heap s) (_data self) = Some xs ->
  xs <> [] ->
  (forall (start stop : option bound) (hint : option string),
      is_time start || is_time stop = true ->
      __getitem__ env self (key_slice start stop (step_str <$> hint)) s
      = (index <- get_time_range env self (bound_value <$> start) (bound_value <$> stop) hint ;;
         ret (got_index index)) s)
  /\ __getitem__ env self (key_slice None None None) s
     = (index <- get_time_range env self None None None ;; ret (got_index index)) s.
Proof.
  intros Hxs Hne.
  assert (bool_decide (length xs = 0%nat) = false) as Hlen
    by (apply bool_decide_eq_false_2; by destruct xs).
  split.
  - intros start stop hint Htime.
    unfold __getitem__. rewrite (bind_ok _ _ _ _ _ (read_ok _ _ _ Hxs)), Hlen, Htime.
    by destruct hint.
  - unfold __getitem__. rewrite (bind_ok _ _ _ _ _ (read_ok _ _ _ Hxs)), Hlen.
    cbn [is_time orb fmap option_fmap option_map].
    pose proof (get_time_range_nonempty env s self xs None None None Hxs Hne) as Hg.
    cbv zeta in Hg. cbn [from_option id start_idx end_idx] in Hg.
    change ("include_nans" =? "include_nans")%string with true in Hg. cbv iota in Hg.
    unfold bind at 1 2 3. rewrite Hg.
    unfold np.getitem_slice, bind, ret. cbn [from_option].
    rewrite (contents_length _ _ _ Hxs).
    by rewrite slice_positions_None_start, slice_positions_None_stop.
Qed.

(** C7 (the code departs from the claim).  On every non-empty FileIndex the
    integer [-1] is a position, that of the last row, and indexing with it
    returns a FileIndex of no row, not of one: [index[-1]] is
    [self._data[-1:0]], and the stop [0] comes before the start.  The list
    [index[[-1]]] does return the last row. *)
Theorem getitem_last_position_empty (s : state) (self : FileIndex)
    (rows : list entry) (last : entry) :
  contents (heap s) (_data self) = Some (rows ++ [last]) ->
  in_bounds (length (rows ++ [last])) (-1)
  /\ returns_rows (__getitem__ env self (key_int (-1)) s) []
  /\ returns_rows (__getitem__ env self (key_seq [item_int (-1)]) s) [last].
Proof.
  intros Hxs.
  assert (bool_decide (length (rows ++ [last]) = 0%nat) = false) as Hlen.
  { apply bool_decide_eq_false_2. rewrite length_app. simpl. lia. }
  split; [|split].
  - unfold in_bounds. rewrite length_app. simpl. lia.
  - destruct (slice_query_ok env s self _ (Some (-1)) (Some (-1 + 1)) None Hxs)
      as (index&Hrun&_&_&Hys); [done|].
    exists index, s. split.
    + unfold __getitem__. rewrite (bind_ok _ _ _ _ _ (read_ok _ _ _ Hxs)), Hlen. exact Hrun.
    + rewrite Hys. f_equal. cbn [from_option]. rewrite select_int. unfold row_at.
      assert ((0 <=? -1) = false) as -> by done.
      by assert ((-1 <? -1) = false) as -> by done; rewrite andb_false_r.
  - assert (mapM (np.position (length (rows ++ [last]))) [-1] = Some [length rows]) as Hpos.
    { apply mapM_Some. constructor; [|constructor]. unfold np.position.
      rewrite length_app. cbn [length].
      destruct (_ && _) eqn:Hb; [|exfalso; lia]. f_equal.
      assert ((-1 <? 0) = true) as -> by done. lia. }
    eexists _, _. split.
    + unfold __getitem__. rewrite (bind_ok _ _ _ _ _ (read_ok _ _ _ Hxs)), Hlen.
      cbn [mapM int_of_item]. unfold mbind, option_bind, mret, option_ret. cbv iota beta.
      rewrite (bind_ok _ _ _ _ _ (getitem_array_ok _ _ _ [last] _ _ Hxs Hpos)).
      by rewrite (bind_ok _ _ _ _ _ (FileIndex_of_ok env _ _ _ _ (contents_allocated s _))).
    + assert (np.select (rows ++ [last]) [length rows] = [last]) as ->.
      { apply select_lookups. cbn [mapM]. by rewrite list_lookup_middle. }
      apply (contents_allocated s [last]).
Qed.

End slices.

(** ** Iteration *)

Section iteration.

Context (MessageType_new : Z -> result Z).

Lemma nexts_exhausted (s : state) (a : ndarray) (xs : list entry) (i k : nat) :
  contents (heap s) a = Some xs ->
  (length xs <= i)%nat ->
  nexts MessageType_new k {| np_iterator := Some (Np_iterator a i) |} s
  = (Ok (repeat StopIteration k), s).
Proof.
  intros Hxs Hi. induction k as [|k IH]; [done|].
  cbn [nexts repeat].
  rewrite (bind_ok _ _ _ (StopIteration, {| np_iterator := Some (Np_iterator a i) |}) s).
  2:{ unfold __next__. cbn [np_iterator it_seq it_index].
      rewrite (bind_ok _ _ _ _ _ (read_ok _ _ _ Hxs)).
      by rewrite (proj2 (lookup_ge_None xs i)). }
  cbn [fst snd]. by rewrite (bind_ok _ _ _ _ _ IH).
Qed.

Lemma nexts_from (s : state) (a : ndarray) (xs : list entry) (k : nat) (i : nat) :
  contents (heap s) a = Some xs ->
  nexts MessageType_new (length (drop i xs) + k) {| np_iterator := Some (Np_iterator a i) |} s
  = (Ok (map (next_of MessageType_new) (drop i xs) ++ repeat StopIteration k), s).
Proof.
  intros Hxs.
  remember (length (drop i xs)) as n eqn:Hn. revert i Hn.
  induction n as [|n IH]; intros i Hn.
  - rewrite length_drop in Hn.
    rewrite drop_ge by lia. simpl. apply (nexts_exhausted s a xs); [done|lia].
  - destruct (xs !! i) as [e|] eqn:He.
    2:{ apply lookup_ge_None in He. rewrite drop_ge in Hn by lia. done. }
    rewrite (drop_S _ _ _ He) in *. cbn [length] in Hn. injection Hn as Hn.
    cbn [Nat.add nexts map app].
    rewrite (bind_ok _ _ _
               (next_of MessageType_new e, {| np_iterator := Some (Np_iterator a (S i)) |}) s).
    2:{ unfold __next__. cbn [np_iterator it_seq it_index].
        rewrite (bind_ok _ _ _ _ _ (read_ok _ _ _ Hxs)). rewrite He.
        unfold next_of. by destruct (MessageType_new (type e)). }
    cbn [fst snd]. by rewrite (bind_ok _ _ _ _ _ (IH (S i) Hn)).
Qed.

(** Iterating over an index visits its rows once each, in their order, and
    then stops for good: the first [len(index)] calls of [next] give the
    rows, as [FileIndexEntry]s (or raise what [MessageType(...)] raises for
    the type of the row, and go on to the next row), and every later call
    raises [StopIteration].  On an empty index the first call does.  Nothing
    in the store changes. *)
Theorem iteration_visits_rows (s : state) (self : FileIndex) (xs : list entry) (k : nat) :
  contents (heap s) (_data self) = Some xs ->
  (it <- __iter__ self ;; nexts MessageType_new (length xs + k) it) s
  = (Ok (map (next_of MessageType_new) xs ++ repeat StopIteration k), s)
  /\ (n <- __len__ self ;; it <- __iter__ self ;; nexts MessageType_new (Z.to_nat n) it) s
     = (Ok (map (next_of MessageType_new) xs), s).
Proof.
  intros Hxs.
  assert (forall k, (it <- __iter__ self ;; nexts MessageType_new (length xs + k) it) s
                    = (Ok (map (next_of MessageType_new) xs ++ repeat StopIteration k), s))
    as Hrun.
  { clear k. intros k.
    destruct xs as [|x xs].
    - rewrite (bind_ok _ _ _ {| np_iterator := None |} s).
      2:{ unfold __iter__. by rewrite (bind_ok _ _ _ _ _ (read_ok _ _ _ Hxs)). }
      cbn [length Nat.add map app].
      induction k as [|k IH]; [done|].
      cbn [nexts repeat].
      rewrite (bind_ok _ _ _ (StopIteration, {| np_iterator := None |}) s) by done.
      cbn [fst snd]. by rewrite (bind_ok _ _ _ _ _ IH).
    - rewrite (bind_ok _ _ _ {| np_iterator := Some (Np_iterator (_data self) 0) |} s).
      2:{ unfold __iter__. by rewrite (bind_ok _ _ _ _ _ (read_ok _ _ _ Hxs)). }
      apply (nexts_from s (_data self) (x :: xs) k 0 Hxs). }
  split; [apply Hrun|].
  rewrite (bind_ok _ _ _ (Z.of_nat (length xs)) s).
  2:{ unfold __len__. rewrite (bind_ok _ _ _ _ _ (read_ok _ _ _ Hxs)). by rewrite length_map. }
  rewrite Nat2Z.id.
  specialize (Hrun 0%nat). by rewrite Nat.add_0_r, app_nil_r in Hrun.
Qed.

End iteration.

(** ** The builder *)

Lemma appended_rows (messages : list (Z * Z * option f8)) :
  appended messages = map row_of_message messages.
Proof.
  unfold appended.
  enough (forall acc, foldl (fun raw_data m => append raw_data (fst (fst m)) (snd (fst m)) (snd m))
                        acc messages = acc ++ map row_of_message messages) as H by apply H.
  induction messages as [|m messages IH]; intros acc; simpl.
  - by rewrite app_nil_r.
  - rewrite IH. unfold append, row_of_message. rewrite <- (assoc_L (++)). simpl.
    by destruct (snd m).
Qed.

Lemma init_t0_stored (xs : list entry) :
  init_t0 None (map stored_row xs) = stored_time <$> init_t0 None xs.
Proof.
  unfold init_t0. destruct xs as [|x xs]; [done|].
  change (stored_row x :: map stored_row xs) with (map stored_row (x :: xs)).
  generalize (x :: xs). intros l. rewrite map_map. cbn [stored_row time].
  assert (map (fun e => negb (isnan (stored_time (time e)))) l
          = map (fun e => negb (isnan (time e))) l) as ->.
  { apply map_ext. intros e. by destruct (time e). }
  rewrite list_lookup_fmap. destruct l as [|y l]; [done|].
  by destruct ((y :: l) !! _).
Qed.

Section builder.

Context (env : Env).

(** A builder that has been given messages whose types and offsets fit
    their fields, saved next to the data file: the index it returns holds
    one row for each message, in the order in which they were appended,
    with NaN for a message without P1 time, and no marker; the file it
    writes holds these rows and then the EOF marker for the size of the
    data file.  A builder without messages returns an empty index and
    writes no file at all. *)
Theorem builder_save_writes (s : state) (messages : list (Z * Z * option f8))
    (index_path data_path : string) (data_file : list byte) :
  Forall entry_ok (map row_of_message messages) ->
  in_range 16 (MessageType_INVALID env) ->
  in_range 64 (Z.of_nat (length data_file)) ->
  files s !! data_path = Some data_file ->
  has_marker env (map row_of_message messages) = false ->
  exists (index : FileIndex) (s' : state),
    builder_save env (appended messages) index_path (Some data_path) s = (Ok index, s')
    /\ contents (heap s') (_data index) = Some (map row_of_message messages)
    /\ builder_len (appended messages) = Z.of_nat (length messages)
    /\ heap s ⊆ heap s'
    /\ files s'
       = match messages with
         | [] => files s
         | _ => <[index_path :=
                    rows_to_bytes
                      (map (to_raw_row env)
                         (map row_of_message messages
                            ++ [eof_marker env (Z.of_nat (length data_file))]))]> (files s)
         end.
Proof.
  intros Hok _ _ Hdata Hmark. rewrite appended_rows.
  set (rows := map row_of_message messages) in *.
  pose (index := {| _data := Ndarray (fresh (dom (heap s))) (seq 0 (length rows));
                    t0 := init_t0 None rows |}).
  pose (s1 := allocated (index_buf rows) s).
  assert (to_index env rows s = (Ok index, s1)) as Hindex by (by apply init_list_ok).
  assert (contents (heap s1) (_data index) = Some rows) as Hrows by apply contents_allocated.
  assert (builder_len rows = Z.of_nat (length messages)) as Hlen
    by (unfold builder_len, rows; by rewrite length_map).
  unfold builder_save. rewrite (bind_ok _ _ _ _ _ Hindex).
  destruct (decide (rows = [])) as [Hnil|Hne].
  - exists index, s1.
    assert (messages = []) as -> by (by destruct messages).
    split; [|split; [done|split; [done|split; [apply allocated_grows|done]]]].
    rewrite (bind_ok _ _ _ tt s1); [done|].
    unfold save. rewrite (bind_ok _ _ _ _ _ (read_ok _ _ _ Hrows)).
    rewrite Hnil. by rewrite bool_decide_eq_false_2 by (simpl; lia).
  - destruct (exists_last Hne) as (rows'&last&Hlast).
    rewrite Hlast in Hrows, Hmark. rewrite has_marker_snoc in Hmark.
    destruct (save_with_marker env s1 index index_path data_path rows' last data_file
                Hrows ltac:(lia) Hdata) as (s2&Hsave&Hfiles).
    exists index, s2.
    rewrite (bind_ok _ _ _ _ _ Hsave).
    pose proof (stable_save env index index_path (Some data_path) s1) as Hkept.
    rewrite Hsave in Hkept. unfold buffers_kept in Hkept. simpl in Hkept.
    split; [done|]. split.
    { rewrite Hlast. by apply (contents_mono (heap s1)). }
    split; [done|]. split.
    { trans (heap s1); [apply allocated_grows|done]. }
    rewrite Hfiles, <- Hlast. destruct messages; [done|]. done.
Qed.

(** The index that a builder has saved, opened again from the two paths:
    it has a row for each message, in the same order, with the same type
    and offset and with the time floored, and its [t0] is the floor of the
    [t0] of the index that the builder returned. *)
Theorem builder_save_then_open (s : state) (messages : list (Z * Z * option f8))
    (index_path data_path : string) (delete_on_error : bool) (data_file : list byte) :
  messages <> [] ->
  has_marker env (map row_of_message messages) = false ->
  Forall entry_ok (map row_of_message messages) ->
  Forall (fun e => storable env (time e)) (map row_of_message messages) ->
  in_range 32 (Timestamp_INVALID env) ->
  in_range 16 (MessageType_INVALID env) ->
  files s !! data_path = Some data_file ->
  data_file <> [] ->
  in_range 64 (Z.of_nat (length data_file)) ->
  index_path <> data_path ->
  exists (built opened : FileIndex) (s1 s2 : state),
    builder_save env (appended messages) index_path (Some data_path) s = (Ok built, s1)
    /\ __init__ env (Some index_path) (Some data_path) delete_on_error None None s1
       = (Ok opened, s2)
    /\ contents (heap s2) (_data built) = Some (map row_of_message messages)
    /\ contents (heap s2) (_data opened) = Some (map stored_row (map row_of_message messages))
    /\ t0 opened = stored_time <$> t0 built.
Proof.
  intros Hmsgs Hmark Hok Hst Hinv Hinvt Hdata Hne Hsize Hpaths.
  rewrite appended_rows.
  set (xs := map row_of_message messages) in *.
  set (marker := eof_marker env (Z.of_nat (length data_file))).
  pose (built := {| _data := Ndarray (fresh (dom (heap s))) (seq 0 (length xs));
                    t0 := init_t0 None xs |}).
  pose (s0 := allocated (index_buf xs) s).
  assert (to_index env xs s = (Ok built, s0)) as Hindex by (by apply init_list_ok).
  assert (contents (heap s0) (_data built) = Some xs) as Hrows by apply contents_allocated.
  assert (xs <> []) as Hxs by (unfold xs; by destruct messages).
  destruct (exists_last Hxs) as (rows&last&Hlast).
  assert (type last <> MessageType_INVALID env) as Htype.
  { rewrite Hlast, has_marker_snoc in Hmark. lia. }
  rewrite Hlast in Hrows.
  destruct (save_with_marker env s0 built index_path data_path rows last data_file
              Hrows Htype Hdata) as (s1&Hsave&Hfiles).
  rewrite <- Hlast in Hrows, Hfiles. fold marker in Hfiles.
  assert (files s1 !! index_path
          = Some (rows_to_bytes (map (to_raw_row env) (xs ++ [marker])))) as Hindex1.
  { rewrite Hfiles. apply lookup_insert_eq. }
  assert (files s1 !! resolve_data_path env index_path (Some data_path) = Some data_file)
    as Hdata1.
  { simpl. rewrite Hfiles. by rewrite lookup_insert_ne. }
  assert (loaded_rows env (rows_to_bytes (map (to_raw_row env) (xs ++ [marker])))
          = map stored_row xs ++ [marker]) as Hloaded.
  { unfold loaded_rows. rewrite rows_of_bytes_to_bytes.
    - rewrite map_map, map_app. f_equal.
      + apply Forall_fmap_ext_1. eapply Forall_impl; [exact Hst|].
        intros e He. by apply round_trip_row.
      + simpl. f_equal. unfold to_raw_row, from_raw_row. simpl. by rewrite Z.eqb_refl.
    - apply Forall_fmap. apply Forall_app. split.
      + eapply Forall_impl; [exact Hok|]. intros e He. by apply to_raw_row_ok.
      + constructor; [|done]. by apply to_raw_row_ok. }
  destruct (load_marker_check env s1 index_path (Some data_path) delete_on_error _ data_file
              (map stored_row xs) marker Hindex1 Hloaded eq_refl Hdata1 Hne)
    as (_&Hsame&_).
  destruct (Hsame eq_refl) as (a&Hrun&Hback).
  destruct (load env index_path (Some data_path) delete_on_error s1) as [res s2] eqn:Hload.
  simpl in Hrun, Hback. subst res.
  exists built, {| _data := a; t0 := init_t0 None (map stored_row xs) |}, s1, s2.
  split; [|split; [|split; [|split; [done|]]]].
  - unfold builder_save. rewrite (bind_ok _ _ _ _ _ Hindex).
    by rewrite (bind_ok _ _ _ _ _ Hsave).
  - by apply init_path_ok.
  - pose proof (stable_save env built index_path (Some data_path) s0) as H1.
    rewrite Hsave in H1.
    pose proof (stable_load env index_path (Some data_path) delete_on_error s1) as H2.
    rewrite Hload in H2. unfold buffers_kept in *. simpl in *.
    apply (contents_mono (heap s0)); [by trans (heap s1)|done].
  - apply init_t0_stored.
Qed.

End builder.

(** ** The default paths *)

Section default_paths.

Context (env : Env).

(** [get_path] and the default data path of [load] undo each other.  Where
    [os.path.splitext] takes the extensions [.p1log] and [.p1i] off a path,
    the index path that [get_path] gives for a data file is the path with
    [.p1i] in place of [.p1log]; and [load] of that index path with no data
    path checks the index against that data file, when it exists, as if its
    path had been given. *)
Theorem load_from_get_path (s : state) (stem : string) (delete_on_error : bool)
    (data_file : list byte) :
  splitext_root env (stem ++ ".p1log") = stem ->
  splitext_root env (stem ++ ".p1i") = stem ->
  files s !! (stem ++ ".p1log")%string = Some data_file ->
  get_path env (stem ++ ".p1log") = (stem ++ ".p1i")%string
  /\ load env (get_path env (stem ++ ".p1log")) None delete_on_error s
     = load env (stem ++ ".p1i") (Some (stem ++ ".p1log")%string) delete_on_error s.
Proof.
  intros Hlog Hidx Hdata. unfold get_path. rewrite Hlog. split; [done|].
  unfold load.
  pose proof (stable_load_index env (stem ++ ".p1i") s) as [_ Hfiles].
  destruct (load_index env (stem ++ ".p1i") s) as [[a|e] s1] eqn:Hrun.
  - rewrite !(bind_ok _ _ _ _ _ Hrun).
    simpl in Hfiles. rewrite Hidx. rewrite <- Hfiles in Hdata.
    by rewrite !(bind_ok _ _ _ _ _ (path_exists_ok _ _ _ Hdata)).
  - by rewrite !(bind_raise _ _ _ _ _ Hrun).
Qed.

End default_paths.

(** * Worked examples *)

Section examples.

Import Example Sample.

(** C1 (the code departs from the claim).  On the entries at times
    [1.0, 2.0, 3.0, 4.0], [get_time_range(2.0, 5.0)] returns no entry at
    all, although the entries at 2.0, 3.0 and 4.0 have
    [floor(2.0) <= t < 5.0]: [np.argmax] finds no time [>= 5.0] and answers
    position 0. *)
Theorem get_time_range_stop_after_last :
  rows_returned (get_time_range env (index_on rows4)
                   (Some (time_of_Z 2)) (Some (time_of_Z 5)) None (memory rows4 []))
  = Some []
  /\ List.filter (in_time_range (Some (time_of_Z 2)) (Some (time_of_Z 5))) rows4
     = [Entry (time_of_Z 2) 5 10; Entry (time_of_Z 3) 5 20; Entry (time_of_Z 4) 5 30].
Proof. split; vm_compute; reflexivity. Qed.

(** The example of the claim itself does hold: [get_time_range(2.0, 4.0)]
    returns the entries at 2.0 and 3.0 only. *)
Example get_time_range_2_4 :
  rows_returned (get_time_range env (index_on rows4)
                   (Some (time_of_Z 2)) (Some (time_of_Z 4)) None (memory rows4 []))
  = Some [Entry (time_of_Z 2) 5 10; Entry (time_of_Z 3) 5 20].
Proof. vm_compute. reflexivity. Qed.

(** A start after the last entry, the other way round: every entry is
    returned. *)
Example get_time_range_start_after_last :
  rows_returned (get_time_range env (index_on rows4)
                   (Some (time_of_Z 5)) None None (memory rows4 []))
  = Some rows4.
Proof. vm_compute. reflexivity. Qed.

(** The end-to-end scenario: the three rows are saved next to a data file
    of 52 bytes and loaded back; the marker is stripped and [t0] is 10.0,
    but [get_time_range(10, 11, 'remove_nans')] returns no row, for the same
    reason: no stored time is [>= 11]. *)
Example scenario_time_range :
  let s := disk [("log.p1log"%string, repeat Byte.x00 52)] in
  let reload :=
    (builder_save env rows "log.p1i" (Some "log.p1log"%string) ;;
     __init__ env (Some "log.p1i"%string) (Some "log.p1log"%string) true None None) in
  rows_returned (reload s)
  = Some [Entry (time_of_Z 10) 5 0; Entry (time_of_Z 10) 5 20; Entry NaN 99 40]
  /\ t0 <$> fst_ok (reload s) = Some (Some (time_of_Z 10))
  /\ rows_returned
       ((loaded <- reload ;;
         get_time_range env loaded (Some (time_of_Z 10)) (Some (time_of_Z 11))
           (Some "remove_nans"%string)) s)
     = Some [].
Proof. repeat split; vm_compute; reflexivity. Qed.

(** Positions counted from the end: [index[-2]] is the row before the last,
    but [index[-1]] is [self._data[-1:0]], which is empty; so is an index
    past the end. *)
Example getitem_negative_positions :
  returns_rows (__getitem__ env (index_on rows) (key_int (-2)) (memory rows []))
    [Entry (Fin (21 # 2)) 5 20]
  /\ returns_rows (__getitem__ env (index_on rows) (key_int (-1)) (memory rows [])) []
  /\ returns_rows (__getitem__ env (index_on rows) (key_int 7) (memory rows [])) [].
Proof. repeat split; eexists _, _; (split; [vm_compute; reflexivity|reflexivity]). Qed.

(** C2 (the code departs from the claim).  [FileIndex(data=[(nan, 0, 0)])]:
    no entry has a valid time, yet [t0] is not [None] but [Timestamp(nan)];
    [np.argmax] answers 0, never a negative position. *)
Theorem init_t0_without_valid_time :
  exists (index : FileIndex) (s' : state),
    __init__ env None None true (Some (data_list [Entry NaN 0 0])) None (disk [])
    = (Ok index, s')
    /\ t0 index = Some NaN.
Proof.
  eexists _, _. split; [apply init_list_ok|reflexivity].
  repeat constructor; first [vm_compute; discriminate|vm_compute; reflexivity].
Qed.

(** C3 (counterexample to the claim as stated).  An index of one message
    without marker and a data file of 0 bytes: the offset 0 exceeds
    [0 - 24], but [load] fails with [Data file empty but index populated],
    the check that comes first. *)
Lemma load_empty_data_file :
  let s := disk [("log.p1i"%string, index_without_marker); ("log.p1log"%string, [])] in
  loaded_rows env index_without_marker = [Entry (time_of_Z 10) 5 0]
  /\ 0 - calcsize env < 0
  /\ fst (load env "log.p1i" None true s)
     = Raise (ValueError (Data_file_empty_but_index_populated 1)).
Proof. repeat split; vm_compute; reflexivity. Qed.

(** C4 (the code departs from the claim).  An index with an EOF marker for
    52 bytes next to a data file of 60 bytes, [delete_on_error = True]:
    [load] fails with the size mismatch and the index file is still there. *)
Theorem load_marker_mismatch_keeps_index :
  let s := disk [("log.p1i"%string, index_with_marker);
                 ("log.p1log"%string, message 36)] in
  let r := load env "log.p1i" (Some "log.p1log"%string) true s in
  fst r = Raise (ValueError (Size_expected_by_index_file_does_not_match 60 52))
  /\ files (snd r) !! "log.p1i"%string = Some index_with_marker.
Proof. split; vm_compute; reflexivity. Qed.

(** C5 (the code departs from the claim).  An empty index file, no data
    path, no [log.p1log]: [load] does not return, [self._data['type'][-1]]
    raises [IndexError]. *)
Theorem load_empty_index_raises :
  fst (load env "log.p1i" None true (disk [("log.p1i"%string, [])]))
  = Raise IndexError.
Proof. vm_compute. reflexivity. Qed.

(** C6 (counterexample to the claim as stated).  The time 4294967295.0 is a
    whole number, and it comes back as NaN: its raw value is the sentinel. *)
Lemma round_trip_sentinel_time :
  let e := Entry (time_of_Z 4294967295) 5 0 in
  integer_valued (time e)
  /\ exists (a : ndarray) (s' : state),
       (data <- new_array [e] ;; raw_data <- _to_raw env data ;; _from_raw env raw_data)
         (disk [])
       = (Ok a, s')
       /\ contents (heap s') a = Some [Entry NaN 5 0].
Proof.
  split; [reflexivity|].
  eexists _, _. split.
  - rewrite (bind_ok _ _ _ _ (allocated (index_buf [Entry (time_of_Z 4294967295) 5 0])
                                (disk []))) by reflexivity.
    rewrite (bind_ok _ _ _ _ _ (_to_raw_ok env _ _ _ (contents_allocated _ _))).
    apply _from_raw_ok. apply (raw_contents_allocated _ [_]).
  - apply (contents_allocated _ [_]).
Qed.

End examples.

(** * The theorems at concrete inputs *)

Section witnesses.

Import Example Sample.

(** C3 at an index of one message at offset 0 and a data file that holds
    this message, 24 bytes of header and 12 of payload: the sizes agree and
    [load] returns the row. *)
Lemma load_without_marker_witness :
  let s := disk [("log.p1i"%string, index_without_marker);
                 ("log.p1log"%string, message 12)] in
  let r := load env "log.p1i" None true s in
  exists a : ndarray,
    fst r = Ok a
    /\ contents (heap (snd r)) a = Some ([] ++ [Entry (time_of_Z 10) 5 0])
    /\ files (snd r) = files s.
Proof.
  intros s r.
  destruct (load_without_marker env s "log.p1i" None true
              index_without_marker (message 12) [] (Entry (time_of_Z 10) 5 0))
    as [_ H]; [vm_compute; reflexivity|vm_compute; reflexivity|vm_compute; discriminate
              |vm_compute; reflexivity|discriminate|].
  apply (H ltac:(vm_compute; discriminate) 12 ltac:(vm_compute; reflexivity)).
  vm_compute. reflexivity.
Defined.

(** C6 at the rows of the scenario: 10.0 comes back as 10.0, 10.5 as 10.0
    and NaN as NaN. *)
Lemma round_trip_storable_witness :
  exists (a : ndarray) (s' : state) (ys : list entry),
    (raw_data <- _to_raw env (_data (index_on rows)) ;; _from_raw env raw_data)
      (memory rows [])
    = (Ok a, s')
    /\ contents (heap s') a = Some ys
    /\ Forall2 comes_back_as rows ys.
Proof.
  apply (round_trip_storable env (memory rows []) (_data (index_on rows)) rows).
  - vm_compute. reflexivity.
  - repeat constructor; vm_compute; discriminate.
Defined.

(** Positions from the front at the rows of the scenario. *)
Lemma getitem_by_position_witness :
  returns_rows (__getitem__ env (index_on rows) (key_int 1) (memory rows []))
    [Entry (Fin (21 # 2)) 5 20]
  /\ returns_rows
       (__getitem__ env (index_on rows)
          (key_slice (Some (bound_int 1)) None None) (memory rows []))
       [Entry (Fin (21 # 2)) 5 20; Entry NaN 99 40]
  /\ returns_rows
       (__getitem__ env (index_on rows) (key_seq [item_int 2; item_int 0])
          (memory rows []))
       [Entry NaN 99 40; Entry (time_of_Z 10) 5 0].
Proof.
  destruct (getitem_by_position env (memory rows []) (index_on rows) rows)
    as (Hint&Hslice&Hlist); [vm_compute; reflexivity|discriminate|].
  split; [|split].
  - exact (Hint 1%nat _ eq_refl).
  - exact (Hslice (Some 1%nat) None None (or_introl eq_refl)).
  - exact (Hlist [2%nat; 0%nat] _ eq_refl).
Defined.

(** C8 at the rows of the scenario, with the hint [nans]. *)
Lemma get_time_range_hint_witness :
  get_time_range env (index_on rows) (Some (time_of_Z 10)) None
    (Some "nans"%string) (memory rows [])
  = (Raise (ValueError Unrecognized_control_hint), memory rows []).
Proof.
  apply (get_time_range_hint env (memory rows []) (index_on rows) rows);
    [vm_compute; reflexivity|discriminate|].
  rewrite !not_elem_of_cons. repeat split; try discriminate. apply not_elem_of_nil.
Defined.

(** C9 at the rows of the scenario, for message type 5. *)
Lemma getitem_type_filters_witness :
  exists (index : FileIndex) (s' : state),
    __getitem__ env (index_on rows) (key_type 5) (memory rows [])
    = (Ok (got_index index), s')
    /\ contents (heap s') (_data index) = Some (List.filter (has_type [5]) rows)
    /\ (base (_data index) ∉ dom (heap (memory rows [])))
    /\ heap (memory rows []) ⊆ heap s'
    /\ contents (heap s') (_data (index_on rows)) = Some rows.
Proof.
  apply (getitem_type_filters env (memory rows []) (index_on rows) rows (key_type 5) [5]).
  - vm_compute. reflexivity.
  - constructor.
Defined.

(** C10 at the rows of the scenario, saved next to a data file of 72
    bytes. *)
Lemma save_leaves_index_witness :
  let s := memory rows [("log.p1log"%string, message 0 ++ message 0 ++ message 0)] in
  let r := save env (index_on rows) "log.p1i" (Some "log.p1log"%string) s in
  contents (heap (snd r)) (_data (index_on rows)) = Some rows
  /\ heap s ⊆ heap (snd r).
Proof.
  intros s r.
  destruct (save_leaves_index env s (index_on rows) "log.p1i"
              (Some "log.p1log"%string) rows) as (Hrows&Hheap&_);
    [vm_compute; reflexivity|].
  split; [exact Hrows|exact Hheap].
Defined.

End witnesses.

(** * Further theorems at concrete inputs *)

Section more_witnesses.

Import Example Sample.

Lemma rows4_ascending : valid_times_ascending rows4.
Proof.
  intros i j a b Hij Hi Hj _ _.
  destruct i as [|[|[|[|i]]]], j as [|[|[|[|j]]]];
    simpl in Hi, Hj; try discriminate; try (exfalso; lia);
    injection Hi as <-; injection Hj as <-; reflexivity.
Defined.

(** The time range from 2.0 up to and excluding 4.0 on the entries at 1.0,
    2.0, 3.0 and 4.0, with the hint [remove_nans]. *)
Lemma get_time_range_sorted_witness :
  exists (index : FileIndex) (s' : state) (ys : list entry),
    get_time_range env (index_on rows4) (Some (time_of_Z 2)) (Some (time_of_Z 4))
      (Some "remove_nans"%string) (memory rows4 [])
    = (Ok index, s')
    /\ contents (heap s') (_data index) = Some ys
    /\ List.filter valid ys
       = List.filter (in_time_range (Some (time_of_Z 2)) (Some (time_of_Z 4))) rows4.
Proof.
  apply (get_time_range_sorted env (memory rows4 []) (index_on rows4) rows4).
  - vm_compute. reflexivity.
  - discriminate.
  - exact rows4_ascending.
  - exists (Entry (time_of_Z 2) 5 10). split; [|reflexivity].
    apply elem_of_cons. right. apply elem_of_cons. by left.
  - exists (Entry (time_of_Z 4) 5 30). split; [|reflexivity].
    do 3 (apply elem_of_cons; right). apply elem_of_cons. by left.
  - do 3 (apply elem_of_cons; right). apply elem_of_cons. by left.
Defined.

(** An index with an EOF marker and no data file at all. *)
Lemma load_without_data_file_witness :
  let s := disk [("log.p1i"%string, index_with_marker)] in
  exists (a : ndarray) (s' : state),
    load env "log.p1i" None true s = (Ok a, s')
    /\ contents (heap s') a
       = Some (if type (Entry NaN 0 52) =? MessageType_INVALID env
               then [Entry (time_of_Z 10) 5 0]
               else [Entry (time_of_Z 10) 5 0] ++ [Entry NaN 0 52])
    /\ files s' = files s.
Proof.
  intros s.
  apply (load_without_data_file env s "log.p1i" true index_with_marker
           [Entry (time_of_Z 10) 5 0] (Entry NaN 0 52));
    vm_compute; reflexivity.
Defined.

(** An index with an EOF marker for 52 bytes next to a data file of 52
    bytes. *)
Lemma load_with_marker_witness :
  let s := disk [("log.p1i"%string, index_with_marker);
                 ("log.p1log"%string, message 28)] in
  let r := load env "log.p1i" (Some "log.p1log"%string) true s in
  files (snd r) = files s
  /\ exists a : ndarray,
       fst r = Ok a /\ contents (heap (snd r)) a = Some [Entry (time_of_Z 10) 5 0].
Proof.
  intros s r.
  destruct (load_with_marker env s "log.p1i" (Some "log.p1log"%string) true
              index_with_marker (message 28) [Entry (time_of_Z 10) 5 0] (Entry NaN 0 52))
    as (Hfiles&Hsame&_);
    [vm_compute; reflexivity|vm_compute; reflexivity|reflexivity
    |vm_compute; reflexivity|discriminate|].
  split; [exact Hfiles|]. apply Hsame. reflexivity.
Defined.

(** An index without marker whose last message ends at byte 36, next to a
    data file of 37 bytes. *)
Lemma load_deletes_index_witness :
  let s := disk [("log.p1i"%string, index_without_marker);
                 ("log.p1log"%string, message 12 ++ [Byte.x00])] in
  files (snd (load env "log.p1i" (Some "log.p1log"%string) true s))
  = delete "log.p1i"%string (files s).
Proof.
  intros s.
  apply (load_deletes_index env s "log.p1i" (Some "log.p1log"%string)
           index_without_marker (message 12 ++ [Byte.x00])
           (Size_expected_by_index_file_does_not_match 37 36));
    vm_compute; reflexivity.
Defined.

(** The rows of the scenario, saved next to a data file of 72 bytes and
    loaded back. *)
Lemma save_then_load_witness :
  let s := memory rows [("log.p1log"%string, message 0 ++ message 0 ++ message 0)] in
  exists (a : ndarray) (s' : state) (ys : list entry),
    (save env (index_on rows) "log.p1i" (Some "log.p1log"%string) ;;
     load env "log.p1i" (Some "log.p1log"%string) true) s = (Ok a, s')
    /\ contents (heap s') a = Some ys
    /\ Forall2 comes_back_as
         ([Entry (time_of_Z 10) 5 0; Entry (Fin (21 # 2)) 5 20] ++ [Entry NaN 99 40]) ys.
Proof.
  intros s.
  apply (save_then_load env s (index_on rows) "log.p1i" "log.p1log"
           [Entry (time_of_Z 10) 5 0; Entry (Fin (21 # 2)) 5 20] (Entry NaN 99 40)
           (message 0 ++ message 0 ++ message 0)).
  - vm_compute. reflexivity.
  - vm_compute. discriminate.
  - repeat constructor; vm_compute; discriminate.
  - repeat constructor; vm_compute; discriminate.
  - vm_compute. split; [discriminate|reflexivity].
  - vm_compute. split; [discriminate|reflexivity].
  - vm_compute. reflexivity.
  - discriminate.
  - vm_compute. split; [discriminate|reflexivity].
  - discriminate.
Defined.

End more_witnesses.

(** * The further theorems at concrete inputs *)

Section witnesses_of_the_module.

Import Example Sample.

(** An index with an EOF marker for 52 bytes next to a data file of 52
    bytes: [load] returns, and what it returns is the one row that comes
    before the marker. *)
Lemma load_returns_rows_witness :
  let s := disk [("log.p1i"%string, index_with_marker);
                 ("log.p1log"%string, message 28)] in
  exists (a : ndarray) (s' : state) (index_file : list byte),
    load env "log.p1i" (Some "log.p1log"%string) true s = (Ok a, s')
    /\ files s !! "log.p1i"%string = Some index_file
    /\ loaded_rows env index_file <> []
    /\ contents (heap s') a = Some (without_marker env (loaded_rows env index_file))
    /\ files s' = files s
    /\ heap s ⊆ heap s'.
Proof.
  intros s.
  assert (exists a s', load env "log.p1i" (Some "log.p1log"%string) true s = (Ok a, s'))
    as (a&s'&Hrun) by (eexists _, _; vm_compute; reflexivity).
  destruct (load_returns_rows env s _ _ _ a s' Hrun) as (index_file&H).
  exists a, s', index_file. split; [exact Hrun|exact H].
Defined.

(** An index file of 0 bytes next to a data file of 0 bytes. *)
Lemma load_empty_index_file_witness :
  let s := disk [("log.p1i"%string, []); ("log.p1log"%string, [])] in
  let r := load env "log.p1i" None true s in
  fst r = Raise IndexError /\ files (snd r) = files s.
Proof.
  intros s r.
  exact (load_empty_index_file env s "log.p1i" None true [] eq_refl ltac:(simpl; lia)).
Defined.

(** The rows of the scenario, saved with no data path. *)
Lemma save_without_marker_witness :
  exists s' : state,
    save env (index_on rows) "log.p1i" None (memory rows []) = (Ok tt, s')
    /\ files s'
       = <["log.p1i"%string := rows_to_bytes (map (to_raw_row env) rows)]>
           (files (memory rows []))
    /\ length (rows_to_bytes (map (to_raw_row env) rows)) = (length rows * 14)%nat.
Proof.
  apply (save_without_marker env (memory rows []) (index_on rows) "log.p1i" None rows).
  - vm_compute. reflexivity.
  - discriminate.
  - by left.
Defined.

(** The rows of the scenario, saved next to a data file that is not
    there. *)
Lemma save_fails_before_writing_witness :
  save env (index_on rows) "log.p1i" (Some "log.p1log"%string) (memory rows [])
  = (Raise (FileNotFoundError "log.p1log"), memory rows []).
Proof.
  destruct (save_fails_before_writing env (memory rows []) (index_on rows) "log.p1i"
              (Some "log.p1log"%string) rows) as [_ H]; [vm_compute; reflexivity|].
  apply H; [reflexivity|reflexivity|discriminate|reflexivity].
Defined.

(** An index file with one message and the EOF marker for the 52 bytes of
    the data file, opened and saved again. *)
Lemma load_then_save_witness :
  let s := disk [("log.p1i"%string, index_with_marker);
                 ("log.p1log"%string, message 28)] in
  exists (index : FileIndex) (s1 s2 : state),
    __init__ env (Some "log.p1i"%string) (Some "log.p1log"%string) true None None s
    = (Ok index, s1)
    /\ contents (heap s1) (_data index) = Some (map (from_raw_row env) [Raw.Row 10 5 0])
    /\ save env index "log.p1i" (Some "log.p1log"%string) s1 = (Ok tt, s2)
    /\ files s2 = files s.
Proof.
  intros s.
  apply (load_then_save env s "log.p1i" "log.p1log" true [Raw.Row 10 5 0] (message 28)).
  - vm_compute. reflexivity.
  - repeat constructor; first [vm_compute; discriminate|vm_compute; reflexivity].
  - intros r [= <-]. vm_compute. discriminate.
  - vm_compute. reflexivity.
  - discriminate.
Defined.

(** The time range from 10.0 on the rows of the scenario, with the hint
    [remove_nans]. *)
Lemma get_time_range_nans_witness :
  exists (index : FileIndex) (s' : state),
    get_time_range env (index_on rows) (Some (time_of_Z 10)) None
      (Some "remove_nans"%string) (memory rows [])
    = (Ok index, s')
    /\ contents (heap s') (_data index)
       = Some (List.filter valid (time_block rows (Some (time_of_Z 10)) None)).
Proof.
  destruct (get_time_range_nans env (memory rows []) (index_on rows) rows
              (Some (time_of_Z 10)) None) as (_&H&_);
    [vm_compute; reflexivity|discriminate|].
  exact H.
Defined.

(** [index['time']] on an empty index. *)
Lemma getitem_empty_index_witness :
  __getitem__ env (index_on []) (key_str "time") (memory [] [])
  = (Ok (got_index {| _data := Ndarray (fresh (dom (heap (memory [] [])))) [];
                      t0 := None |}),
     allocated (index_buf []) (memory [] [])).
Proof.
  apply (getitem_empty_index env (memory [] []) (index_on []) (key_str "time"));
    [vm_compute; reflexivity|discriminate].
Defined.

(** On the three rows of the scenario: a key of another type, and the list
    of positions [[0, 3]]. *)
Lemma getitem_other_keys_witness :
  __getitem__ env (index_on rows) key_other (memory rows [])
  = (Raise (ValueError Unsupported_key_type), memory rows [])
  /\ __getitem__ env (index_on rows) (key_str "save") (memory rows [])
     = (Ok (got_member "save"), memory rows [])
  /\ __getitem__ env (index_on rows) (key_str "times") (memory rows [])
     = (Raise AttributeError, memory rows [])
  /\ __getitem__ env (index_on rows) (key_seq (map item_int [0; 3])) (memory rows [])
     = (Raise IndexError, memory rows []).
Proof.
  destruct (getitem_other_keys env (memory rows []) (index_on rows) rows)
    as (_&_&_&_&_&_&Hclass&Hnone&Hother&_&_&Hlist); [vm_compute; reflexivity|discriminate|].
  split; [exact Hother|].
  split; [apply Hclass; apply (bool_decide_eq_true_1 _); vm_compute; reflexivity|].
  split.
  { apply Hnone; [| |by left].
    - apply (bool_decide_eq_false_1 _). vm_compute. reflexivity.
    - apply (bool_decide_eq_false_1 _). vm_compute. reflexivity. }
  apply Hlist; [discriminate|].
  intros H. apply Forall_cons in H as [_ H]. apply Forall_cons in H as [H _].
  unfold in_bounds in H. simpl in H. lia.
Defined.

(** [index[-1]] on the three rows of the scenario. *)
Lemma getitem_int_any_witness :
  exists index : FileIndex,
    __getitem__ env (index_on rows) (key_int (-1)) (memory rows [])
    = (Ok (got_index index), memory rows [])
    /\ contents (heap (memory rows [])) (_data index) = Some (row_at rows (-1))
    /\ row_at rows (-1) = [].
Proof.
  destruct (getitem_int_any env (memory rows []) (index_on rows) rows (-1))
    as (index&Hrun&_&Hrows&Hnone&_); [vm_compute; reflexivity|discriminate|].
  exists index. split; [exact Hrun|]. split; [exact Hrows|]. apply Hnone. by left.
Defined.

(** [index[10.0:]] on the three rows of the scenario. *)
Lemma getitem_time_slice_witness :
  __getitem__ env (index_on rows)
    (key_slice (Some (bound_time (time_of_Z 10))) None None) (memory rows [])
  = (index <- get_time_range env (index_on rows) (Some (time_of_Z 10)) None None ;;
     ret (got_index index)) (memory rows []).
Proof.
  destruct (getitem_time_slice env (memory rows []) (index_on rows) rows)
    as [H _]; [vm_compute; reflexivity|discriminate|].
  exact (H (Some (bound_time (time_of_Z 10))) None None eq_refl).
Defined.

(** Four calls of [next] on the three rows of the scenario, with a
    [MessageType] that knows every value. *)
Lemma iteration_visits_rows_witness :
  (it <- __iter__ (index_on rows) ;; nexts Ok (length rows + 1) it) (memory rows [])
  = (Ok (map (next_of Ok) rows ++ repeat StopIteration 1), memory rows []).
Proof.
  destruct (iteration_visits_rows Ok (memory rows []) (index_on rows) rows 1) as [H _];
    [vm_compute; reflexivity|].
  exact H.
Defined.

(** A builder with the three messages of the scenario, saved next to a data
    file of 52 bytes. *)
Lemma builder_save_writes_witness :
  let s := disk [("log.p1log"%string, repeat Byte.x00 52)] in
  exists (index : FileIndex) (s' : state),
    builder_save env (appended messages) "log.p1i" (Some "log.p1log"%string) s
    = (Ok index, s')
    /\ contents (heap s') (_data index) = Some (map row_of_message messages)
    /\ builder_len (appended messages) = 3.
Proof.
  intros s.
  destruct (builder_save_writes env s messages "log.p1i" "log.p1log" (repeat Byte.x00 52))
    as (index&s'&Hrun&Hrows&Hlen&_).
  { repeat constructor; first [vm_compute; discriminate|vm_compute; reflexivity]. }
  { vm_compute. split; [discriminate|reflexivity]. }
  { vm_compute. split; [discriminate|reflexivity]. }
  { vm_compute. reflexivity. }
  { vm_compute. reflexivity. }
  exists index, s'. split; [exact Hrun|]. split; [exact Hrows|exact Hlen].
Defined.

(** The same builder, and the index file opened again. *)
Lemma builder_save_then_open_witness :
  let s := disk [("log.p1log"%string, repeat Byte.x00 52)] in
  exists (built opened : FileIndex) (s1 s2 : state),
    builder_save env (appended messages) "log.p1i" (Some "log.p1log"%string) s
    = (Ok built, s1)
    /\ __init__ env (Some "log.p1i"%string) (Some "log.p1log"%string) true None None s1
       = (Ok opened, s2)
    /\ contents (heap s2) (_data built) = Some (map row_of_message messages)
    /\ contents (heap s2) (_data opened)
       = Some (map stored_row (map row_of_message messages))
    /\ t0 opened = stored_time <$> t0 built.
Proof.
  intros s.
  apply (builder_save_then_open env s messages "log.p1i" "log.p1log" true
           (repeat Byte.x00 52)).
  - discriminate.
  - vm_compute. reflexivity.
  - repeat constructor; first [vm_compute; discriminate|vm_compute; reflexivity].
  - repeat constructor; vm_compute; discriminate.
  - vm_compute. split; [discriminate|reflexivity].
  - vm_compute. split; [discriminate|reflexivity].
  - vm_compute. reflexivity.
  - discriminate.
  - vm_compute. split; [discriminate|reflexivity].
  - discriminate.
Defined.

(** A raw array with a message at time 10 and an EOF marker. *)
Lemma raw_round_trip_witness :
  let rs := [Raw.Row 10 5 0; Raw.Row 0xFFFFFFFF 0 52] in
  let s := State {[1%positive := raw_buf rs]} ∅ in
  exists (a : ndarray) (s' : state),
    (data <- _from_raw env (Ndarray 1%positive [0; 1]%nat) ;; _to_raw env data) s = (Ok a, s')
    /\ raw_contents (heap s') a = Some rs
    /\ base a <> 1%positive
    /\ raw_contents (heap s') (Ndarray 1%positive [0; 1]%nat) = Some rs
    /\ files s' = files s.
Proof.
  intros rs s.
  apply (raw_round_trip env s (Ndarray 1%positive [0; 1]%nat) rs).
  - vm_compute. reflexivity.
  - repeat constructor; first [vm_compute; discriminate|vm_compute; reflexivity].
Defined.

(** [log.p1log] and [log.p1i], with [posixpath.splitext]. *)
Lemma load_from_get_path_witness :
  let s := disk [("log.p1i"%string, index_with_marker);
                 ("log.p1log"%string, message 28)] in
  get_path env "log.p1log" = "log.p1i"%string
  /\ load env (get_path env "log.p1log") None true s
     = load env "log.p1i" (Some "log.p1log"%string) true s.
Proof.
  intros s.
  apply (load_from_get_path env s "log" true (message 28)); vm_compute; reflexivity.
Defined.

(** The constructor on the list of the three rows of the scenario. *)
Lemma init_t0_first_valid_witness :
  exists (index : FileIndex) (s' : state),
    __init__ env None None true (Some (data_list rows)) None (disk []) = (Ok index, s')
    /\ contents (heap s') (_data index) = Some rows
    /\ t0 index = Some (time_of_Z 10).
Proof.
  destruct (init_t0_first_valid env (disk []) rows) as (index&s'&Hrun&Hrows&_&Hfirst).
  { repeat constructor; first [vm_compute; discriminate|vm_compute; reflexivity]. }
  exists index, s'. split; [exact Hrun|]. split; [exact Hrows|].
  apply (Hfirst 0%nat (Entry (time_of_Z 10) 5 0)); [reflexivity|reflexivity|].
  intros j e' Hj. lia.
Defined.

(** [index[-1]] and [index[[-1]]] on the three rows of the scenario. *)
Lemma getitem_last_position_empty_witness :
  returns_rows (__getitem__ env (index_on rows) (key_int (-1)) (memory rows [])) []
  /\ returns_rows (__getitem__ env (index_on rows) (key_seq [item_int (-1)]) (memory rows []))
       [Entry NaN 99 40].
Proof.
  destruct (getitem_last_position_empty env (memory rows []) (index_on rows)
              [Entry (time_of_Z 10) 5 0; Entry (Fin (21 # 2)) 5 20] (Entry NaN 99 40))
    as (_&Hint&Hlist); [vm_compute; reflexivity|].
  split; [exact Hint|exact Hlist].
Defined.

End witnesses_of_the_module.
